(** * Benchmark analysis script: aggregation and statistics engine

    A shallow embedding of [cli/scripts/analyze_benchmarks.py].

    Decoded JSON values are an inductive type, Python dictionaries
    are association lists in insertion order, Python exceptions are
    the [Raise] branch of a result type, and what numpy, scipy and
    the Python formatting builtins compute is taken through two
    interfaces ([Builtins], [SciLib]) whose fields are named after
    the calls of the script. *)

From Stdlib Require Import ZArith List String Ascii Bool Floats.
From Stdlib Require Import Permutation Sorted Lia DecimalString.
Import ListNotations.

#[local] Set Warnings "-register-all,-inexact-float".

Local Open Scope Z_scope.
Local Open Scope string_scope.

(** ** Python values *)

(** A Python number as [json.loads] produces it: an unbounded [int]
    or a binary64 [float]. *)
Inductive pynum : Type :=
| PInt (z : Z)
| PFloat (f : float).

(** A decoded JSON document.  An object keeps its keys in insertion
    order, as a Python [dict] does; [None] is [JNull]. *)
Inductive json : Type :=
| JNull
| JBool (b : bool)
| JNum (x : pynum)
| JStr (s : string)
| JArr (l : list json)
| JObj (d : list (string * json)).

(** The exceptions the script can let escape. *)
Inductive exn : Type :=
| KeyError (k : string)
| TypeError
| AttributeError
| IndexError
| ValueError
| OverflowError
| JSONDecodeError (msg : string).

Inductive result (A : Type) : Type :=
| Ok (a : A)
| Raise (e : exn).
Arguments Ok {A} a.
Arguments Raise {A} e.

Definition bind {A B : Type} (m : result A) (k : A -> result B) : result B :=
  match m with
  | Ok a => k a
  | Raise e => Raise e
  end.

Notation "x <- m ;; k" := (bind m (fun x => k))
  (at level 61, m at next level, right associativity).
Notation "' pat <- m ;; k" := (bind m (fun x => match x with pat => k end))
  (at level 61, pat pattern, m at next level, right associativity).

Definition is_ok {A : Type} (m : result A) : bool :=
  match m with Ok _ => true | Raise _ => false end.

(** ** Strings *)

(** Strings are UTF-8 byte strings.  Lower-casing acts on the ASCII
    letters; no other code point lower-cases to an ASCII letter that
    the script looks for. *)
Definition lower_ascii (c : ascii) : ascii :=
  let n := nat_of_ascii c in
  if (Nat.leb 65 n && Nat.leb n 90)%bool then ascii_of_nat (n + 32) else c.

Fixpoint str_lower (s : string) : string :=
  match s with
  | EmptyString => EmptyString
  | String c t => String (lower_ascii c) (str_lower t)
  end.

(** [str_contains needle hay] is Python's [needle in hay] on strings. *)
Fixpoint str_contains (needle hay : string) : bool :=
  (String.prefix needle hay
   || match hay with
      | EmptyString => false
      | String _ t => str_contains needle t
      end)%bool.

(** [s.split(".")[0]]: the text before the first dot, or all of [s]. *)
Fixpoint before_dot (s : string) : string :=
  match s with
  | EmptyString => EmptyString
  | String c t => if Ascii.eqb c "."%char then EmptyString
                  else String c (before_dot t)
  end.

Definition str_of_Z (z : Z) : string := NilZero.string_of_int (Z.to_int z).

(** ** Dynamic operations on decoded values *)

Fixpoint dict_get {V : Type} (d : list (string * V)) (k : string) : option V :=
  match d with
  | [] => None
  | (k', v) :: d' => if String.eqb k k' then Some v else dict_get d' k
  end.

Definition dict_mem {V : Type} (d : list (string * V)) (k : string) : bool :=
  match dict_get d k with Some _ => true | None => false end.

(** [k in v] for a string [k]. *)
Definition py_contains (k : string) (v : json) : result bool :=
  match v with
  | JObj d => Ok (dict_mem d k)
  | JStr s => Ok (str_contains k s)
  | JArr l => Ok (existsb (fun x => match x with
                                    | JStr t => String.eqb k t
                                    | _ => false
                                    end) l)
  | _ => Raise TypeError
  end.

(** [v[k]] for a string [k]. *)
Definition py_getitem (v : json) (k : string) : result json :=
  match v with
  | JObj d => match dict_get d k with
              | Some x => Ok x
              | None => Raise (KeyError k)
              end
  | _ => Raise TypeError
  end.

(** [v.get(k, default)]. *)
Definition py_get (v : json) (k : string) (default : json) : result json :=
  match v with
  | JObj d => match dict_get d k with
              | Some x => Ok x
              | None => Ok default
              end
  | _ => Raise AttributeError
  end.

(** [v.lower()]. *)
Definition py_lower (v : json) : result string :=
  match v with
  | JStr s => Ok (str_lower s)
  | _ => Raise AttributeError
  end.

(** [v.split(".")[0]]. *)
Definition py_split_dot_0 (v : json) : result json :=
  match v with
  | JStr s => Ok (JStr (before_dot s))
  | _ => Raise AttributeError
  end.

(** [list(v.keys())[0]]. *)
Definition py_first_key (v : json) : result string :=
  match v with
  | JObj [] => Raise IndexError
  | JObj ((k, _) :: _) => Ok k
  | _ => Raise AttributeError
  end.

(** [for x in v]: the elements of a list, the characters of a string,
    the keys of a dict. *)
Fixpoint str_chars (s : string) : list json :=
  match s with
  | EmptyString => []
  | String c t => JStr (String c EmptyString) :: str_chars t
  end.

Definition py_iter (v : json) : result (list json) :=
  match v with
  | JArr l => Ok l
  | JStr s => Ok (str_chars s)
  | JObj d => Ok (map (fun kv => JStr (fst kv)) d)
  | _ => Raise TypeError
  end.

Definition float_is_zero (f : float) : bool := PrimFloat.eqb f 0%float.

(** Truth value of a decoded value in an [if]. *)
Definition py_truthy (v : json) : bool :=
  match v with
  | JNull => false
  | JBool b => b
  | JNum (PInt z) => negb (z =? 0)%Z
  | JNum (PFloat f) => negb (float_is_zero f)
  | JStr s => negb (String.eqb s EmptyString)
  | JArr l => match l with [] => false | _ => true end
  | JObj d => match d with [] => false | _ => true end
  end.

(** ** Library interfaces *)

(** Python builtins whose result on a decoded value is not spelled
    out by the script. *)
Class Builtins : Type := {
  (** [str(v)] of a float, a list or a dict *)
  py_repr : json -> string;
  (** [format(x, ".kf")] *)
  fmt_f : nat -> pynum -> string;
  (** [sorted(keys)] on the keys of a per-round dict *)
  py_sorted : list json -> result (list json);
  (** [float(v)] *)
  py_float : json -> result json;
  (** [int(x)] of a numpy float *)
  py_int : float -> result Z
}.

(** An f-string field [{v}]. *)
Definition py_str `{Builtins} (v : json) : string :=
  match v with
  | JStr s => s
  | JNull => "None"
  | JBool true => "True"
  | JBool false => "False"
  | JNum (PInt z) => str_of_Z z
  | _ => py_repr v
  end.

(** ** GroupKeyResolver *)

Definition parse_prover_type (prover : json) : result (string * json * json) :=
  is_direct <- py_contains "Direct" prover ;;
  if is_direct then Ok ("Direct", JNull, JNull) else
  is_proxy <- py_contains "Proxy" prover ;;
  if is_proxy then
    proxy_wrapper <- py_getitem prover "Proxy" ;;
    proxy_config <- py_get proxy_wrapper "proxy" proxy_wrapper ;;
    host <- py_get proxy_config "host" (JStr EmptyString) ;;
    host_lower <- py_lower host ;;
    if str_contains "tee" host_lower
    then Ok ("Proxy-TEE", host, JNull)
    else Ok ("Proxy", host, JNull)
  else
  is_single <- py_contains "TlsSingleShot" prover ;;
  if is_single then
    payload <- py_getitem prover "TlsSingleShot" ;;
    notary <- py_getitem payload "notary" ;;
    domain <- py_get notary "domain" JNull ;;
    opt <- py_get notary "network_optimization" JNull ;;
    Ok ("TlsSingleShot", domain, opt)
  else
  is_per_message <- py_contains "TlsPerMessage" prover ;;
  if is_per_message then
    payload <- py_getitem prover "TlsPerMessage" ;;
    notary <- py_getitem payload "notary" ;;
    domain <- py_get notary "domain" JNull ;;
    opt <- py_get notary "network_optimization" JNull ;;
    Ok ("TlsPerMessage", domain, opt)
  else
    k <- py_first_key prover ;;
    Ok (k, JNull, JNull).

(** Lines 144-151 of [load_and_aggregate]: the group key built from
    what [parse_prover_type] returned. *)
Definition group_key `{Builtins}
    (prover_type : string) (notary_domain network_opt : json) : result string :=
  key <- (if py_truthy notary_domain then
            has_dot <- py_contains "." notary_domain ;;
            short_domain <- (if has_dot then py_split_dot_0 notary_domain
                             else Ok notary_domain) ;;
            Ok (prover_type ++ " (" ++ py_str short_domain ++ ")")
          else Ok prover_type) ;;
  if py_truthy network_opt
  then Ok (key ++ " [" ++ py_str network_opt ++ "]")
  else Ok key.

(** The key a record is filed under (lines 143-151). *)
Definition record_key `{Builtins} (record : json) : result string :=
  prover <- py_getitem record "prover" ;;
  '(prover_type, notary_domain, network_opt) <- parse_prover_type prover ;;
  group_key prover_type notary_domain network_opt.

(** ** Dictionaries *)

(** A Python [dict] in insertion order.  [store] on a key that is
    present replaces the value where it stands and keeps the key
    first inserted; on a new key it appends. *)
Section Dict.
Context {K V : Type} (eqb : K -> K -> bool).

Fixpoint lookup (d : list (K * V)) (k : K) : option V :=
  match d with
  | [] => None
  | (k', v) :: d' => if eqb k k' then Some v else lookup d' k
  end.

Fixpoint store (d : list (K * V)) (k : K) (v : V) : list (K * V) :=
  match d with
  | [] => [(k, v)]
  | (k', v') :: d' =>
      if eqb k k' then (k', v) :: d' else (k', v') :: store d' k v
  end.
End Dict.

(** What a hashable decoded value is as a dict key: [True == 1 == 1.0]
    are one key, as their hashes and [==] make them. *)
Inductive rkey : Type :=
| KNone
| KInt (z : Z)
| KFloat (f : spec_float)
| KStr (s : string).

Definition float_key (f : float) : rkey :=
  match Prim2SF f with
  | S754_zero _ => KInt 0
  | S754_finite s m e =>
      let v := if s then Z.neg m else Z.pos m in
      if (0 <=? e)%Z then KInt (v * 2 ^ e)
      else if (Z.pos m mod 2 ^ (- e) =? 0)%Z then KInt (v / 2 ^ (- e))
      else KFloat (S754_finite s m e)
  | sf => KFloat sf
  end.

(** [hash(v)] raises on a list or a dict. *)
Definition dict_key (v : json) : result rkey :=
  match v with
  | JNull => Ok KNone
  | JBool b => Ok (KInt (if b then 1 else 0))
  | JNum (PInt z) => Ok (KInt z)
  | JNum (PFloat f) => Ok (float_key f)
  | JStr s => Ok (KStr s)
  | JArr _ | JObj _ => Raise TypeError
  end.

Definition spec_float_eq_dec (a b : spec_float) : {a = b} + {a <> b}.
Proof.
  decide equality; auto using Bool.bool_dec, Pos.eq_dec, Z.eq_dec.
Defined.

Definition rkey_eq_dec (a b : rkey) : {a = b} + {a <> b}.
Proof.
  decide equality; auto using Z.eq_dec, spec_float_eq_dec, string_dec.
Defined.

Definition rkey_eqb (a b : rkey) : bool :=
  if rkey_eq_dec a b then true else false.

(** ** Aggregator *)

Record RoundStats : Type := mkRoundStats {
  round_num : json;
  durations_ms : list json;
  request_bytes : list json;
  response_bytes : list json
}.

Record ProverStats : Type := mkProverStats {
  prover_type : string;
  notary_domain : json;
  total_durations_ms : list json;
  setup_times_ms : list json;
  rounds_stats : list (rkey * RoundStats);
  all_round_durations_ms : list json;
  success_count : Z;
  failure_count : Z
}.

Definition provers_t : Type := list (string * ProverStats).

Definition new_RoundStats (n : json) : RoundStats := mkRoundStats n [] [] [].

Definition new_ProverStats (pt : string) (dom : json) : ProverStats :=
  mkProverStats pt dom [] [] [] [] 0 0.

Fixpoint foldM {A B : Type} (f : A -> B -> result A) (l : list B) (a : A)
  : result A :=
  match l with
  | [] => Ok a
  | x :: l' => a' <- f a x ;; foldM f l' a'
  end.

(** Body of the loop over [results.get("rounds", [])] (lines 170-179). *)
Definition ingest_round (ps : ProverStats) (round_data : json)
  : result ProverStats :=
  rn <- py_getitem round_data "round" ;;
  rk <- dict_key rn ;;
  let rs := match lookup rkey_eqb (rounds_stats ps) rk with
            | Some rs => rs
            | None => new_RoundStats rn
            end in
  duration <- py_getitem round_data "duration_ms" ;;
  req <- py_getitem round_data "request_bytes" ;;
  resp <- py_getitem round_data "response_bytes" ;;
  let rs' := mkRoundStats (round_num rs)
               (durations_ms rs ++ [duration])%list
               (request_bytes rs ++ [req])%list
               (response_bytes rs ++ [resp])%list in
  Ok (mkProverStats (prover_type ps) (notary_domain ps)
        (total_durations_ms ps) (setup_times_ms ps)
        (store rkey_eqb (rounds_stats ps) rk rs')
        (all_round_durations_ms ps ++ [duration])%list
        (success_count ps) (failure_count ps)).

(** Lines 161-181: what one record does to its group. *)
Definition ingest_outcome (ps : ProverStats) (record : json)
  : result ProverStats :=
  success <- py_get record "success" (JBool false) ;;
  if py_truthy success then
    results <- py_getitem record "results" ;;
    total <- py_getitem results "total_duration_ms" ;;
    setup <- py_get results "setup_time_ms" JNull ;;
    rounds <- py_get results "rounds" (JArr []) ;;
    round_list <- py_iter rounds ;;
    foldM ingest_round round_list
      (mkProverStats (prover_type ps) (notary_domain ps)
         (total_durations_ms ps ++ [total])%list
         (if py_truthy setup then (setup_times_ms ps ++ [setup])%list
          else setup_times_ms ps)
         (rounds_stats ps) (all_round_durations_ms ps)
         (success_count ps + 1) (failure_count ps))
  else
    Ok (mkProverStats (prover_type ps) (notary_domain ps)
          (total_durations_ms ps) (setup_times_ms ps)
          (rounds_stats ps) (all_round_durations_ms ps)
          (success_count ps) (failure_count ps + 1)).

(** Lines 141-181: one decoded record folded into [provers]. *)
Definition ingest `{Builtins} (provers : provers_t) (record : json)
  : result provers_t :=
  prover <- py_getitem record "prover" ;;
  '(pt, dom, opt) <- parse_prover_type prover ;;
  key <- group_key pt dom opt ;;
  let ps := match lookup String.eqb provers key with
            | Some ps => ps
            | None => new_ProverStats pt dom
            end in
  ps' <- ingest_outcome ps record ;;
  Ok (store String.eqb provers key ps').

(** A line of an input file as the loop sees it: blank once stripped,
    text that [json.loads] rejects with the given message, or text
    that decodes to a value. *)
Inductive line : Type :=
| Blank
| Malformed (msg : string)
| Record_ (j : json).

Definition ingest_line `{Builtins} (provers : provers_t) (l : line)
  : result provers_t :=
  match l with
  | Blank => Ok provers
  | Malformed msg => Raise (JSONDecodeError msg)
  | Record_ j => ingest provers j
  end.

Definition load_and_aggregate `{Builtins} (files : list (list line))
  : result provers_t :=
  foldM (fun provers f => foldM ingest_line f provers) files [].

(** ** StatsEngine *)

Definition Z2float (z : Z) : float :=
  SF2Prim (binary_normalize prec emax z 0 false).

Definition to_float (x : pynum) : float :=
  match x with
  | PInt z => Z2float z
  | PFloat f => f
  end.

(** [x < c] and [x >= c] for an integer literal [c]. *)
Definition num_lt (x : pynum) (c : Z) : bool :=
  match x with
  | PInt z => (z <? c)%Z
  | PFloat f => PrimFloat.ltb f (Z2float c)
  end.

Definition num_ge (x : pynum) (c : Z) : bool :=
  match x with
  | PInt z => (c <=? z)%Z
  | PFloat f => PrimFloat.leb (Z2float c) f
  end.

(** What the script asks of numpy and scipy.  A series is passed as
    the Python list it is, unchecked: a call on a series the library
    does not accept (a [null], a string, an object) raises, and the
    exception is the library's; a call that returns is taken to
    return a number (two for the interval and for the test).  [np_std]
    and [np_var] are the calls with [ddof=1], [stats_ttest_ind] the
    call with [equal_var=False]; [np_ceil] and [x ** k] take a float
    and return one. *)
Class SciLib : Type := {
  np_mean : list json -> result float;
  np_std : list json -> result float;
  np_var : list json -> result float;
  np_min : list json -> result pynum;
  np_max : list json -> result pynum;
  np_median : list json -> result float;
  np_ceil : float -> float;
  (** [x ** k] on a numpy float *)
  np_power : float -> Z -> float;
  stats_sem : list json -> result float;
  stats_t_interval : float -> Z -> float -> float -> result (float * float);
  stats_ttest_ind : list json -> list json -> result (float * float)
}.

Definition compute_ci `{SciLib} (data : list json) (confidence : float)
  : result (float * float * float) :=
  if (List.length data <? 2)%nat then
    mean <- match data with
            | [] => Ok 0%float
            | _ => np_mean data
            end ;;
    Ok (mean, mean, mean)
  else
    mean <- np_mean data ;;
    sem <- stats_sem data ;;
    ci <- stats_t_interval confidence (Z.of_nat (List.length data) - 1)
            mean sem ;;
    Ok (mean, fst ci, snd ci).

Definition confidence_default : float := 0.95%float.

Definition jint (z : Z) : json := JNum (PInt z).
Definition jfloat (f : float) : json := JNum (PFloat f).

(** The summary is the dict the script returns, key by key, the calls
    into numpy and scipy in the order of lines 78-101.  The [mean] of
    line 78 is replaced by the one [compute_ci] returns (line 82)
    before it is read. *)
Definition compute_stats `{SciLib} (data : list json)
  : result (list (string * json)) :=
  match data with
  | [] =>
      Ok [("n", jint 0); ("mean", jint 0); ("std", jint 0); ("sem", jint 0);
          ("ci_lower", jint 0); ("ci_upper", jint 0);
          ("min", jint 0); ("max", jint 0); ("median", jint 0);
          ("cv", jint 0); ("adequate_sample", JBool false)]
  | _ =>
      let n := Z.of_nat (List.length data) in
      _ <- np_mean data ;;
      std <- (if (1 <? n)%Z
              then (s <- np_std data ;; Ok (PFloat s)) else Ok (PInt 0)) ;;
      sem <- (if (1 <? n)%Z
              then (s <- stats_sem data ;; Ok (PFloat s)) else Ok (PInt 0)) ;;
      ' (mean, ci_lower, ci_upper) <- compute_ci data confidence_default ;;
      let cv := if PrimFloat.ltb 0 mean
                then PFloat (to_float std / mean * 100)%float
                else PInt 0 in
      let ci_width_pct :=
        if PrimFloat.ltb 0 mean
        then PFloat ((ci_upper - ci_lower) / mean * 100)%float
        else PInt 100 in
      let adequate_sample :=
        ((5 <=? n)%Z && num_lt cv 30 && num_lt ci_width_pct 40)%bool in
      lo <- np_min data ;;
      hi <- np_max data ;;
      median <- np_median data ;;
      Ok [("n", jint n); ("mean", jfloat mean);
          ("std", JNum std); ("sem", JNum sem);
          ("ci_lower", jfloat ci_lower); ("ci_upper", jfloat ci_upper);
          ("min", JNum lo); ("max", JNum hi);
          ("median", jfloat median);
          ("cv", JNum cv); ("ci_width_pct", JNum ci_width_pct);
          ("adequate_sample", JBool adequate_sample)]
  end.

(** ** SignificanceTester *)

Record SigResult : Type := mkSigResult {
  comparison : string;
  t_statistic : float;
  p_value : float;
  cohens_d : pynum;
  significant_005 : bool;
  significant_001 : bool
}.

(** Lines 198-217: the entry appended for one pair.  The two means of
    line 208 are computed only when [pooled_std > 0]. *)
Definition welch_entry `{SciLib} (key1 : string) (ps1 : ProverStats)
    (key2 : string) (ps2 : ProverStats) : result SigResult :=
  test <- stats_ttest_ind (total_durations_ms ps1) (total_durations_ms ps2) ;;
  let t_stat := fst test in
  let p := snd test in
  var1 <- np_var (total_durations_ms ps1) ;;
  var2 <- np_var (total_durations_ms ps2) ;;
  let pooled_std := PrimFloat.sqrt ((var1 + var2) / 2)%float in
  d <- (if PrimFloat.ltb 0 pooled_std
        then (mean1 <- np_mean (total_durations_ms ps1) ;;
              mean2 <- np_mean (total_durations_ms ps2) ;;
              Ok (PFloat ((mean1 - mean2) / pooled_std)%float))
        else Ok (PInt 0)) ;;
  Ok (mkSigResult (key1 ++ " vs " ++ key2) t_stat p d
        (PrimFloat.ltb p 0.05%float) (PrimFloat.ltb p 0.01%float)).

(** The inner loop: [key1] against every later key. *)
Fixpoint tests_against `{SciLib} (key1 : string) (ps1 : ProverStats)
    (later : provers_t) : result (list SigResult) :=
  match later with
  | [] => Ok []
  | (key2, ps2) :: later' =>
      if ((2 <=? List.length (total_durations_ms ps1))%nat
          && (2 <=? List.length (total_durations_ms ps2))%nat)%bool
      then
        entry <- welch_entry key1 ps1 key2 ps2 ;;
        results <- tests_against key1 ps1 later' ;;
        Ok (entry :: results)
      else tests_against key1 ps1 later'
  end.

(** The outer loop over the keys in insertion order; in a dict,
    [provers[key]] is the value listed with [key]. *)
Fixpoint perform_significance_tests `{SciLib} (provers : provers_t)
  : result (list SigResult) :=
  match provers with
  | [] => Ok []
  | (key1, ps1) :: later =>
      results <- tests_against key1 ps1 later ;;
      results' <- perform_significance_tests later ;;
      Ok (results ++ results')%list
  end.

(** ** scipy's Welch test

    [scipy.stats.ttest_ind(a, b, equal_var=False)] as scipy computes
    it from the variances and the means of the two series: the
    variances over the sizes, the Welch-Satterthwaite degrees of
    freedom with [1] in place of a NaN, the statistic, and the
    two-sided p-value.  The tail probability of Student's distribution,
    [2 * t.sf(|t|, df)], is left open as [tail]; a statistic that is
    NaN has a NaN p-value.  This is the library's code, not the
    script's: it serves to settle what the tester emits on degenerate
    series. *)
Definition welch_ttest (mean var : list json -> result float)
    (tail : float -> float -> float) (a b : list json)
  : result (float * float) :=
  v1 <- var a ;;
  v2 <- var b ;;
  mean1 <- mean a ;;
  mean2 <- mean b ;;
  let n1 := Z2float (Z.of_nat (List.length a)) in
  let n2 := Z2float (Z.of_nat (List.length b)) in
  let vn1 := (v1 / n1)%float in
  let vn2 := (v2 / n2)%float in
  let df := ((vn1 + vn2) * (vn1 + vn2)
             / (vn1 * vn1 / (n1 - 1) + vn2 * vn2 / (n2 - 1)))%float in
  let df := if PrimFloat.is_nan df then 1%float else df in
  let denom := PrimFloat.sqrt (vn1 + vn2) in
  let t := ((mean1 - mean2) / denom)%float in
  let p := if PrimFloat.is_nan t then PrimFloat.nan
           else tail df (PrimFloat.abs t) in
  Ok (t, p).

(** A p-value is a probability. *)
Definition in_unit_interval (p : float) : bool :=
  (PrimFloat.leb 0 p && PrimFloat.leb p 1)%bool.

(** ** Shapes of prover descriptors *)

Definition is_obj (v : json) : bool :=
  match v with JObj _ => true | _ => false end.

(** A proxy config the resolver can read: an object whose [host], if
    any, is a string. *)
Definition host_ok (cfg : json) : bool :=
  match cfg with
  | JObj c => match dict_get c "host" with
              | None | Some (JStr _) => true
              | Some _ => false
              end
  | _ => false
  end.

Definition proxy_ok (wrapper : json) : bool :=
  match wrapper with
  | JObj w => match dict_get w "proxy" with
              | Some cfg => host_ok cfg
              | None => host_ok wrapper
              end
  | _ => false
  end.

Definition notary_ok (payload : json) : bool :=
  match payload with
  | JObj p => match dict_get p "notary" with
              | Some notary => is_obj notary
              | None => false
              end
  | _ => false
  end.

(** The descriptors on which [parse_prover_type] returns. *)
Definition well_shaped (prover : json) : bool :=
  match prover with
  | JObj d =>
      if dict_mem d "Direct" then true else
      match dict_get d "Proxy" with
      | Some w => proxy_ok w
      | None =>
          match dict_get d "TlsSingleShot" with
          | Some p => notary_ok p
          | None =>
              match dict_get d "TlsPerMessage" with
              | Some p => notary_ok p
              | None => match d with [] => false | _ => true end
              end
          end
      end
  | JStr s => str_contains "Direct" s
  | JArr l => existsb (fun x => match x with
                                | JStr t => String.eqb "Direct" t
                                | _ => false
                                end) l
  | _ => false
  end.

(** The prover descriptor [{"Proxy": {"proxy": {"host": host}}}]. *)
Definition proxy_prover (host : string) : json :=
  JObj [("Proxy", JObj [("proxy", JObj [("host", JStr host)])])].

(** A record with that prover and any further fields. *)
Definition proxy_record (host : string) (fields : list (string * json)) : json :=
  JObj (("prover", proxy_prover host) :: fields).

(** ** What a record contributes

    Every failure of [ingest] comes from reading the record, never
    from the state.  The readings of a record are gathered in a
    [Digest]; folding a digest into the state cannot fail. *)

Record RoundEntry : Type := mkRoundEntry {
  re_num : json;
  re_key : rkey;
  re_duration : json;
  re_request : json;
  re_response : json
}.

Inductive Outcome : Type :=
| Failed
| Succeeded (total setup : json) (entries : list RoundEntry).

Record Digest : Type := mkDigest {
  dg_key : string;
  dg_type : string;
  dg_domain : json;
  dg_outcome : Outcome
}.

Fixpoint mapM {A B : Type} (f : A -> result B) (l : list A) : result (list B) :=
  match l with
  | [] => Ok []
  | x :: l' => y <- f x ;; ys <- mapM f l' ;; Ok (y :: ys)
  end.

Definition parse_round (round_data : json) : result RoundEntry :=
  rn <- py_getitem round_data "round" ;;
  rk <- dict_key rn ;;
  duration <- py_getitem round_data "duration_ms" ;;
  req <- py_getitem round_data "request_bytes" ;;
  resp <- py_getitem round_data "response_bytes" ;;
  Ok (mkRoundEntry rn rk duration req resp).

Definition parse_outcome (record : json) : result Outcome :=
  success <- py_get record "success" (JBool false) ;;
  if py_truthy success then
    results <- py_getitem record "results" ;;
    total <- py_getitem results "total_duration_ms" ;;
    setup <- py_get results "setup_time_ms" JNull ;;
    rounds <- py_get results "rounds" (JArr []) ;;
    round_list <- py_iter rounds ;;
    entries <- mapM parse_round round_list ;;
    Ok (Succeeded total setup entries)
  else Ok Failed.

Definition digest `{Builtins} (record : json) : result Digest :=
  prover <- py_getitem record "prover" ;;
  '(pt, dom, opt) <- parse_prover_type prover ;;
  key <- group_key pt dom opt ;;
  outcome <- parse_outcome record ;;
  Ok (mkDigest key pt dom outcome).

Definition digest_line `{Builtins} (l : line) : result (list Digest) :=
  match l with
  | Blank => Ok []
  | Malformed msg => Raise (JSONDecodeError msg)
  | Record_ j => d <- digest j ;; Ok [d]
  end.

(** Insert-or-update of one dict entry. *)
Definition upsert {K V : Type} (eqb : K -> K -> bool)
    (d : list (K * V)) (k : K) (init : V) (f : V -> V) : list (K * V) :=
  store eqb d k (f (match lookup eqb d k with
                    | Some v => v
                    | None => init
                    end)).

Definition extend_round (e : RoundEntry) (rs : RoundStats) : RoundStats :=
  mkRoundStats (round_num rs)
    (durations_ms rs ++ [re_duration e])%list
    (request_bytes rs ++ [re_request e])%list
    (response_bytes rs ++ [re_response e])%list.

Definition file_round (rounds : list (rkey * RoundStats)) (e : RoundEntry)
  : list (rkey * RoundStats) :=
  upsert rkey_eqb rounds (re_key e) (new_RoundStats (re_num e)) (extend_round e).

Definition apply_round (ps : ProverStats) (e : RoundEntry) : ProverStats :=
  mkProverStats (prover_type ps) (notary_domain ps)
    (total_durations_ms ps) (setup_times_ms ps)
    (file_round (rounds_stats ps) e)
    (all_round_durations_ms ps ++ [re_duration e])%list
    (success_count ps) (failure_count ps).

Definition apply_outcome (o : Outcome) (ps : ProverStats) : ProverStats :=
  match o with
  | Failed =>
      mkProverStats (prover_type ps) (notary_domain ps)
        (total_durations_ms ps) (setup_times_ms ps)
        (rounds_stats ps) (all_round_durations_ms ps)
        (success_count ps) (failure_count ps + 1)
  | Succeeded total setup entries =>
      fold_left apply_round entries
        (mkProverStats (prover_type ps) (notary_domain ps)
           (total_durations_ms ps ++ [total])%list
           (if py_truthy setup then (setup_times_ms ps ++ [setup])%list
            else setup_times_ms ps)
           (rounds_stats ps) (all_round_durations_ms ps)
           (success_count ps + 1) (failure_count ps))
  end.

Definition apply_digest (provers : provers_t) (d : Digest) : provers_t :=
  upsert String.eqb provers (dg_key d)
    (new_ProverStats (dg_type d) (dg_domain d)) (apply_outcome (dg_outcome d)).

(** The series a list of outcomes adds to a group. *)
Definition succeeded (o : Outcome) : bool :=
  match o with Succeeded _ _ _ => true | Failed => false end.

Definition totals_of (o : Outcome) : list json :=
  match o with Succeeded total _ _ => [total] | Failed => [] end.

Definition setups_of (o : Outcome) : list json :=
  match o with
  | Succeeded _ setup _ => if py_truthy setup then [setup] else []
  | Failed => []
  end.

Definition entries_of (o : Outcome) : list RoundEntry :=
  match o with Succeeded _ _ entries => entries | Failed => [] end.

Definition count {A : Type} (f : A -> bool) (l : list A) : Z :=
  Z.of_nat (List.length (filter f l)).

(** ** Batches *)

Definition lines_of (files : list (list line)) : list line := List.concat files.

(** A line is a record filed under [key]. *)
Definition keyed `{Builtins} (key : string) (l : line) : bool :=
  match l with
  | Record_ j => match record_key j with
                 | Ok k => String.eqb k key
                 | Raise _ => false
                 end
  | _ => false
  end.

(** The outcomes of the digests filed under [key], in batch order. *)
Definition outcomes_for (key : string) (ds : list Digest) : list Outcome :=
  map dg_outcome (filter (fun d => String.eqb key (dg_key d)) ds).

(** The group a list of outcomes builds from nothing. *)
Definition group_of (pt : string) (dom : json) (os : list Outcome)
  : ProverStats :=
  mkProverStats pt dom
    (flat_map totals_of os) (flat_map setups_of os)
    (fold_left file_round (flat_map entries_of os) [])
    (map re_duration (flat_map entries_of os))
    (count succeeded os) (count (fun o => negb (succeeded o)) os).

(** ** Malformed input *)

(** [record.get("success", False)] is truthy. *)
Definition is_successful (record : json) : bool :=
  match py_get record "success" (JBool false) with
  | Ok s => py_truthy s
  | Raise _ => false
  end.

(** A successful record without its [results]. *)
Definition missing_results (record : json) : bool :=
  (is_successful record && negb (is_ok (py_getitem record "results")))%bool.

(** A record without a prover the resolver accepts. *)
Definition unresolvable (record : json) : bool :=
  match py_getitem record "prover" with
  | Ok p => negb (well_shaped p)
  | Raise _ => true
  end.

Definition fatal (l : line) : bool :=
  match l with
  | Blank => false
  | Malformed _ => true
  | Record_ j => (missing_results j || unresolvable j)%bool
  end.

(** The setup times a group holds before a record is ingested. *)
Definition setup_times_before (provers : provers_t) (key : string) : list json :=
  match lookup String.eqb provers key with
  | Some ps => setup_times_ms ps
  | None => []
  end.

(** ** Comparing two runs *)

Definition option_rel {A : Type} (R : A -> A -> Prop) (x y : option A) : Prop :=
  match x, y with
  | Some a, Some b => R a b
  | None, None => True
  | _, _ => False
  end.

(** Two round accumulators hold the same observations. *)
Definition round_equiv (a b : RoundStats) : Prop :=
  Permutation (durations_ms a) (durations_ms b)
  /\ Permutation (request_bytes a) (request_bytes b)
  /\ Permutation (response_bytes a) (response_bytes b).

(** Two groups hold the same counts and the same observations. *)
Definition group_equiv (a b : ProverStats) : Prop :=
  success_count a = success_count b
  /\ failure_count a = failure_count b
  /\ Permutation (total_durations_ms a) (total_durations_ms b)
  /\ Permutation (setup_times_ms a) (setup_times_ms b)
  /\ Permutation (all_round_durations_ms a) (all_round_durations_ms b)
  /\ forall rk, option_rel round_equiv
                  (lookup rkey_eqb (rounds_stats a) rk)
                  (lookup rkey_eqb (rounds_stats b) rk).

Definition same_groups (p p' : provers_t) : Prop :=
  forall key, option_rel group_equiv
                (lookup String.eqb p key) (lookup String.eqb p' key).

(** The pairs the two loops of [perform_significance_tests] visit:
    every entry with every later one. *)
Fixpoint ordered_pairs {A : Type} (l : list A) : list (A * A) :=
  match l with
  | [] => []
  | a :: l' => (map (pair a) l' ++ ordered_pairs l')%list
  end.

Definition enough_data (pr : (string * ProverStats) * (string * ProverStats))
  : bool :=
  ((2 <=? List.length (total_durations_ms (snd (fst pr))))%nat
   && (2 <=? List.length (total_durations_ms (snd (snd pr))))%nat)%bool.

Definition entry_of `{SciLib}
    (pr : (string * ProverStats) * (string * ProverStats)) : result SigResult :=
  welch_entry (fst (fst pr)) (snd (fst pr)) (fst (snd pr)) (snd (snd pr)).

(** The pairs of groups a run tests. *)
Definition tested_pairs (provers : provers_t)
  : list ((string * ProverStats) * (string * ProverStats)) :=
  filter enough_data (ordered_pairs provers).

(** ** Renderers

    [print_report] prints as it goes: it is modelled by the chunks of
    text written up to the point where it stops, with the way it
    stopped, so that a report cut short by an exception keeps what was
    printed before.  An export is modelled by what it has written when
    it returns: the rows of [export_csv], the data [export_json] hands
    to [json.dumps]; opening, writing and closing the output file are
    left out. *)

Definition nl : string := String (ascii_of_nat 10) EmptyString.

Fixpoint str_repeat (s : string) (n : nat) : string :=
  match n with
  | O => EmptyString
  | S n' => s ++ str_repeat s n'
  end.

(** [print(s)], and [print] with an empty [end], as the text they
    write. *)
Definition say (s : string) : string := s ++ nl.
Definition say_open (s : string) : string := s.

(** Code that prints: the chunks written, in order, and the result or
    the exception it ended with. *)
Definition printing (A : Type) : Type := (list string * result A)%type.

Definition pbind {A B : Type} (m : printing A) (k : A -> printing B)
  : printing B :=
  match snd m with
  | Ok a => ((fst m ++ fst (k a))%list, snd (k a))
  | Raise e => (fst m, Raise e)
  end.

Notation "x <~ m ;; k" := (pbind m (fun x => k))
  (at level 61, m at next level, right associativity).

(** [print(s)], a run of prints, and a computation that prints
    nothing. *)
Definition print (s : string) : printing unit := ([say s], Ok tt).
Definition print_chunks (chunks : list string) : printing unit :=
  (chunks, Ok tt).
Definition eval {A : Type} (r : result A) : printing A := ([], r).

(** A [for] loop whose body prints. *)
Fixpoint for_each {A : Type} (f : A -> printing unit) (l : list A)
  : printing unit :=
  match l with
  | [] => ([], Ok tt)
  | x :: l' => _ <~ f x ;; for_each f l'
  end.

Definition printed {A : Type} (m : printing A) : list string := fst m.
Definition outcome {A : Type} (m : printing A) : result A := snd m.

(** [sorted(provers.items())]: the keys are distinct, so the order is
    the one of the keys, code point by code point. *)
Fixpoint insert_item (x : string * ProverStats) (l : provers_t) : provers_t :=
  match l with
  | [] => [x]
  | y :: l' => if String.leb (fst x) (fst y) then x :: l
               else y :: insert_item x l'
  end.

Definition sorted_items (provers : provers_t) : provers_t :=
  fold_right insert_item [] provers.

(** A number read from a summary for formatting. *)
Definition as_num (v : json) : result pynum :=
  match v with
  | JNum x => Ok x
  | JBool b => Ok (PInt (if b then 1 else 0))
  | _ => Raise TypeError
  end.

Definition stat (s : list (string * json)) (k : string) : result json :=
  py_getitem (JObj s) k.

Definition num (s : list (string * json)) (k : string) : result pynum :=
  v <- stat s k ;; as_num v.

Definition num_gt0 (x : pynum) : bool :=
  match x with
  | PInt z => (0 <? z)%Z
  | PFloat f => PrimFloat.ltb 0 f
  end.

Definition format_time `{Builtins} (ms : pynum) : string :=
  if num_ge ms 1000
  then fmt_f 2 (PFloat (to_float ms / 1000)%float) ++ "s"
  else fmt_f 0 ms ++ "ms".

Definition format_ci `{Builtins} (stats_dict : list (string * json))
    (unit : string) : result string :=
  mean <- num stats_dict "mean" ;;
  ci_lower <- num stats_dict "ci_lower" ;;
  ci_upper <- num stats_dict "ci_upper" ;;
  if String.eqb unit "s" then
    Ok (fmt_f 2 (PFloat (to_float mean / 1000)%float) ++ "s ["
        ++ fmt_f 2 (PFloat (to_float ci_lower / 1000)%float) ++ ", "
        ++ fmt_f 2 (PFloat (to_float ci_upper / 1000)%float) ++ "]")
  else
    Ok (fmt_f 0 mean ++ "ms [" ++ fmt_f 0 ci_lower ++ ", "
        ++ fmt_f 0 ci_upper ++ "]").

(** The round keys of a group, as [ps.rounds_stats.keys()] lists them,
    and [ps.rounds_stats[round_num]], which raises on a key the dict
    does not hold. *)
Definition round_keys (ps : ProverStats) : list json :=
  map (fun kv => round_num (snd kv)) (rounds_stats ps).

Definition round_of (ps : ProverStats) (rn : json) : result RoundStats :=
  rk <- dict_key rn ;;
  match lookup rkey_eqb (rounds_stats ps) rk with
  | Some rs => Ok rs
  | None => Raise (KeyError "round")
  end.

Section Report.
Context `{B : Builtins} `{S : SciLib}.

(** Lines 263-267. *)
Definition report_total (total_stats : list (string * json))
  : printing unit :=
  _ <~ print (nl ++ "📊 TOTAL DURATION") ;;
  mean <~ eval (num total_stats "mean") ;;
  std <~ eval (num total_stats "std") ;;
  _ <~ print ("  Mean:     " ++ format_time mean ++ " ± " ++ format_time std
              ++ " (std)") ;;
  ci <~ eval (format_ci total_stats "s") ;;
  _ <~ print ("  95% CI:   " ++ ci) ;;
  lo <~ eval (num total_stats "min") ;;
  hi <~ eval (num total_stats "max") ;;
  _ <~ print ("  Range:    [" ++ format_time lo ++ ", " ++ format_time hi
              ++ "]") ;;
  cv <~ eval (num total_stats "cv") ;;
  print ("  CV:       " ++ fmt_f 1 cv ++ "%").

(** Lines 270-275. *)
Definition report_setup (ps : ProverStats) : printing unit :=
  match setup_times_ms ps with
  | [] => ([], Ok tt)
  | _ =>
      setup_stats <~ eval (compute_stats (setup_times_ms ps)) ;;
      _ <~ print (nl ++ "⏱️  SETUP TIME") ;;
      mean <~ eval (num setup_stats "mean") ;;
      std <~ eval (num setup_stats "std") ;;
      _ <~ print ("  Mean:     " ++ format_time mean ++ " ± "
                  ++ format_time std ++ " (std)") ;;
      ci <~ eval (format_ci setup_stats "s") ;;
      _ <~ print ("  95% CI:   " ++ ci) ;;
      cv <~ eval (num setup_stats "cv") ;;
      print ("  CV:       " ++ fmt_f 1 cv ++ "%")
  end.

(** Lines 278-283. *)
Definition report_avg_round (ps : ProverStats) : printing unit :=
  match all_round_durations_ms ps with
  | [] => ([], Ok tt)
  | _ =>
      avg_round_stats <~ eval (compute_stats (all_round_durations_ms ps)) ;;
      _ <~ print (nl ++ "🔄 AVERAGE ROUND DURATION (across all rounds)") ;;
      mean <~ eval (num avg_round_stats "mean") ;;
      std <~ eval (num avg_round_stats "std") ;;
      _ <~ print ("  Mean:     " ++ format_time mean ++ " ± "
                  ++ format_time std ++ " (std)") ;;
      ci <~ eval (format_ci avg_round_stats "ms") ;;
      _ <~ print ("  95% CI:   " ++ ci) ;;
      n <~ eval (stat avg_round_stats "n") ;;
      print ("  N:        " ++ py_str n ++ " round observations")
  end.

(** Lines 289-292: the line of one round. *)
Definition report_round (ps : ProverStats) (rn : json) : printing unit :=
  rs <~ eval (round_of ps rn) ;;
  round_stats <~ eval (compute_stats (durations_ms rs)) ;;
  mean <~ eval (num round_stats "mean") ;;
  std <~ eval (num round_stats "std") ;;
  n <~ eval (stat round_stats "n") ;;
  cv <~ eval (num round_stats "cv") ;;
  print ("  Round " ++ py_str rn ++ ": " ++ format_time mean ++ " ± "
         ++ format_time std ++ " (n=" ++ py_str n ++ ", CV="
         ++ fmt_f 1 cv ++ "%)").

(** Lines 286-292. *)
Definition report_rounds (ps : ProverStats) : printing unit :=
  match rounds_stats ps with
  | [] => ([], Ok tt)
  | _ =>
      _ <~ print (nl ++ "📈 PER-ROUND BREAKDOWN") ;;
      keys <~ eval (py_sorted (round_keys ps)) ;;
      for_each (report_round ps) keys
  end.

(** Lines 312-316. *)
Definition report_estimate (std mean : pynum) : printing unit :=
  if (num_gt0 std && num_gt0 mean)%bool then
    let target_ci_width := (to_float mean * 0.1)%float in
    let z := 1.96%float in
    estimated_n <~
      eval (py_int (np_ceil (np_power
                               (z * to_float std / (target_ci_width / 2))%float
                               2))) ;;
    print ("     Estimated n for 10% CI width: ~"
           ++ str_of_Z (Z.max estimated_n 5))
  else ([], Ok tt).

(** Lines 295-316. *)
Definition report_adequacy (total_stats : list (string * json))
  : printing unit :=
  _ <~ print (nl ++ "📏 SAMPLE ADEQUACY") ;;
  adequate <~ eval (stat total_stats "adequate_sample") ;;
  if py_truthy adequate then
    _ <~ print "  ✅ Sample size appears adequate for scientific reporting" ;;
    n <~ eval (stat total_stats "n") ;;
    cv <~ eval (num total_stats "cv") ;;
    width <~ eval (num total_stats "ci_width_pct") ;;
    print ("     (n=" ++ py_str n ++ ", CV=" ++ fmt_f 1 cv
           ++ "%, CI width=" ++ fmt_f 1 width ++ "% of mean)")
  else
    n <~ eval (num total_stats "n") ;;
    cv <~ eval (num total_stats "cv") ;;
    width <~ eval (num total_stats "ci_width_pct") ;;
    let reasons :=
      ((if num_lt n 5
        then [("n=" ++ py_str (JNum n) ++ " < 5")%string] else [])
       ++ (if num_ge cv 30
           then [("CV=" ++ fmt_f 1 cv ++ "% >= 30%")%string] else [])
       ++ (if num_ge width 40
           then [("CI width=" ++ fmt_f 1 width ++ "% >= 40% of mean")%string]
           else []))%list in
    _ <~ print "  ⚠️  Consider more runs for reliable statistics" ;;
    _ <~ print ("     Reasons: " ++ String.concat ", " reasons) ;;
    std <~ eval (num total_stats "std") ;;
    mean <~ eval (num total_stats "mean") ;;
    report_estimate std mean.

(** Lines 248-255: the heading and the run counts of a group.  The
    quotient of the two counts is taken in binary64, which is Python's
    [/] on integers below 2^53. *)
Definition report_heading (key : string) (ps : ProverStats) : list string :=
  let total_runs := (success_count ps + failure_count ps)%Z in
  let success_rate :=
    if (0 <? total_runs)%Z
    then PFloat (Z2float (success_count ps) / Z2float total_runs * 100)%float
    else PInt 0 in
  [say (nl ++ str_repeat "─" 80);
   say ("PROVER: " ++ key);
   say (str_repeat "─" 80);
   say (nl ++ "Runs: " ++ str_of_Z (success_count ps) ++ " successful / "
        ++ str_of_Z total_runs ++ " total (" ++ fmt_f 1 success_rate
        ++ "% success)")].

(** The body of the loop over the groups (lines 248-316). *)
Definition report_group (item : string * ProverStats) : printing unit :=
  let '(key, ps) := item in
  _ <~ print_chunks (report_heading key ps) ;;
  if (success_count ps =? 0)%Z then
    print "  No successful runs to analyze."
  else
    total_stats <~ eval (compute_stats (total_durations_ms ps)) ;;
    _ <~ report_total total_stats ;;
    _ <~ report_setup ps ;;
    _ <~ report_avg_round ps ;;
    _ <~ report_rounds ps ;;
    report_adequacy total_stats.

Definition num_abs_lt (x : pynum) (c : float) : bool :=
  PrimFloat.ltb (PrimFloat.abs (to_float x)) c.

(** Lines 325-347. *)
Definition report_test (test : SigResult) : list string :=
  [say (nl ++ comparison test ++ ":");
   say ("  t-statistic: " ++ fmt_f 3 (PFloat (t_statistic test)));
   say_open ("  p-value:     " ++ fmt_f 4 (PFloat (p_value test)));
   say (if significant_001 test then " ***"
        else if significant_005 test then " **" else EmptyString);
   say_open ("  Cohen's d:   " ++ fmt_f 3 (cohens_d test) ++ " ");
   say (if num_abs_lt (cohens_d test) 0.2 then "(negligible)"
        else if num_abs_lt (cohens_d test) 0.5 then "(small)"
        else if num_abs_lt (cohens_d test) 0.8 then "(medium)"
        else "(large)");
   say (if significant_005 test
        then "  → Difference is statistically significant (p < 0.05)"
        else "  → No statistically significant difference detected")].

Definition report_banner : list string :=
  [say (str_repeat "=" 80); say "BENCHMARK ANALYSIS REPORT";
   say (str_repeat "=" 80); say EmptyString].

Definition report_tests (significance_tests : list SigResult) : list string :=
  match significance_tests with
  | [] => []
  | _ => ([say (nl ++ nl ++ str_repeat "=" 80);
           say "STATISTICAL SIGNIFICANCE TESTS (Welch's t-test)";
           say (str_repeat "=" 80)]
          ++ flat_map report_test significance_tests)%list
  end.

Definition print_report (provers : provers_t)
    (significance_tests : list SigResult) : printing unit :=
  _ <~ print_chunks report_banner ;;
  _ <~ for_each report_group (sorted_items provers) ;;
  _ <~ print_chunks (report_tests significance_tests) ;;
  print EmptyString.
End Report.

Section Exports.
Context `{B : Builtins} `{S : SciLib}.

Definition csv_header : list json :=
  map JStr ["prover_type"; "metric"; "n"; "mean"; "std"; "ci_lower";
            "ci_upper"; "min"; "max"; "cv"; "adequate"].

(** One [writer.writerow] of a summary. *)
Definition csv_row (key metric : string) (s : list (string * json))
  : result (list json) :=
  n <- stat s "n" ;;
  mean <- num s "mean" ;;
  std <- num s "std" ;;
  ci_lower <- num s "ci_lower" ;;
  ci_upper <- num s "ci_upper" ;;
  lo <- num s "min" ;;
  hi <- num s "max" ;;
  cv <- num s "cv" ;;
  adequate <- stat s "adequate_sample" ;;
  Ok [JStr key; JStr metric; n; JStr (fmt_f 2 mean); JStr (fmt_f 2 std);
      JStr (fmt_f 2 ci_lower); JStr (fmt_f 2 ci_upper);
      JStr (fmt_f 2 lo); JStr (fmt_f 2 hi); JStr (fmt_f 2 cv); adequate].

Definition csv_round (key : string) (ps : ProverStats) (rn : json)
  : result (list json) :=
  rs <- round_of ps rn ;;
  s <- compute_stats (durations_ms rs) ;;
  csv_row key ("round_" ++ py_str rn ++ "_duration_ms") s.

(** The rows of one group (lines 366-403). *)
Definition csv_group (item : string * ProverStats)
  : result (list (list json)) :=
  let '(key, ps) := item in
  if (success_count ps =? 0)%Z then Ok [] else
  s <- compute_stats (total_durations_ms ps) ;;
  total <- csv_row key "total_duration_ms" s ;;
  setup <- match setup_times_ms ps with
           | [] => Ok []
           | _ => s <- compute_stats (setup_times_ms ps) ;;
                  r <- csv_row key "setup_time_ms" s ;;
                  Ok [r]
           end ;;
  avg <- match all_round_durations_ms ps with
         | [] => Ok []
         | _ => s <- compute_stats (all_round_durations_ms ps) ;;
                r <- csv_row key "avg_round_duration_ms" s ;;
                Ok [r]
         end ;;
  keys <- py_sorted (round_keys ps) ;;
  rounds <- mapM (csv_round key ps) keys ;;
  Ok (total :: setup ++ avg ++ rounds)%list.

(** The rows [export_csv] writes, the header first. *)
Definition export_csv (provers : provers_t) : result (list (list json)) :=
  groups <- mapM csv_group (sorted_items provers) ;;
  Ok (csv_header :: List.concat groups).

Record PerRound : Type := mkPerRound {
  pr_duration : list (string * json);
  pr_request_bytes : list (string * json);
  pr_response_bytes : list (string * json)
}.

Record ProverData : Type := mkProverData {
  pd_success_count : Z;
  pd_failure_count : Z;
  pd_total_duration : list (string * json);
  pd_setup_time : option (list (string * json));
  pd_avg_round_duration : option (list (string * json));
  pd_per_round : list (json * PerRound)
}.

Record ExportData : Type := mkExportData {
  ex_provers : list (string * ProverData);
  ex_significance_tests : list SigResult
}.

Definition json_round (ps : ProverStats) (rn : json)
  : result (json * PerRound) :=
  rs <- round_of ps rn ;;
  duration <- compute_stats (durations_ms rs) ;;
  req <- mapM py_float (request_bytes rs) ;;
  request <- compute_stats req ;;
  resp <- mapM py_float (response_bytes rs) ;;
  response <- compute_stats resp ;;
  Ok (rn, mkPerRound duration request response).

(** The entry of one group (lines 420-440). *)
Definition json_group (item : string * ProverStats)
  : result (list (string * ProverData)) :=
  let '(key, ps) := item in
  if (success_count ps =? 0)%Z then Ok [] else
  total_duration <- compute_stats (total_durations_ms ps) ;;
  setup_time <- match setup_times_ms ps with
                | [] => Ok None
                | _ => s <- compute_stats (setup_times_ms ps) ;; Ok (Some s)
                end ;;
  avg_round_duration <-
    match all_round_durations_ms ps with
    | [] => Ok None
    | _ => s <- compute_stats (all_round_durations_ms ps) ;; Ok (Some s)
    end ;;
  keys <- py_sorted (round_keys ps) ;;
  per_round <- mapM (json_round ps) keys ;;
  Ok [(key,
       mkProverData (success_count ps) (failure_count ps)
         total_duration setup_time avg_round_duration per_round)].

(** The [data] that [export_json] serializes. *)
Definition export_json (provers : provers_t)
    (significance_tests : list SigResult) : result ExportData :=
  groups <- mapM json_group (sorted_items provers) ;;
  Ok (mkExportData (List.concat groups) significance_tests).
End Exports.

(** ** Sample data *)

Definition direct_run (ms : Z) : line :=
  Record_ (JObj [("prover", JObj [("Direct", JObj [])]);
                 ("success", JBool true);
                 ("results", JObj [("total_duration_ms", jint ms);
                                   ("rounds", JArr [])])]).

Definition proxy_run (host : string) (ms : Z) : line :=
  Record_ (proxy_record host
             [("success", JBool true);
              ("results", JObj [("total_duration_ms", jint ms)])]).

Definition proxy_failure (host : string) : line :=
  Record_ (proxy_record host [("success", JBool false)]).

(** Scenario A, and a proxy that never succeeded. *)
Definition sample_files : list (list line) :=
  [[direct_run 100; direct_run 102; Blank; proxy_failure "plain.example.com"];
   [direct_run 98; direct_run 101; direct_run 99]].

(** [format(x, ".kf")]: the exact value of [x] rounded half-even to
    [k] decimals. *)
Definition scaled_round (k : nat) (m : positive) (e : Z) : Z :=
  let n := (Z.pos m * 10 ^ Z.of_nat k)%Z in
  if (0 <=? e)%Z then (n * 2 ^ e)%Z
  else
    let d := (2 ^ (- e))%Z in
    let q := (n / d)%Z in
    let r := (n mod d)%Z in
    if (2 * r <? d)%Z then q
    else if (d <? 2 * r)%Z then (q + 1)%Z
    else if Z.even q then q else (q + 1)%Z.

Definition pad_zeros (width : nat) (digits : string) : string :=
  str_repeat "0" (width - String.length digits) ++ digits.

Definition fixed_digits (k : nat) (negative : bool) (scaled : Z) : string :=
  let digits := pad_zeros (S k) (str_of_Z scaled) in
  let whole := String.substring 0 (String.length digits - k) digits in
  let frac := String.substring (String.length digits - k) k digits in
  (if negative then "-" else EmptyString)
  ++ whole ++ match k with O => EmptyString | _ => "." ++ frac end.

Definition format_fixed (k : nat) (x : pynum) : string :=
  match x with
  | PInt z => fixed_digits k (z <? 0)%Z (Z.abs z * 10 ^ Z.of_nat k)
  | PFloat f =>
      match Prim2SF f with
      | S754_zero s => fixed_digits k s 0
      | S754_finite s m e => fixed_digits k s (scaled_round k m e)
      | S754_infinity s => if s then "-inf" else "inf"
      | S754_nan => "nan"
      end
  end.

(** [int(x)]: truncation toward zero. *)
Definition float_trunc (f : float) : result Z :=
  match Prim2SF f with
  | S754_zero _ => Ok 0%Z
  | S754_finite s m e =>
      let a := if (0 <=? e)%Z then (Z.pos m * 2 ^ e)%Z
               else (Z.pos m / 2 ^ (- e))%Z in
      Ok (if s then (- a)%Z else a)
  | S754_infinity _ => Raise OverflowError
  | S754_nan => Raise ValueError
  end.

Definition float_ceil (f : float) : float :=
  match Prim2SF f with
  | S754_finite s m e =>
      if (0 <=? e)%Z then f
      else
        let d := (2 ^ (- e))%Z in
        let v := if s then Z.neg m else Z.pos m in
        Z2float (- ((- v) / d))%Z
  | _ => f
  end.

Fixpoint insert_Z (x : Z) (l : list Z) : list Z :=
  match l with
  | [] => [x]
  | y :: l' => if (x <=? y)%Z then x :: l else y :: insert_Z x l'
  end.

Definition int_keys (keys : list json) : result (list Z) :=
  mapM (fun v => match v with
                 | JNum (PInt z) => Ok z
                 | _ => Raise TypeError
                 end) keys.

(** The builtins on strings and numbers: [sorted] on integer keys,
    [str] of a float, a list or a dict left empty. *)
Definition sample_builtins : Builtins :=
  {| py_repr := fun _ => EmptyString;
     fmt_f := format_fixed;
     py_sorted := fun keys =>
       zs <- int_keys keys ;; Ok (map jint (fold_right insert_Z [] zs));
     py_float := fun v =>
       match v with
       | JNum x => Ok (jfloat (to_float x))
       | _ => Raise TypeError
       end;
     py_int := float_trunc |}.

(** A series of numbers as binary64 values; anything else in it is a
    [TypeError]. *)
Definition series_floats (data : list json) : result (list float) :=
  mapM (fun v => match v with
                 | JNum x => Ok (to_float x)
                 | JBool b => Ok (if b then 1%float else 0%float)
                 | _ => Raise TypeError
                 end) data.

Definition float_sum (l : list float) : float :=
  fold_left PrimFloat.add l 0%float.

Definition float_mean (l : list float) : float :=
  (float_sum l / Z2float (Z.of_nat (List.length l)))%float.

Definition float_var (l : list float) : float :=
  let m := float_mean l in
  (float_sum (map (fun x => (x - m) * (x - m)) l)
   / Z2float (Z.of_nat (List.length l) - 1))%float.

Fixpoint insert_float (x : float) (l : list float) : list float :=
  match l with
  | [] => [x]
  | y :: l' => if PrimFloat.leb x y then x :: l else y :: insert_float x l'
  end.

Definition float_median (l : list float) : float :=
  let sorted := fold_right insert_float [] l in
  let n := List.length l in
  if Nat.even n
  then ((nth (n / 2 - 1) sorted PrimFloat.nan
         + nth (n / 2) sorted PrimFloat.nan) / 2)%float
  else nth (n / 2) sorted PrimFloat.nan.

Definition series_mean (data : list json) : result float :=
  x <- series_floats data ;; Ok (float_mean x).

Definition series_var (data : list json) : result float :=
  x <- series_floats data ;; Ok (float_var x).

(** A coarse stand-in for the two-sided tail of Student's
    distribution: a step function of the statistic. *)
Definition sample_tail (df t : float) : float :=
  if PrimFloat.ltb t 2 then 0.5%float
  else if PrimFloat.ltb t 4 then 0.03%float
  else 0.001%float.

(** The elementary statistics in binary64, summed in order, on a
    series of numbers; the interval of [stats.t.interval] is a
    stand-in of no width, and the test is [welch_ttest] with the tail
    given. *)
Definition numeric_scilib (tail : float -> float -> float) : SciLib :=
  {| np_mean := series_mean;
     np_std := fun data =>
       x <- series_floats data ;; Ok (PrimFloat.sqrt (float_var x));
     np_var := series_var;
     np_min := fun data =>
       x <- series_floats data ;;
       Ok (PFloat (fold_right (fun x m => if PrimFloat.ltb x m then x else m)
                     PrimFloat.infinity x));
     np_max := fun data =>
       x <- series_floats data ;;
       Ok (PFloat (fold_right (fun x m => if PrimFloat.ltb m x then x else m)
                     PrimFloat.neg_infinity x));
     np_median := fun data =>
       x <- series_floats data ;; Ok (float_median x);
     np_ceil := float_ceil;
     np_power := fun x k => Z.iter k (PrimFloat.mul x) 1%float;
     stats_sem := fun data =>
       x <- series_floats data ;;
       Ok (PrimFloat.sqrt (float_var x)
           / PrimFloat.sqrt (Z2float (Z.of_nat (List.length x))))%float;
     stats_t_interval := fun _ _ loc _ => Ok (loc, loc);
     stats_ttest_ind := welch_ttest series_mean series_var tail |}.

Definition sample_scilib : SciLib := numeric_scilib sample_tail.

Definition sample_provers : provers_t :=
  Eval vm_compute in
    match @load_and_aggregate sample_builtins sample_files with
    | Ok provers => provers
    | Raise _ => []
    end.

Definition sample_direct : ProverStats :=
  Eval vm_compute in
    match lookup String.eqb sample_provers "Direct" with
    | Some ps => ps
    | None => new_ProverStats EmptyString JNull
    end.

Definition sample_proxy : ProverStats :=
  Eval vm_compute in
    match lookup String.eqb sample_provers "Proxy (plain)" with
    | Some ps => ps
    | None => new_ProverStats EmptyString JNull
    end.

(** ** Command line

    [main] after [parse_args]: the patterns, the chosen format and the
    output file are its arguments.  The file system is an interface:
    [pattern.exists()], [Path(".").glob(str(pattern))] and the lines of
    an opened file; a call to it that raises gives [None]. *)

Inductive out_format : Type :=
| FmtReport
| FmtCsv
| FmtJson.

Class FileSystem : Type := {
  path_exists : string -> bool;
  path_glob : string -> option (list string);
  open_lines : string -> option (list line)
}.

(** How a run ends: [sys.exit], an exception that escapes (one of the
    script's accesses, one a library raised, or one the file system
    raised), or the output of the chosen renderer; a report that an
    exception interrupts has printed its first chunks. *)
Inductive ending : Type :=
| Exited (code : Z)
| Escaped (e : exn)
| EscapedIO
| Reported (chunks : list string)
| Interrupted (chunks : list string) (e : exn)
| CsvWritten (output : option string) (rows : list (list json))
| JsonWritten (output : option string) (data : ExportData).

(** A run: what went to stderr, and how it ended. *)
Record run : Type := mkRun {
  run_stderr : list string;
  run_end : ending
}.

Section Main.
Context `{B : Builtins} `{S : SciLib} `{F : FileSystem}.

(** Lines 471-481: the files named by the patterns, with the warnings
    printed on the way; [None] when a glob raises. *)
Fixpoint expand_files (patterns : list string) (files warnings : list string)
  : option (list string * list string) :=
  match patterns with
  | [] => Some (files, warnings)
  | pattern :: rest =>
      if path_exists pattern
      then expand_files rest (files ++ [pattern])%list warnings
      else
        match path_glob pattern with
        | None => None
        | Some [] =>
            expand_files rest files
              (warnings
               ++ [say ("Warning: No files matching '" ++ pattern ++ "'")])%list
        | Some matched => expand_files rest (files ++ matched)%list warnings
        end
  end.

(** [load_and_aggregate] on paths: each file is opened when the loop
    reaches it. *)
Fixpoint load_paths (paths : list string) (provers : provers_t)
  : option (result provers_t) :=
  match paths with
  | [] => Some (Ok provers)
  | path :: rest =>
      match open_lines path with
      | None => None
      | Some lines =>
          match foldM ingest_line lines provers with
          | Ok provers' => load_paths rest provers'
          | Raise e => Some (Raise e)
          end
      end
  end.

(** Lines 500-505. *)
Definition render (format : out_format) (output : option string)
    (provers : provers_t) (significance_tests : list SigResult) : ending :=
  match format with
  | FmtReport =>
      match print_report provers significance_tests with
      | (chunks, Ok _) => Reported chunks
      | (chunks, Raise e) => Interrupted chunks e
      end
  | FmtCsv =>
      match export_csv provers with
      | Ok rows => CsvWritten output rows
      | Raise e => Escaped e
      end
  | FmtJson =>
      match export_json provers significance_tests with
      | Ok data => JsonWritten output data
      | Raise e => Escaped e
      end
  end.

Definition main (patterns : list string) (format : out_format)
    (output : option string) : run :=
  match expand_files patterns [] [] with
  | None => mkRun [] EscapedIO
  | Some (files, warnings) =>
      match files with
      | [] =>
          mkRun (warnings ++ [say "Error: No benchmark files found."])%list
            (Exited 1)
      | _ =>
          let analyzing :=
            say ("Analyzing " ++ str_of_Z (Z.of_nat (List.length files))
                 ++ " file(s)...") in
          match load_paths files [] with
          | None => mkRun (warnings ++ [analyzing])%list EscapedIO
          | Some (Raise e) => mkRun (warnings ++ [analyzing])%list (Escaped e)
          | Some (Ok provers) =>
              match provers with
              | [] =>
                  mkRun (warnings
                         ++ [analyzing;
                             say "Error: No benchmark data found in files."])%list
                    (Exited 1)
              | _ =>
                  match perform_significance_tests provers with
                  | Raise e => mkRun (warnings ++ [analyzing])%list (Escaped e)
                  | Ok significance_tests =>
                      mkRun (warnings ++ [analyzing])%list
                        (render format output provers significance_tests)
                  end
              end
          end
      end
  end.
End Main.

(** ** Further notions for the properties *)


Definition is_blank (l : line) : bool :=
  match l with Blank => true | _ => false end.

Definition not_blank (l : line) : bool := negb (is_blank l).

(** The observations all the rounds of a group hold. *)
Definition round_observations (rounds : list (rkey * RoundStats)) : nat :=
  fold_right (fun kv n => (List.length (durations_ms (snd kv)) + n)%nat) O rounds.

(** The three series of a round have one entry per observation. *)
Definition round_aligned (rs : RoundStats) : Prop :=
  List.length (request_bytes rs) = List.length (durations_ms rs)
  /\ List.length (response_bytes rs) = List.length (durations_ms rs)
  /\ (1 <= List.length (durations_ms rs))%nat.

(** A file system holding the sample files and nothing else. *)
Definition sample_fs : FileSystem :=
  {| path_exists := fun p =>
       (String.eqb p "a.jsonl" || String.eqb p "b.jsonl"
        || String.eqb p "blank.jsonl")%bool;
     path_glob := fun p =>
       if String.eqb p "*.jsonl" then Some ["a.jsonl"; "b.jsonl"] else Some [];
     open_lines := fun p =>
       if String.eqb p "a.jsonl" then Some (nth 0 sample_files [])
       else if String.eqb p "b.jsonl" then Some (nth 1 sample_files [])
       else if String.eqb p "blank.jsonl" then Some [Blank; Blank]
       else None |}.

(** The group of [key], or a group without any record. *)
Definition group_or_empty (provers : provers_t) (key : string) : ProverStats :=
  match lookup String.eqb provers key with
  | Some ps => ps
  | None => new_ProverStats EmptyString JNull
  end.

(** The tags [parse_prover_type] knows. *)
Definition known_tags : list string :=
  ["Direct"; "Proxy"; "TlsSingleShot"; "TlsPerMessage"].

(** A round entry is filed under the key of its round number. *)
Definition entry_keyed (e : RoundEntry) : Prop :=
  dict_key (re_num e) = Ok (re_key e).

Definition outcome_keyed (o : Outcome) : Prop :=
  Forall entry_keyed (entries_of o).

(** A group is exported when it has a success. *)
Definition exported (item : string * ProverStats) : bool :=
  negb (success_count (snd item) =? 0)%Z.

(** A notary run with rounds, for the examples. *)
Definition round_entry (n ms : Z) : json :=
  JObj [("round", jint n); ("duration_ms", jint ms);
        ("request_bytes", jint 10); ("response_bytes", jint 20)].

Definition notary_run (ms : Z) (rounds : list json) : line :=
  Record_ (JObj [("prover",
                  JObj [("TlsSingleShot",
                         JObj [("notary",
                                JObj [("domain", JStr "notary.example.com");
                                      ("network_optimization",
                                       JStr "Bandwidth")])])]);
                 ("success", JBool true);
                 ("results", JObj [("total_duration_ms", jint ms);
                                   ("setup_time_ms", jint 5);
                                   ("rounds", JArr rounds)])]).

Definition sample_round_files : list (list line) :=
  [[notary_run 100 [round_entry 2 30; round_entry 1 40];
    notary_run 120 [round_entry 1 50]]].

Definition sample_round_provers : provers_t :=
  Eval vm_compute in
    match @load_and_aggregate sample_builtins sample_round_files with
    | Ok provers => provers
    | Raise _ => []
    end.

Definition sample_notary : ProverStats :=
  Eval vm_compute in
    group_or_empty sample_round_provers "TlsSingleShot (notary) [Bandwidth]".

Definition sample_round_1 : RoundStats :=
  Eval vm_compute in
    match lookup rkey_eqb (rounds_stats sample_notary) (KInt 1) with
    | Some rs => rs
    | None => new_RoundStats JNull
    end.


(** The warning [main] prints for a pattern that names no file. *)
Definition no_match_warning (pattern : string) : string :=
  say ("Warning: No files matching '" ++ pattern ++ "'").

Definition analyzing_message (files : list string) : string :=
  say ("Analyzing " ++ str_of_Z (Z.of_nat (List.length files)) ++ " file(s)...").

(** The summary of a non-empty series of [n] observations, from what
    numpy and scipy returned for it (lines 85-105). *)
Definition summary (n : Z) (mean ci_lower ci_upper : float)
    (std sem lo hi : pynum) (median : float) : list (string * json) :=
  let cv := if PrimFloat.ltb 0 mean
            then PFloat (to_float std / mean * 100)%float
            else PInt 0 in
  let ci_width_pct :=
    if PrimFloat.ltb 0 mean
    then PFloat ((ci_upper - ci_lower) / mean * 100)%float
    else PInt 100 in
  [("n", jint n); ("mean", jfloat mean);
   ("std", JNum std); ("sem", JNum sem);
   ("ci_lower", jfloat ci_lower); ("ci_upper", jfloat ci_upper);
   ("min", JNum lo); ("max", JNum hi);
   ("median", jfloat median);
   ("cv", JNum cv); ("ci_width_pct", JNum ci_width_pct);
   ("adequate_sample",
    JBool ((5 <=? n)%Z && num_lt cv 30 && num_lt ci_width_pct 40)%bool)].

(** Three groups in an order that is not the one of their keys: a
    proxy without a success, a notary with rounds, and the direct
    runs; and the tests of these groups. *)
Definition sample_mixed_provers : provers_t :=
  [("Proxy (plain)", sample_proxy);
   ("TlsSingleShot (notary) [Bandwidth]", sample_notary);
   ("Direct", sample_direct)].

Definition sample_mixed_tests : list SigResult :=
  Eval vm_compute in
    match @perform_significance_tests sample_scilib sample_mixed_provers with
    | Ok tests => tests
    | Raise _ => []
    end.

(** The round of a group filed under [rk], or a round without any
    observation. *)
Definition round_or_empty (ps : ProverStats) (rk : rkey) : RoundStats :=
  match lookup rkey_eqb (rounds_stats ps) rk with
  | Some rs => rs
  | None => new_RoundStats JNull
  end.

(** A direct run with the duration given as it stands in the record. *)
Definition direct_run_of (ms : json) : line :=
  Record_ (JObj [("prover", JObj [("Direct", JObj [])]);
                 ("success", JBool true);
                 ("results", JObj [("total_duration_ms", ms)])]).

(** Two direct runs whose spread is beyond binary64, and a proxy that
    never succeeded. *)
Definition overflow_files : list (list line) :=
  [[direct_run_of (jfloat 1e308); direct_run_of (jfloat 1);
    proxy_failure "plain.example.com"]].

Definition overflow_provers : provers_t :=
  Eval vm_compute in
    match @load_and_aggregate sample_builtins overflow_files with
    | Ok provers => provers
    | Raise _ => []
    end.

(** Two groups whose runs all took the same time. *)
Definition constant_files : list (list line) :=
  [[direct_run 100; proxy_run "plain.example.com" 100;
    direct_run 100; proxy_run "plain.example.com" 100]].

Definition constant_provers : provers_t :=
  Eval vm_compute in
    match @load_and_aggregate sample_builtins constant_files with
    | Ok provers => provers
    | Raise _ => []
    end.

(** The chunk is among those printed. *)
Definition has_chunk (chunk : string) (chunks : list string) : bool :=
  existsb (String.eqb chunk) chunks.

(** * Properties *)

(** ** GroupKeyResolver *)

Lemma bind_ok {A B : Type} (m : result A) (k : A -> result B) (b : B) :
  bind m k = Ok b -> exists a, m = Ok a /\ k a = Ok b.
Proof.
  destruct m as [a | e]; simpl; intros E; [eauto | discriminate].
Qed.

(** C1 (as stated): the keys of the two Proxy records of scenario B
    are not the bare labels. *)
Lemma scenario_b_keys_not_bare :
  (forall (B : Builtins) fields,
      record_key (proxy_record "tee-proxy.example.com" fields)
      <> Ok "Proxy-TEE")
  /\ (forall (B : Builtins) fields,
      record_key (proxy_record "plain.example.com" fields) <> Ok "Proxy").
Proof.
  split; intros B fields; vm_compute; discriminate.
Qed.

(** C1 (amended): for a Proxy descriptor the base label is
    "Proxy-TEE" exactly when the lower-cased host contains "tee", and
    "Proxy" otherwise; the host is the peer-domain attribute, so the
    group keys of the two records of scenario B are
    "Proxy-TEE (tee-proxy)" and "Proxy (plain)". *)
Theorem scenario_b_group_keys (B : Builtins) :
  (forall host,
      parse_prover_type (proxy_prover host)
      = Ok (if str_contains "tee" (str_lower host)
            then "Proxy-TEE" else "Proxy", JStr host, JNull))
  /\ (forall fields,
      record_key (proxy_record "tee-proxy.example.com" fields)
      = Ok "Proxy-TEE (tee-proxy)")
  /\ (forall fields,
      record_key (proxy_record "plain.example.com" fields)
      = Ok "Proxy (plain)")
  /\ (forall fields,
      record_key (proxy_record "TEE-Proxy.example.com" fields)
      = Ok "Proxy-TEE (TEE-Proxy)").
Proof.
  split; [| repeat split; intros fields; vm_compute; reflexivity ].
  intros host. unfold parse_prover_type, proxy_prover. simpl.
  destruct (str_contains "tee" (str_lower host)); reflexivity.
Qed.

(** C7 (as stated): the resolver fails on the empty descriptor and on
    a notary variant without its notary. *)
Lemma parse_prover_type_not_total :
  parse_prover_type (JObj []) = Raise IndexError
  /\ parse_prover_type (JObj [("TlsSingleShot", JObj [])])
     = Raise (KeyError "notary")
  /\ parse_prover_type
       (JObj [("Proxy", JObj [("host", JNum (PInt 7))])])
     = Raise AttributeError.
Proof. repeat split. Qed.

Lemma notary_ok_parse (tag : string) (payload : json) :
  notary_ok payload = true <->
  exists r,
    (notary <- py_getitem payload "notary" ;;
     domain <- py_get notary "domain" JNull ;;
     opt <- py_get notary "network_optimization" JNull ;;
     Ok (tag, domain, opt)) = Ok r.
Proof.
  unfold notary_ok, py_getitem.
  destruct payload as [| | | | |p]; simpl;
    try (split; [discriminate | intros [r E]; discriminate]).
  destruct (dict_get p "notary") as [notary|]; simpl;
    [| split; [discriminate | intros [r E]; discriminate]].
  destruct notary as [| | | | |nd]; simpl;
    try (split; [discriminate | intros [r E]; discriminate]).
  split; [intros _ | reflexivity].
  destruct (dict_get nd "domain"), (dict_get nd "network_optimization");
    simpl; eauto.
Qed.

Lemma host_ok_parse (cfg : json) :
  host_ok cfg = true <->
  exists r,
    (host <- py_get cfg "host" (JStr EmptyString) ;;
     host_lower <- py_lower host ;;
     if str_contains "tee" host_lower
     then Ok ("Proxy-TEE", host, JNull)
     else Ok ("Proxy", host, JNull)) = Ok r.
Proof.
  unfold host_ok, py_get.
  destruct cfg as [| | | | |c]; simpl;
    try (split; [discriminate | intros [r E]; discriminate]).
  destruct (dict_get c "host") as [h|]; simpl.
  - destruct h; simpl;
      try (split; [discriminate | intros [r E]; discriminate]).
    split; [intros _ | reflexivity].
    destruct (str_contains "tee" (str_lower s)); eauto.
  - split; [intros _; eauto | reflexivity].
Qed.

Lemma proxy_ok_parse (wrapper : json) :
  proxy_ok wrapper = true <->
  exists r,
    (proxy_config <- py_get wrapper "proxy" wrapper ;;
     host <- py_get proxy_config "host" (JStr EmptyString) ;;
     host_lower <- py_lower host ;;
     if str_contains "tee" host_lower
     then Ok ("Proxy-TEE", host, JNull)
     else Ok ("Proxy", host, JNull)) = Ok r.
Proof.
  destruct wrapper as [| | | | |w];
    try (simpl; split; [discriminate | intros [r E]; discriminate]).
  unfold proxy_ok. cbn [py_get].
  destruct (dict_get w "proxy") as [cfg|]; cbn [bind]; apply host_ok_parse.
Qed.

Lemma parse_prover_type_ok_iff (p : json) :
  well_shaped p = true <-> exists r, parse_prover_type p = Ok r.
Proof.
  unfold parse_prover_type.
    destruct p as [| | | | l | d]; cbn [py_contains bind well_shaped];
      try (split; [discriminate | intros [r E]; discriminate]).
    - (* a string *)
      destruct (str_contains "Direct" s); [split; eauto |].
      split; [discriminate |].
      destruct (str_contains "Proxy" s); [intros [r E]; discriminate |].
      destruct (str_contains "TlsSingleShot" s); [intros [r E]; discriminate |].
      destruct (str_contains "TlsPerMessage" s); intros [r E]; discriminate.
    - (* a list *)
      match goal with |- existsb ?f l = true <-> _ => destruct (existsb f l) end;
        [split; eauto |].
      split; [discriminate |].
      repeat match goal with
             | |- context [existsb ?f l] => destruct (existsb f l)
             end; intros [r E]; discriminate.
    - (* an object *)
      unfold dict_mem.
      destruct (dict_get d "Direct"); [split; eauto |].
      cbn [py_getitem].
      destruct (dict_get d "Proxy") as [w|]; cbn [bind];
        [apply proxy_ok_parse |].
      destruct (dict_get d "TlsSingleShot") as [p|]; cbn [bind];
        [apply notary_ok_parse |].
      destruct (dict_get d "TlsPerMessage") as [p|]; cbn [bind];
        [apply notary_ok_parse |].
      destruct d as [| [k v] d]; simpl.
      + split; [discriminate | intros [r E]; discriminate].
      + split; eauto.
Qed.

(** C7 (amended): the resolver is a function of the descriptor, and it
    returns (one label with its two attributes) exactly on the
    descriptors [well_shaped] accepts: an object with a [Direct] tag,
    with a [Proxy] tag whose config is an object with a string host or
    none, with a notary tag whose payload holds a notary object, or any
    other non-empty object; on every other object it raises. *)
Theorem parse_prover_type_deterministic_partial (p p' : json) (E : p = p') :
  parse_prover_type p = parse_prover_type p'
  /\ is_ok (parse_prover_type p) = well_shaped p.
Proof.
  split; [rewrite E; reflexivity |].
  destruct (parse_prover_type_ok_iff p) as [H1 H2].
  destruct (parse_prover_type p) as [r | e] eqn:Er; simpl.
  - symmetry. apply H2. eauto.
  - destruct (well_shaped p); [| reflexivity].
    destruct (H1 eq_refl) as [r Hr]. discriminate.
Qed.

Lemma parse_prover_type_deterministic_partial_witness :
  parse_prover_type (JObj [("Mystery", JNull)])
  = parse_prover_type (JObj [("Mystery", JNull)])
  /\ is_ok (parse_prover_type (JObj [("Mystery", JNull)]))
     = well_shaped (JObj [("Mystery", JNull)]).
Proof.
  apply (parse_prover_type_deterministic_partial
           (JObj [("Mystery", JNull)]) (JObj [("Mystery", JNull)]) eq_refl).
Defined.

(** ** Dictionaries *)

Section DictFacts.
Context {K V : Type} (eqb : K -> K -> bool).
Hypothesis eqb_spec : forall a b, eqb a b = true <-> a = b.

Lemma eqb_same (a : K) : eqb a a = true.
Proof. apply eqb_spec. reflexivity. Qed.

Lemma lookup_store (d : list (K * V)) (k k' : K) (v : V) :
  lookup eqb (store eqb d k v) k'
  = if eqb k' k then Some v else lookup eqb d k'.
Proof.
  induction d as [| [k0 v0] d IH]; simpl.
  - reflexivity.
  - destruct (eqb k k0) eqn:E0; simpl.
    + apply eqb_spec in E0. subst k0.
      destruct (eqb k' k); reflexivity.
    + destruct (eqb k' k0) eqn:E1.
      * apply eqb_spec in E1. subst k0.
        destruct (eqb k' k) eqn:E2; [| reflexivity].
        apply eqb_spec in E2. subst k'. rewrite eqb_same in E0. discriminate.
      * apply IH.
Qed.

Lemma keys_store (d : list (K * V)) (k : K) (v : V) :
  map fst (store eqb d k v)
  = match lookup eqb d k with
    | Some _ => map fst d
    | None => (map fst d ++ [k])%list
    end.
Proof.
  induction d as [| [k0 v0] d IH]; simpl.
  - reflexivity.
  - destruct (eqb k k0) eqn:E0; simpl; [reflexivity |].
    rewrite IH. destruct (lookup eqb d k); reflexivity.
Qed.

Lemma lookup_in_keys (d : list (K * V)) (k : K) :
  In k (map fst d) <-> lookup eqb d k <> None.
Proof.
  induction d as [| [k0 v0] d IH]; simpl.
  - split; [intros [] | intros H; apply H; reflexivity].
  - destruct (eqb k k0) eqn:E0.
    + apply eqb_spec in E0. split; [discriminate | auto].
    + rewrite <- IH. split; [| auto].
      intros [E | H]; [| exact H].
      subst k0. rewrite eqb_same in E0. discriminate.
Qed.

Lemma lookup_In (d : list (K * V)) (k : K) (v : V) :
  lookup eqb d k = Some v -> In (k, v) d.
Proof.
  induction d as [| [k0 v0] d IH]; simpl; [discriminate |].
  destruct (eqb k k0) eqn:E0; [| auto].
  apply eqb_spec in E0. subst k0. intros [= ->]. auto.
Qed.

Lemma In_lookup (d : list (K * V)) (k : K) (v : V) :
  NoDup (map fst d) -> In (k, v) d -> lookup eqb d k = Some v.
Proof.
  induction d as [| [k0 v0] d IH]; simpl; [intros _ [] |].
  intros Hnd [E | Hin].
  - injection E as -> ->. rewrite eqb_same. reflexivity.
  - inversion Hnd as [| ? ? Hk0 Hnd']; subst.
    destruct (eqb k k0) eqn:E0; [| auto].
    apply eqb_spec in E0. subst k0. exfalso. apply Hk0.
    apply in_map_iff. exists (k, v). auto.
Qed.

Lemma NoDup_store (d : list (K * V)) (k : K) (v : V) :
  NoDup (map fst d) -> NoDup (map fst (store eqb d k v)).
Proof.
  intros Hnd. rewrite keys_store.
  destruct (lookup eqb d k) eqn:E; [exact Hnd |].
  apply NoDup_app; [exact Hnd | repeat constructor; intros [] |].
  intros x Hx [<- | []].
  apply lookup_in_keys in Hx. congruence.
Qed.

(** Folding insert-or-update steps: the entry of [k] is built from
    the steps that name [k], in their order. *)
Section Upserts.
Context {X : Type} (key : X -> K) (init : X -> V) (upd : X -> V -> V).

Let step (d : list (K * V)) (x : X) : list (K * V) :=
  upsert eqb d (key x) (init x) (upd x).

Lemma lookup_fold_upsert (xs : list X) (d : list (K * V)) (k : K) :
  lookup eqb (fold_left step xs d) k
  = let xk := filter (fun x => eqb k (key x)) xs in
    match lookup eqb d k with
    | Some v => Some (fold_left (fun v x => upd x v) xk v)
    | None =>
        match xk with
        | [] => None
        | x :: _ => Some (fold_left (fun v x => upd x v) xk (init x))
        end
    end.
Proof.
  revert d. induction xs as [| x xs IH]; intros d; simpl.
  - destruct (lookup eqb d k); reflexivity.
  - rewrite IH. unfold step, upsert. rewrite lookup_store.
    destruct (eqb k (key x)) eqn:E; simpl.
    + apply eqb_spec in E. subst k.
      destruct (lookup eqb d (key x)); reflexivity.
    + reflexivity.
Qed.

Lemma NoDup_fold_upsert (xs : list X) (d : list (K * V)) :
  NoDup (map fst d) -> NoDup (map fst (fold_left step xs d)).
Proof.
  revert d. induction xs as [| x xs IH]; intros d Hnd; simpl; [exact Hnd |].
  apply IH. apply NoDup_store. exact Hnd.
Qed.
End Upserts.
End DictFacts.

Lemma rkey_eqb_spec (a b : rkey) : rkey_eqb a b = true <-> a = b.
Proof.
  unfold rkey_eqb. destruct (rkey_eq_dec a b); split; congruence.
Qed.

(** ** The result monad *)

Lemma foldM_app {A B : Type} (f : A -> B -> result A) (l1 l2 : list B) (a : A) :
  foldM f (l1 ++ l2)%list a = (a' <- foldM f l1 a ;; foldM f l2 a').
Proof.
  revert a. induction l1 as [| x l1 IH]; intros a; simpl; [reflexivity |].
  destruct (f a x); simpl; [apply IH | reflexivity].
Qed.

Lemma foldM_concat {A B : Type} (f : A -> B -> result A)
    (ls : list (list B)) (a : A) :
  foldM (fun a l => foldM f l a) ls a = foldM f (List.concat ls) a.
Proof.
  revert a. induction ls as [| l ls IH]; intros a; simpl; [reflexivity |].
  rewrite foldM_app. destruct (foldM f l a); simpl; [apply IH | reflexivity].
Qed.

Lemma foldM_mapM {A B C : Type} (f : A -> B -> result A)
    (g : B -> result C) (h : A -> C -> A) :
  (forall a x, f a x = (y <- g x ;; Ok (h a y))) ->
  forall l a, foldM f l a = (ys <- mapM g l ;; Ok (fold_left h ys a)).
Proof.
  intros Hf. induction l as [| x l IH]; intros a; simpl; [reflexivity |].
  rewrite Hf. destruct (g x) as [y | e]; simpl; [| reflexivity].
  rewrite IH. destruct (mapM g l); reflexivity.
Qed.

Lemma mapM_app {A B : Type} (g : A -> result B) (l1 l2 : list A) :
  mapM g (l1 ++ l2)%list
  = (ys1 <- mapM g l1 ;; ys2 <- mapM g l2 ;; Ok (ys1 ++ ys2)%list).
Proof.
  induction l1 as [| x l1 IH]; simpl.
  - destruct (mapM g l2); reflexivity.
  - destruct (g x); simpl; [| reflexivity]. rewrite IH.
    destruct (mapM g l1); simpl; [| reflexivity].
    destruct (mapM g l2); reflexivity.
Qed.

Lemma mapM_In_raise {A B : Type} (g : A -> result B) (l : list A) (x : A) :
  In x l -> is_ok (g x) = false -> is_ok (mapM g l) = false.
Proof.
  induction l as [| y l IH]; simpl; [intros [] |].
  intros [-> | Hin] Hx.
  - destruct (g x); [discriminate | reflexivity].
  - destruct (g y); simpl; [| reflexivity].
    specialize (IH Hin Hx). destruct (mapM g l); [discriminate | reflexivity].
Qed.

(** A permuted batch decodes to the permuted digests, and fails if the
    original does. *)
Lemma mapM_Permutation {A B : Type} (g : A -> result B) (l l' : list A) :
  Permutation l l' ->
  forall ys, mapM g l = Ok ys ->
  exists ys', mapM g l' = Ok ys' /\ Permutation ys ys'.
Proof.
  induction 1 as [| x l l' Hp IH | x y l | l l' l'' Hp1 IH1 Hp2 IH2];
    simpl; intros ys E.
  - exists ys. split; [exact E | apply Permutation_refl].
  - destruct (g x) as [b |]; simpl in *; [| discriminate].
    destruct (mapM g l) as [bs |]; simpl in *; [| discriminate].
    injection E as <-. destruct (IH bs eq_refl) as [bs' [-> Hbs]].
    simpl. eexists. split; [reflexivity | apply perm_skip; exact Hbs].
  - destruct (g y) as [b |]; simpl in *; [| discriminate].
    destruct (g x) as [c |]; simpl in *; [| discriminate].
    destruct (mapM g l) as [bs |]; simpl in *; [| discriminate].
    injection E as <-. eexists. split; [reflexivity | apply perm_swap].
  - destruct (IH1 ys E) as [ys' [E' Hy]].
    destruct (IH2 ys' E') as [ys'' [E'' Hy']].
    exists ys''. split; [exact E'' | eapply Permutation_trans; eauto].
Qed.

(** ** Aggregator: a record is read, then folded *)

Lemma ingest_round_spec (ps : ProverStats) (round_data : json) :
  ingest_round ps round_data
  = (e <- parse_round round_data ;; Ok (apply_round ps e)).
Proof.
  unfold ingest_round, parse_round.
  destruct (py_getitem round_data "round") as [rn |]; simpl; [| reflexivity].
  destruct (dict_key rn) as [rk |]; simpl; [| reflexivity].
  destruct (py_getitem round_data "duration_ms"); simpl; [| reflexivity].
  destruct (py_getitem round_data "request_bytes"); simpl; [| reflexivity].
  destruct (py_getitem round_data "response_bytes"); simpl; reflexivity.
Qed.

Lemma ingest_outcome_spec (ps : ProverStats) (record : json) :
  ingest_outcome ps record
  = (o <- parse_outcome record ;; Ok (apply_outcome o ps)).
Proof.
  unfold ingest_outcome, parse_outcome.
  destruct (py_get record "success" (JBool false)) as [s |]; simpl;
    [| reflexivity].
  destruct (py_truthy s); [| reflexivity].
  destruct (py_getitem record "results") as [results |]; simpl; [| reflexivity].
  destruct (py_getitem results "total_duration_ms"); simpl; [| reflexivity].
  destruct (py_get results "setup_time_ms" JNull); simpl; [| reflexivity].
  destruct (py_get results "rounds" (JArr [])) as [rounds |]; simpl;
    [| reflexivity].
  destruct (py_iter rounds) as [rl |]; simpl; [| reflexivity].
  rewrite (foldM_mapM ingest_round parse_round apply_round ingest_round_spec).
  destruct (mapM parse_round rl); reflexivity.
Qed.

Section Ingestion.
Context `{B : Builtins}.

Lemma ingest_spec (provers : provers_t) (record : json) :
  ingest provers record
  = (d <- digest record ;; Ok (apply_digest provers d)).
Proof.
  unfold ingest, digest.
  destruct (py_getitem record "prover") as [prover |]; simpl; [| reflexivity].
  destruct (parse_prover_type prover) as [[[pt dom] opt] |]; simpl;
    [| reflexivity].
  destruct (group_key pt dom opt) as [key |]; simpl; [| reflexivity].
  rewrite ingest_outcome_spec.
  destruct (parse_outcome record); reflexivity.
Qed.

Lemma digest_key (record : json) (d : Digest) :
  digest record = Ok d -> record_key record = Ok (dg_key d).
Proof.
  unfold digest, record_key.
  destruct (py_getitem record "prover") as [prover |]; simpl; [| discriminate].
  destruct (parse_prover_type prover) as [[[pt dom] opt] |]; simpl;
    [| discriminate].
  destruct (group_key pt dom opt) as [key |]; simpl; [| discriminate].
  destruct (parse_outcome record); simpl; [| discriminate].
  intros [= <-]. reflexivity.
Qed.

Lemma ingest_line_spec (provers : provers_t) (l : line) :
  ingest_line provers l
  = (ds <- digest_line l ;; Ok (fold_left apply_digest ds provers)).
Proof.
  destruct l as [| msg | j]; simpl; try reflexivity.
  rewrite ingest_spec. destruct (digest j); reflexivity.
Qed.

Lemma fold_left_concat {A X : Type} (f : A -> X -> A) (ls : list (list X))
    (a : A) :
  fold_left (fun a l => fold_left f l a) ls a = fold_left f (List.concat ls) a.
Proof.
  revert a. induction ls as [| l ls IH]; intros a; simpl; [reflexivity |].
  rewrite fold_left_app. apply IH.
Qed.

(** The whole run: every line is decoded, then the digests are folded
    in order into the empty mapping. *)
Lemma load_and_aggregate_spec (files : list (list line)) :
  load_and_aggregate files
  = (dss <- mapM digest_line (lines_of files) ;;
     Ok (fold_left apply_digest (List.concat dss) [])).
Proof.
  unfold load_and_aggregate, lines_of. rewrite foldM_concat.
  rewrite (foldM_mapM ingest_line digest_line
             (fun p ds => fold_left apply_digest ds p) ingest_line_spec).
  destruct (mapM digest_line (List.concat files)); simpl; [| reflexivity].
  rewrite fold_left_concat. reflexivity.
Qed.

(** Records filed under [key] are the digests carrying [key]. *)
Lemma keyed_digests (key : string) (lines : list line)
    (dss : list (list Digest)) :
  mapM digest_line lines = Ok dss ->
  count (keyed key) lines
  = count (fun d => String.eqb key (dg_key d)) (List.concat dss).
Proof.
  unfold count. intros E. f_equal. revert dss E.
  induction lines as [| l lines IH]; simpl; intros dss E.
  - injection E as <-. reflexivity.
  - destruct (digest_line l) as [ds |] eqn:El; simpl in E; [| discriminate].
    destruct (mapM digest_line lines) as [dss' |]; simpl in E;
      [| discriminate].
    injection E as <-. specialize (IH dss' eq_refl).
    simpl. rewrite filter_app, length_app, <- IH.
    destruct l as [| msg | j]; simpl in *.
    + injection El as <-. reflexivity.
    + discriminate.
    + destruct (digest j) as [d |] eqn:Ed; simpl in El; [| discriminate].
      injection El as <-. rewrite (digest_key _ _ Ed). simpl.
      rewrite String.eqb_sym.
      destruct (String.eqb key (dg_key d)); reflexivity.
Qed.
End Ingestion.

(** ** Aggregator: what a group holds *)

Lemma count_cons {A : Type} (f : A -> bool) (x : A) (l : list A) :
  count f (x :: l) = ((if f x then 1 else 0) + count f l)%Z.
Proof.
  unfold count. cbn [filter]. destruct (f x); cbn [List.length];
    rewrite ?Nat2Z.inj_succ; lia.
Qed.

Lemma apply_rounds_closed (es : list RoundEntry) (ps : ProverStats) :
  fold_left apply_round es ps
  = mkProverStats (prover_type ps) (notary_domain ps)
      (total_durations_ms ps) (setup_times_ms ps)
      (fold_left file_round es (rounds_stats ps))
      (all_round_durations_ms ps ++ map re_duration es)%list
      (success_count ps) (failure_count ps).
Proof.
  revert ps. induction es as [| e es IH]; intros ps; simpl.
  - rewrite app_nil_r. destruct ps; reflexivity.
  - rewrite IH. simpl. rewrite <- app_assoc. reflexivity.
Qed.

Ltac fields :=
  cbn [prover_type notary_domain total_durations_ms setup_times_ms
       rounds_stats all_round_durations_ms success_count failure_count
       flat_map totals_of setups_of entries_of succeeded negb app map
       fold_left].

Lemma apply_outcomes_closed (os : list Outcome) (ps : ProverStats) :
  fold_left (fun ps o => apply_outcome o ps) os ps
  = mkProverStats (prover_type ps) (notary_domain ps)
      (total_durations_ms ps ++ flat_map totals_of os)%list
      (setup_times_ms ps ++ flat_map setups_of os)%list
      (fold_left file_round (flat_map entries_of os) (rounds_stats ps))
      (all_round_durations_ms ps
       ++ map re_duration (flat_map entries_of os))%list
      (success_count ps + count succeeded os)
      (failure_count ps + count (fun o => negb (succeeded o)) os).
Proof.
  revert ps. induction os as [| o os IH]; intros ps.
  - fields. rewrite !app_nil_r. unfold count. cbn [filter List.length Z.of_nat].
    rewrite !Z.add_0_r. destruct ps; reflexivity.
  - cbn [fold_left]. rewrite IH. rewrite !count_cons.
    destruct o as [| total setup entries]; cbn [apply_outcome].
    + fields. f_equal; lia.
    + rewrite apply_rounds_closed. fields.
      rewrite fold_left_app, map_app, <- !app_assoc. fields.
      f_equal; try lia.
      destruct (py_truthy setup); fields; [rewrite <- app_assoc |]; reflexivity.
Qed.

Lemma fold_left_mapped {A X Y : Type} (f : A -> Y -> A) (g : X -> Y)
    (l : list X) (a : A) :
  fold_left (fun a x => f a (g x)) l a = fold_left f (map g l) a.
Proof.
  revert a. induction l as [| x l IH]; intros a; simpl; [reflexivity | apply IH].
Qed.

Lemma NoDup_aggregate (ds : list Digest) :
  NoDup (map fst (fold_left apply_digest ds [])).
Proof.
  apply (NoDup_fold_upsert String.eqb String.eqb_eq dg_key
           (fun d => new_ProverStats (dg_type d) (dg_domain d))
           (fun d => apply_outcome (dg_outcome d))).
  constructor.
Qed.

(** The group of [key] after a batch is built from the outcomes filed
    under [key], and from nothing else. *)
Lemma lookup_aggregate (ds : list Digest) (key : string) :
  lookup String.eqb (fold_left apply_digest ds []) key
  = match filter (fun d => String.eqb key (dg_key d)) ds with
    | [] => None
    | d :: _ => Some (group_of (dg_type d) (dg_domain d) (outcomes_for key ds))
    end.
Proof.
  etransitivity;
    [exact (lookup_fold_upsert String.eqb String.eqb_eq dg_key
              (fun d => new_ProverStats (dg_type d) (dg_domain d))
              (fun d => apply_outcome (dg_outcome d)) ds [] key) |].
  cbn [lookup]. unfold outcomes_for.
  destruct (filter (fun d => String.eqb key (dg_key d)) ds) as [| d dk] eqn:E;
    [reflexivity |].
  f_equal.
  rewrite (fold_left_mapped (fun ps o => apply_outcome o ps) dg_outcome).
  rewrite apply_outcomes_closed. unfold group_of. simpl.
  reflexivity.
Qed.

Lemma count_partition {A : Type} (f : A -> bool) (l : list A) :
  (count f l + count (fun x => negb (f x)) l)%Z = Z.of_nat (List.length l).
Proof.
  induction l as [| x l IH].
  - reflexivity.
  - rewrite !count_cons. cbn [List.length]. rewrite Nat2Z.inj_succ.
    destruct (f x); simpl negb; cbv iota; lia.
Qed.

Lemma totals_length (os : list Outcome) :
  Z.of_nat (List.length (flat_map totals_of os)) = count succeeded os.
Proof.
  induction os as [| o os IH].
  - reflexivity.
  - rewrite count_cons. cbn [flat_map]. rewrite length_app, Nat2Z.inj_add, IH.
    destruct o; reflexivity.
Qed.

Section Batches.
Context `{B : Builtins}.

(** A successful run is the fold of the digests of its lines. *)
Lemma load_ok (files : list (list line)) (provers : provers_t) :
  load_and_aggregate files = Ok provers ->
  exists dss,
    mapM digest_line (lines_of files) = Ok dss
    /\ provers = fold_left apply_digest (List.concat dss) [].
Proof.
  rewrite load_and_aggregate_spec.
  destruct (mapM digest_line (lines_of files)) as [dss |]; simpl;
    [| discriminate].
  intros [= <-]. eauto.
Qed.

Lemma load_group (files : list (list line)) (provers : provers_t)
    (key : string) (ps : ProverStats) :
  load_and_aggregate files = Ok provers ->
  In (key, ps) provers ->
  exists dss d,
    mapM digest_line (lines_of files) = Ok dss
    /\ lookup String.eqb provers key = Some ps
    /\ ps = group_of (dg_type d) (dg_domain d)
              (outcomes_for key (List.concat dss)).
Proof.
  intros Hload Hin. destruct (load_ok _ _ Hload) as [dss [Hd ->]].
  apply (In_lookup String.eqb String.eqb_eq) in Hin;
    [| apply NoDup_aggregate].
  pose proof Hin as Hl. rewrite lookup_aggregate in Hl.
  destruct (filter _ (List.concat dss)) as [| d dk]; [discriminate |].
  injection Hl as <-. eauto.
Qed.
End Batches.

(** C2: after a batch is ingested, every group of the mapping has
    [success_count + failure_count] equal to the number of input
    records whose key is the group's, and as many total durations as
    successes. *)
Theorem aggregate_counts (B : Builtins) (files : list (list line))
    (provers : provers_t) (key : string) (ps : ProverStats)
    (Hload : load_and_aggregate files = Ok provers)
    (Hin : In (key, ps) provers) :
  (success_count ps + failure_count ps)%Z = count (keyed key) (lines_of files)
  /\ Z.of_nat (List.length (total_durations_ms ps)) = success_count ps.
Proof.
  destruct (load_group _ _ _ _ Hload Hin) as [dss [d [Hd [_ ->]]]].
  unfold group_of. fields.
  rewrite count_partition, totals_length, (keyed_digests _ _ _ Hd).
  split; [| reflexivity].
  unfold outcomes_for, count. rewrite length_map. reflexivity.
Qed.

(** ** Aggregator: setup times *)

(** C9: a successful record's [setup_time_ms] is appended to its
    group's setup times exactly when the field is there and truthy;
    the integer 0, the float 0.0 and an absent field all leave the
    series as it was. *)
Theorem setup_time_appended_when_truthy (B : Builtins)
    (provers provers' : provers_t) (record results setup : json)
    (key : string)
    (Hkey : record_key record = Ok key)
    (Hsucc : is_successful record = true)
    (Hres : py_getitem record "results" = Ok results)
    (Hsetup : py_get results "setup_time_ms" JNull = Ok setup)
    (Hing : ingest provers record = Ok provers') :
  (exists ps',
      lookup String.eqb provers' key = Some ps'
      /\ setup_times_ms ps'
         = if py_truthy setup
           then (setup_times_before provers key ++ [setup])%list
           else setup_times_before provers key)
  /\ py_truthy (jint 0) = false
  /\ py_truthy (jfloat 0) = false
  /\ py_truthy JNull = false.
Proof.
  split; [| repeat split].
  rewrite ingest_spec in Hing.
  destruct (digest record) as [d |] eqn:Ed; simpl in Hing; [| discriminate].
  injection Hing as <-.
  pose proof (digest_key _ _ Ed) as Hk. rewrite Hkey in Hk.
  injection Hk as ->.
  unfold apply_digest, upsert. rewrite (lookup_store _ String.eqb_eq).
  rewrite String.eqb_refl. eexists. split; [reflexivity |].
  (* the outcome read from the record *)
  unfold digest in Ed.
  destruct (py_getitem record "prover") as [prover |]; simpl in Ed;
    [| discriminate].
  destruct (parse_prover_type prover) as [[[pt dom] opt] |]; simpl in Ed;
    [| discriminate].
  destruct (group_key pt dom opt) as [k |]; simpl in Ed; [| discriminate].
  destruct (parse_outcome record) as [o |] eqn:Eo; simpl in Ed;
    [| discriminate].
  injection Ed as <-. cbn [dg_outcome dg_key dg_type dg_domain].
  unfold parse_outcome in Eo. unfold is_successful in Hsucc.
  destruct (py_get record "success" (JBool false)) as [s |]; simpl in Eo;
    [| discriminate].
  rewrite Hsucc, Hres in Eo. simpl in Eo.
  destruct (py_getitem results "total_duration_ms") as [total |];
    simpl in Eo; [| discriminate].
  rewrite Hsetup in Eo. simpl in Eo.
  destruct (py_get results "rounds" (JArr [])) as [rounds |]; simpl in Eo;
    [| discriminate].
  destruct (py_iter rounds) as [rl |]; simpl in Eo; [| discriminate].
  destruct (mapM parse_round rl) as [entries |]; simpl in Eo; [| discriminate].
  injection Eo as <-. cbn [apply_outcome]. rewrite apply_rounds_closed.
  unfold setup_times_before. fields.
  destruct (lookup String.eqb provers k); reflexivity.
Qed.

(** ** Aggregator: malformed input *)

Lemma fatal_line_raises (B : Builtins) (l : line) :
  fatal l = true -> is_ok (digest_line l) = false.
Proof.
  destruct l as [| msg | j]; simpl; [discriminate | reflexivity |].
  intros Hf. unfold digest.
  destruct (py_getitem j "prover") as [prover |] eqn:Ep; simpl;
    [| reflexivity].
  destruct (parse_prover_type prover) as [[[pt dom] opt] |] eqn:Epp; simpl;
    [| reflexivity].
  destruct (group_key pt dom opt) as [k |]; simpl; [| reflexivity].
  apply orb_true_iff in Hf. destruct Hf as [Hm | Hu].
  - unfold missing_results, is_successful in Hm. unfold parse_outcome.
    destruct (py_get j "success" (JBool false)) as [s |]; simpl;
      [| reflexivity].
    apply andb_true_iff in Hm. destruct Hm as [-> Hr].
    destruct (py_getitem j "results"); [discriminate | reflexivity].
  - unfold unresolvable in Hu. rewrite Ep in Hu.
    assert (Hw : well_shaped prover = true)
      by (apply parse_prover_type_ok_iff; eauto).
    rewrite Hw in Hu. discriminate.
Qed.

(** C4 (as stated): a prover without any recognized key, here with two
    unrecognized ones, is filed under its first key and the run goes
    on; and the exception of a failed run is the same wherever the
    offending line stands, so it does not name the file or the line. *)
Lemma malformed_input_counterexample :
  (forall B : Builtins,
      is_ok (load_and_aggregate
               [[Record_ (JObj [("prover",
                                 JObj [("Foo", JNull); ("Bar", JNull)])])]])
      = true)
  /\ (forall (B : Builtins) (msg : string),
      load_and_aggregate [[Malformed msg]] = Raise (JSONDecodeError msg)
      /\ load_and_aggregate
           [[Record_ (JObj [("prover", JObj [("Direct", JNull)])])];
            [Blank; Blank; Malformed msg]]
         = Raise (JSONDecodeError msg)).
Proof.
  split; [intros B | intros B msg; split]; vm_compute; reflexivity.
Qed.

(** C4 (amended): a batch holding a line that does not decode, a
    successful record without [results], or a record whose prover the
    resolver does not accept (absent, empty, or a recognized tag with a
    malformed payload) makes the run raise: no mapping is returned,
    whatever the other lines hold. *)
Theorem malformed_input_is_fatal (B : Builtins) (files : list (list line))
    (l : line)
    (Hin : In l (lines_of files))
    (Hfatal : fatal l = true) :
  exists e, load_and_aggregate files = Raise e.
Proof.
  rewrite load_and_aggregate_spec.
  pose proof (mapM_In_raise digest_line _ _ Hin (fatal_line_raises B l Hfatal))
    as Hr.
  destruct (mapM digest_line (lines_of files)); [discriminate | simpl; eauto].
Qed.

(** ** Aggregator: order of the lines *)

Lemma Permutation_filter_same {A : Type} (f : A -> bool) (l l' : list A) :
  Permutation l l' -> Permutation (filter f l) (filter f l').
Proof.
  induction 1 as [| x l l' Hp IH | x y l | l l' l'' Hp1 IH1 Hp2 IH2]; simpl.
  - constructor.
  - destruct (f x); [apply perm_skip |]; exact IH.
  - destruct (f x), (f y); try apply Permutation_refl. apply perm_swap.
  - eapply Permutation_trans; eauto.
Qed.

Lemma Permutation_concat_same {A : Type} (ls ls' : list (list A)) :
  Permutation ls ls' -> Permutation (List.concat ls) (List.concat ls').
Proof.
  intros Hp. rewrite <- (map_id ls), <- (map_id ls'), <- !flat_map_concat_map.
  apply Permutation_flat_map. exact Hp.
Qed.

Lemma count_Permutation {A : Type} (f : A -> bool) (l l' : list A) :
  Permutation l l' -> count f l = count f l'.
Proof.
  intros Hp. unfold count. f_equal. apply Permutation_length.
  apply Permutation_filter_same. exact Hp.
Qed.

Lemma extend_rounds_closed (es : list RoundEntry) (rs : RoundStats) :
  fold_left (fun rs e => extend_round e rs) es rs
  = mkRoundStats (round_num rs)
      (durations_ms rs ++ map re_duration es)%list
      (request_bytes rs ++ map re_request es)%list
      (response_bytes rs ++ map re_response es)%list.
Proof.
  revert rs. induction es as [| e es IH]; intros rs; simpl.
  - rewrite !app_nil_r. destruct rs; reflexivity.
  - rewrite IH. simpl. rewrite <- !app_assoc. reflexivity.
Qed.

Lemma lookup_rounds (es : list RoundEntry) (rk : rkey) :
  lookup rkey_eqb (fold_left file_round es []) rk
  = match filter (fun e => rkey_eqb rk (re_key e)) es with
    | [] => None
    | e :: ek =>
        Some (mkRoundStats (re_num e)
                (map re_duration (e :: ek)) (map re_request (e :: ek))
                (map re_response (e :: ek)))
    end.
Proof.
  etransitivity;
    [exact (lookup_fold_upsert rkey_eqb rkey_eqb_spec re_key
              (fun e => new_RoundStats (re_num e)) extend_round es [] rk) |].
  cbn [lookup].
  destruct (filter (fun e => rkey_eqb rk (re_key e)) es) as [| e ek];
    [reflexivity |].
  rewrite extend_rounds_closed. reflexivity.
Qed.

Lemma rounds_Permutation (es es' : list RoundEntry) (rk : rkey) :
  Permutation es es' ->
  option_rel round_equiv
    (lookup rkey_eqb (fold_left file_round es []) rk)
    (lookup rkey_eqb (fold_left file_round es' []) rk).
Proof.
  intros Hp. rewrite !lookup_rounds.
  pose proof (Permutation_filter_same
                (fun e => rkey_eqb rk (re_key e)) _ _ Hp) as Hf.
  destruct (filter _ es) as [| e ek]; destruct (filter _ es') as [| e' ek'].
  - exact I.
  - apply Permutation_nil in Hf. discriminate.
  - apply Permutation_sym, Permutation_nil in Hf. discriminate.
  - unfold option_rel, round_equiv. cbn [durations_ms request_bytes response_bytes].
    repeat split; apply Permutation_map; exact Hf.
Qed.

Lemma group_of_Permutation (pt pt' : string) (dom dom' : json)
    (os os' : list Outcome) :
  Permutation os os' -> group_equiv (group_of pt dom os) (group_of pt' dom' os').
Proof.
  intros Hp. unfold group_equiv, group_of. fields.
  assert (He : Permutation (flat_map entries_of os) (flat_map entries_of os'))
    by (apply Permutation_flat_map; exact Hp).
  repeat split.
  - apply count_Permutation; exact Hp.
  - apply count_Permutation; exact Hp.
  - apply Permutation_flat_map; exact Hp.
  - apply Permutation_flat_map; exact Hp.
  - apply Permutation_map; exact He.
  - intros rk. apply rounds_Permutation. exact He.
Qed.

Lemma aggregate_Permutation (ds ds' : list Digest) :
  Permutation ds ds' ->
  same_groups (fold_left apply_digest ds []) (fold_left apply_digest ds' []).
Proof.
  intros Hp key. rewrite !lookup_aggregate. unfold outcomes_for.
  pose proof (Permutation_filter_same
                (fun d => String.eqb key (dg_key d)) _ _ Hp) as Hf.
  destruct (filter _ ds) as [| d dk]; destruct (filter _ ds') as [| d' dk'].
  - exact I.
  - apply Permutation_nil in Hf. discriminate.
  - apply Permutation_sym, Permutation_nil in Hf. discriminate.
  - cbn [option_rel]. apply group_of_Permutation.
    apply Permutation_map. exact Hf.
Qed.

(** A permuted batch ingests if the original does, into the same
    groups. *)
Lemma load_Permutation (B : Builtins) (files files' : list (list line))
    (provers : provers_t) :
  Permutation (lines_of files) (lines_of files') ->
  load_and_aggregate files = Ok provers ->
  exists provers' dss dss',
    load_and_aggregate files' = Ok provers'
    /\ provers = fold_left apply_digest (List.concat dss) []
    /\ provers' = fold_left apply_digest (List.concat dss') []
    /\ same_groups provers provers'.
Proof.
  intros Hp Hload. destruct (load_ok _ _ Hload) as [dss [Hd ->]].
  destruct (mapM_Permutation digest_line _ _ Hp dss Hd) as [dss' [Hd' Hdss]].
  exists (fold_left apply_digest (List.concat dss') []), dss, dss'.
  rewrite load_and_aggregate_spec, Hd'. simpl.
  repeat split. apply aggregate_Permutation, Permutation_concat_same, Hdss.
Qed.

(** ** SignificanceTester: which pairs are tested *)

Lemma tests_against_spec (S : SciLib) (key1 : string) (ps1 : ProverStats)
    (later : provers_t) :
  tests_against key1 ps1 later
  = mapM entry_of (filter enough_data (map (pair (key1, ps1)) later)).
Proof.
  induction later as [| [key2 ps2] later IH]; [reflexivity |].
  cbn [tests_against map filter]. rewrite IH.
  destruct (enough_data (key1, ps1, (key2, ps2))) eqn:E;
    unfold enough_data in E; cbn [fst snd] in E; rewrite E; reflexivity.
Qed.

(** The results are the entries of the tested pairs, in the order of
    the two loops; the first entry that raises ends the run. *)
Lemma perform_significance_tests_spec (S : SciLib) (provers : provers_t) :
  perform_significance_tests provers = mapM entry_of (tested_pairs provers).
Proof.
  unfold tested_pairs.
  induction provers as [| [key1 ps1] later IH]; [reflexivity |].
  cbn [perform_significance_tests ordered_pairs].
  rewrite filter_app, mapM_app, tests_against_spec, IH. reflexivity.
Qed.

(** What an entry that is returned holds. *)
Lemma welch_entry_ok (S : SciLib) (key1 key2 : string)
    (ps1 ps2 : ProverStats) (e : SigResult) :
  welch_entry key1 ps1 key2 ps2 = Ok e ->
  exists t p,
    stats_ttest_ind (total_durations_ms ps1) (total_durations_ms ps2)
    = Ok (t, p)
    /\ comparison e = key1 ++ " vs " ++ key2
    /\ t_statistic e = t
    /\ p_value e = p
    /\ significant_005 e = PrimFloat.ltb p 0.05
    /\ significant_001 e = PrimFloat.ltb p 0.01.
Proof.
  unfold welch_entry. intros E.
  apply bind_ok in E. destruct E as [[t p] [Et E]].
  apply bind_ok in E. destruct E as [var1 [_ E]].
  apply bind_ok in E. destruct E as [var2 [_ E]].
  apply bind_ok in E. destruct E as [d [_ E]].
  injection E as <-. exists t, p. cbn [fst snd]. repeat split. exact Et.
Qed.

Lemma mapM_Forall2 {A B : Type} (f : A -> result B) (l : list A)
    (ys : list B) :
  mapM f l = Ok ys <-> Forall2 (fun x y => f x = Ok y) l ys.
Proof.
  revert ys. induction l as [| x l IH]; intros ys; cbn [mapM].
  - split.
    + intros E. injection E as <-. constructor.
    + intros F. inversion F. reflexivity.
  - split.
    + intros E. apply bind_ok in E. destruct E as [y [Ey E]].
      apply bind_ok in E. destruct E as [ys' [Eys E]]. injection E as <-.
      constructor; [exact Ey | apply IH, Eys].
    + intros F. inversion F as [| ? y ? ys' Ey F']; subst.
      rewrite Ey. cbn [bind]. apply IH in F'. rewrite F'. reflexivity.
Qed.

Lemma mapM_length {A B : Type} (f : A -> result B) (l : list A)
    (ys : list B) :
  mapM f l = Ok ys -> List.length ys = List.length l.
Proof.
  intros E. apply mapM_Forall2 in E. symmetry.
  induction E; cbn [List.length]; congruence.
Qed.

Lemma ordered_pairs_In {A : Type} (l : list A) (a b : A) :
  In (a, b) (ordered_pairs l) -> In a l /\ In b l.
Proof.
  induction l as [| x l IH]; simpl; [intros [] |].
  intros H. apply in_app_or in H. destruct H as [H | H].
  - apply in_map_iff in H. destruct H as [y [[= <- <-] Hy]]. auto.
  - destruct (IH H). auto.
Qed.

Lemma ordered_pairs_either {A : Type} (l : list A) (a b : A) :
  In a l -> In b l -> a <> b ->
  In (a, b) (ordered_pairs l) \/ In (b, a) (ordered_pairs l).
Proof.
  induction l as [| x l IH]; simpl; [intros [] |].
  intros [-> | Ha] [-> | Hb] Hne.
  - congruence.
  - left. apply in_or_app. left. apply in_map. exact Hb.
  - right. apply in_or_app. left. apply in_map. exact Ha.
  - destruct (IH Ha Hb Hne); [left | right]; apply in_or_app; right; assumption.
Qed.

Lemma ordered_pairs_distinct {K V : Type} (l : list (K * V)) (a b : K * V) :
  NoDup (map fst l) -> In (a, b) (ordered_pairs l) -> fst a <> fst b.
Proof.
  induction l as [| x l IH]; simpl; [intros _ [] |].
  intros Hnd H. inversion Hnd as [| ? ? Hx Hnd']; subst.
  apply in_app_or in H. destruct H as [H | H]; [| auto].
  apply in_map_iff in H. destruct H as [y [[= <- <-] Hy]].
  intros E. apply Hx. rewrite E. apply in_map. exact Hy.
Qed.

Lemma group_equiv_enough (ps ps' : ProverStats) :
  group_equiv ps ps' ->
  List.length (total_durations_ms ps) = List.length (total_durations_ms ps').
Proof.
  intros (_ & _ & Ht & _). apply Permutation_length. exact Ht.
Qed.

(** Two runs with the same groups test the same pairs of keys, each
    pair named in the order its groups were first seen. *)
Lemma tested_pairs_same_groups (p p' : provers_t) :
  NoDup (map fst p) -> NoDup (map fst p') -> same_groups p p' ->
  forall k1 ps1 k2 ps2,
    In ((k1, ps1), (k2, ps2)) (tested_pairs p) ->
    exists ps1' ps2',
      group_equiv ps1 ps1' /\ group_equiv ps2 ps2'
      /\ (In ((k1, ps1'), (k2, ps2')) (tested_pairs p')
          \/ In ((k2, ps2'), (k1, ps1')) (tested_pairs p')).
Proof.
  intros Hnd Hnd' Hsame k1 ps1 k2 ps2 Hin.
  unfold tested_pairs in Hin. apply filter_In in Hin.
  destruct Hin as [Hin Hen].
  pose proof (ordered_pairs_distinct _ _ _ Hnd Hin) as Hne. simpl in Hne.
  destruct (ordered_pairs_In _ _ _ Hin) as [H1 H2].
  apply (In_lookup String.eqb String.eqb_eq _ _ _ Hnd) in H1, H2.
  pose proof (Hsame k1) as G1. pose proof (Hsame k2) as G2.
  rewrite H1 in G1. rewrite H2 in G2.
  destruct (lookup String.eqb p' k1) as [ps1' |] eqn:L1; [| contradiction].
  destruct (lookup String.eqb p' k2) as [ps2' |] eqn:L2; [| contradiction].
  simpl in G1, G2. exists ps1', ps2'. split; [exact G1 |]. split; [exact G2 |].
  apply (lookup_In String.eqb String.eqb_eq) in L1, L2.
  assert (Hd : (k1, ps1') <> (k2, ps2')) by congruence.
  unfold enough_data in Hen. simpl in Hen.
  rewrite (group_equiv_enough _ _ G1), (group_equiv_enough _ _ G2) in Hen.
  unfold tested_pairs.
  destruct (ordered_pairs_either _ _ _ L1 L2 Hd) as [H | H]; [left | right];
    apply filter_In; split; try exact H; unfold enough_data; simpl;
    [| rewrite andb_comm]; exact Hen.
Qed.

(** C3 (amended): a permutation of the lines of a batch, within and
    across files, ingests if the batch does and gives the same groups:
    the same keys, the same success and failure counts, and series
    holding the same observations up to their order.  The tests are
    the entries of the same pairs of groups, but a pair is named in the
    order its two groups were first seen.  The order of the results,
    the label and the signs of a comparison, and the order of the
    observations a statistic is computed from follow the order of the
    lines; the tests end with the first entry numpy or scipy refuses. *)
Theorem permuted_batch_same_groups (B : Builtins) (S : SciLib)
    (files files' : list (list line)) (provers : provers_t)
    (Hperm : Permutation (lines_of files) (lines_of files'))
    (Hload : load_and_aggregate files = Ok provers) :
  exists provers',
    load_and_aggregate files' = Ok provers'
    /\ same_groups provers provers'
    /\ perform_significance_tests provers
       = mapM entry_of (tested_pairs provers)
    /\ perform_significance_tests provers'
       = mapM entry_of (tested_pairs provers')
    /\ forall k1 ps1 k2 ps2,
        In ((k1, ps1), (k2, ps2)) (tested_pairs provers) ->
        exists ps1' ps2',
          group_equiv ps1 ps1' /\ group_equiv ps2 ps2'
          /\ (In ((k1, ps1'), (k2, ps2')) (tested_pairs provers')
              \/ In ((k2, ps2'), (k1, ps1')) (tested_pairs provers')).
Proof.
  destruct (load_Permutation B _ _ _ Hperm Hload)
    as (provers' & dss & dss' & Hload' & Hp & Hp' & Hsame).
  exists provers'. split; [exact Hload' |]. split; [exact Hsame |].
  split; [apply perform_significance_tests_spec |].
  split; [apply perform_significance_tests_spec |].
  apply tested_pairs_same_groups; [| | exact Hsame].
  - rewrite Hp. apply NoDup_aggregate.
  - rewrite Hp'. apply NoDup_aggregate.
Qed.

(** C3 (as stated): the same four lines in two orders give two
    different lists of significance results, whatever numpy and scipy
    compute: the comparison is labelled after the group seen first.
    With the sample library both lists are returned. *)
Lemma permuted_batch_changes_tests :
  Permutation
    (lines_of [[direct_run 100; direct_run 102];
               [proxy_run "plain.example.com" 50;
                proxy_run "plain.example.com" 60]])
    (lines_of [[proxy_run "plain.example.com" 50; direct_run 100];
               [proxy_run "plain.example.com" 60; direct_run 102]])
  /\ (forall (B : Builtins) (S : SciLib),
      exists p1 p2,
        load_and_aggregate [[direct_run 100; direct_run 102];
                            [proxy_run "plain.example.com" 50;
                             proxy_run "plain.example.com" 60]] = Ok p1
        /\ load_and_aggregate
             [[proxy_run "plain.example.com" 50; direct_run 100];
              [proxy_run "plain.example.com" 60; direct_run 102]] = Ok p2
        /\ map (fun pr => (fst (fst pr), fst (snd pr))) (tested_pairs p1)
           = [("Direct", "Proxy (plain)")]
        /\ map (fun pr => (fst (fst pr), fst (snd pr))) (tested_pairs p2)
           = [("Proxy (plain)", "Direct")]
        /\ forall t1 t2,
            perform_significance_tests p1 = Ok t1 ->
            perform_significance_tests p2 = Ok t2 ->
            map comparison t1 = ["Direct vs Proxy (plain)"]
            /\ map comparison t2 = ["Proxy (plain) vs Direct"]
            /\ t1 <> t2)
  /\ is_ok (p1 <- @load_and_aggregate sample_builtins
                    [[direct_run 100; direct_run 102];
                     [proxy_run "plain.example.com" 50;
                      proxy_run "plain.example.com" 60]] ;;
            @perform_significance_tests sample_scilib p1) = true
  /\ is_ok (p2 <- @load_and_aggregate sample_builtins
                    [[proxy_run "plain.example.com" 50; direct_run 100];
                     [proxy_run "plain.example.com" 60; direct_run 102]] ;;
            @perform_significance_tests sample_scilib p2) = true.
Proof.
  split; [| split; [| split; vm_compute; reflexivity]].
  - simpl. eapply perm_trans; [apply perm_skip, perm_swap |].
    eapply perm_trans; [apply perm_swap |].
    apply perm_skip, perm_skip, perm_swap.
  - intros B S. eexists. eexists.
    split; [vm_compute; reflexivity |].
    split; [vm_compute; reflexivity |].
    split; [reflexivity |]. split; [reflexivity |].
    intros t1 t2 E1 E2.
    cbn [perform_significance_tests tests_against total_durations_ms
           List.length Nat.leb andb] in E1, E2.
    apply bind_ok in E1. destruct E1 as [r1 [E1 F1]].
    apply bind_ok in E1. destruct E1 as [e1 [E1 G1]].
    apply bind_ok in E2. destruct E2 as [r2 [E2 F2]].
    apply bind_ok in E2. destruct E2 as [e2 [E2 G2]].
    cbn [bind] in F1, F2, G1, G2.
    injection G1 as <-. injection F1 as <-.
    injection G2 as <-. injection F2 as <-.
    destruct (welch_entry_ok _ _ _ _ _ _ E1) as (? & ? & _ & C1 & _).
    destruct (welch_entry_ok _ _ _ _ _ _ E2) as (? & ? & _ & C2 & _).
    cbn [app map]. rewrite C1, C2.
    split; [reflexivity |]. split; [reflexivity |].
    intros E. injection E as E. rewrite E in C1. rewrite C1 in C2.
    discriminate C2.
Qed.

Lemma permuted_batch_same_groups_witness :
  exists provers',
    @load_and_aggregate sample_builtins
      [[direct_run 98; direct_run 101; direct_run 99];
       [direct_run 100; direct_run 102; Blank;
        proxy_failure "plain.example.com"]] = Ok provers'
    /\ same_groups sample_provers provers'
    /\ @perform_significance_tests sample_scilib sample_provers
       = mapM (@entry_of sample_scilib) (tested_pairs sample_provers)
    /\ @perform_significance_tests sample_scilib provers'
       = mapM (@entry_of sample_scilib) (tested_pairs provers')
    /\ forall k1 ps1 k2 ps2,
        In ((k1, ps1), (k2, ps2)) (tested_pairs sample_provers) ->
        exists ps1' ps2',
          group_equiv ps1 ps1' /\ group_equiv ps2 ps2'
          /\ (In ((k1, ps1'), (k2, ps2')) (tested_pairs provers')
              \/ In ((k2, ps2'), (k1, ps1')) (tested_pairs provers')).
Proof.
  apply (permuted_batch_same_groups sample_builtins sample_scilib sample_files).
  - apply (Permutation_app_comm
             [direct_run 100; direct_run 102; Blank;
              proxy_failure "plain.example.com"]
             [direct_run 98; direct_run 101; direct_run 99]).
  - vm_compute. reflexivity.
Defined.

Lemma aggregate_counts_witness :
  (success_count sample_direct + failure_count sample_direct)%Z
  = count (@keyed sample_builtins "Direct") (lines_of sample_files)
  /\ Z.of_nat (List.length (total_durations_ms sample_direct))
     = success_count sample_direct.
Proof.
  apply (aggregate_counts sample_builtins sample_files sample_provers).
  - vm_compute. reflexivity.
  - vm_compute. left. reflexivity.
Defined.

Lemma malformed_input_is_fatal_witness :
  exists e,
    @load_and_aggregate sample_builtins
      [[direct_run 100;
        Record_ (JObj [("prover", JObj [("Direct", JNull)]);
                       ("success", JBool true)])];
       [direct_run 102]] = Raise e.
Proof.
  apply (malformed_input_is_fatal sample_builtins _
           (Record_ (JObj [("prover", JObj [("Direct", JNull)]);
                           ("success", JBool true)]))).
  - simpl. right. left. reflexivity.
  - vm_compute. reflexivity.
Defined.

Lemma setup_time_appended_when_truthy_witness :
  (exists ps',
      lookup String.eqb
        [("Direct",
          mkProverStats "Direct" JNull [jint 7; jint 100] [jint 3] [] [] 2 0)]
        "Direct" = Some ps'
      /\ setup_times_ms ps'
         = if py_truthy (jint 0)
           then (setup_times_before
                   [("Direct",
                     mkProverStats "Direct" JNull [jint 7] [jint 3] [] [] 1 0)]
                   "Direct" ++ [jint 0])%list
           else setup_times_before
                  [("Direct",
                    mkProverStats "Direct" JNull [jint 7] [jint 3] [] [] 1 0)]
                  "Direct")
  /\ py_truthy (jint 0) = false
  /\ py_truthy (jfloat 0) = false
  /\ py_truthy JNull = false.
Proof.
  apply (setup_time_appended_when_truthy sample_builtins
           [("Direct", mkProverStats "Direct" JNull [jint 7] [jint 3] [] [] 1 0)]
           _
           (JObj [("prover", JObj [("Direct", JObj [])]);
                  ("success", JBool true);
                  ("results", JObj [("total_duration_ms", jint 100);
                                    ("setup_time_ms", jint 0)])])
           (JObj [("total_duration_ms", jint 100); ("setup_time_ms", jint 0)])
           (jint 0) "Direct");
    vm_compute; reflexivity.
Defined.

(** ** StatsEngine *)

(** C6: on the empty series [compute_stats] returns, without calling
    numpy, [n = 0], [adequate_sample = False] and 0 for mean, std, sem,
    ci_lower, ci_upper, min, max, median and cv; the summary has no
    [ci_width_pct] entry at all, and reading it raises [KeyError],
    while the summary returned for a non-empty series has one. *)
Theorem compute_stats_empty (S : SciLib) :
  compute_stats []
  = Ok [("n", jint 0); ("mean", jint 0); ("std", jint 0); ("sem", jint 0);
        ("ci_lower", jint 0); ("ci_upper", jint 0);
        ("min", jint 0); ("max", jint 0); ("median", jint 0);
        ("cv", jint 0); ("adequate_sample", JBool false)]
  /\ (s <- compute_stats [] ;; Ok (dict_get s "ci_width_pct")) = Ok None
  /\ (s <- compute_stats [] ;; stat s "ci_width_pct")
     = Raise (KeyError "ci_width_pct")
  /\ forall x data s,
      compute_stats (x :: data) = Ok s ->
      dict_get s "ci_width_pct" <> None.
Proof.
  repeat split.
  intros x data s E. unfold compute_stats in E.
  apply bind_ok in E. destruct E as [m0 [_ E]].
  apply bind_ok in E. destruct E as [std [_ E]].
  apply bind_ok in E. destruct E as [sem [_ E]].
  apply bind_ok in E. destruct E as [[[mean lo] hi] [_ E]].
  apply bind_ok in E. destruct E as [mn [_ E]].
  apply bind_ok in E. destruct E as [mx [_ E]].
  apply bind_ok in E. destruct E as [md [_ E]].
  injection E as <-. cbn. discriminate.
Qed.

(** C5 (as stated): the mean of the one-element series [100] is 100,
    not 0. *)
Lemma single_element_mean_not_zero :
  (s <- @compute_stats sample_scilib [jint 100] ;; Ok (dict_get s "mean"))
  = Ok (Some (jfloat 100))
  /\ (s <- @compute_stats sample_scilib [jint 100] ;; Ok (dict_get s "mean"))
     <> Ok (Some (jint 0))
  /\ PrimFloat.eqb 100 0 = false.
Proof.
  repeat split. vm_compute. discriminate.
Qed.

(** C5 (amended): for a one-element series, [compute_stats] calls
    numpy for the mean, the minimum, the maximum and the median only,
    and returns when these four calls do; in the summary [std] and
    [sem] are 0, and [mean], [ci_lower] and [ci_upper] are all the mean
    numpy returns for the series (its one element, not 0): the
    confidence interval collapses to [mean, mean]. *)
Theorem compute_stats_single (S : SciLib) (x : json) :
  is_ok (compute_stats [x])
  = (is_ok (np_mean [x]) && is_ok (np_min [x]) && is_ok (np_max [x])
     && is_ok (np_median [x]))%bool
  /\ compute_ci [x] confidence_default
     = (mean <- np_mean [x] ;; Ok (mean, mean, mean))
  /\ forall s,
      compute_stats [x] = Ok s ->
      exists mean,
        np_mean [x] = Ok mean
        /\ dict_get s "n" = Some (jint 1)
        /\ dict_get s "std" = Some (jint 0)
        /\ dict_get s "sem" = Some (jint 0)
        /\ dict_get s "mean" = Some (jfloat mean)
        /\ dict_get s "ci_lower" = Some (jfloat mean)
        /\ dict_get s "ci_upper" = Some (jfloat mean).
Proof.
  split; [| split; [reflexivity |]].
  - unfold compute_stats, compute_ci.
    change (1 <? Z.of_nat (List.length [x]))%Z with false.
    change (List.length [x] <? 2)%nat with true. cbn iota.
    destruct (np_mean [x]) as [mean |]; cbn [bind is_ok andb];
      [| reflexivity].
    destruct (np_min [x]) as [lo |]; cbn [bind is_ok andb]; [| reflexivity].
    destruct (np_max [x]) as [hi |]; cbn [bind is_ok andb]; [| reflexivity].
    destruct (np_median [x]) as [md |]; reflexivity.
  - intros s E. unfold compute_stats, compute_ci in E.
    change (1 <? Z.of_nat (List.length [x]))%Z with false in E.
    change (List.length [x] <? 2)%nat with true in E. cbn iota in E.
    destruct (np_mean [x]) as [mean |]; cbn [bind] in E; [| discriminate].
    apply bind_ok in E. destruct E as [lo [_ E]].
    apply bind_ok in E. destruct E as [hi [_ E]].
    apply bind_ok in E. destruct E as [md [_ E]].
    injection E as <-. exists mean. repeat split.
Qed.

(** ** Renderers: groups without a success *)

Lemma mapM_In {A B : Type} (f : A -> result B) (l : list A) (ys : list B)
    (x : A) :
  mapM f l = Ok ys -> In x l -> exists y, f x = Ok y /\ In y ys.
Proof.
  revert ys. induction l as [| a l IH]; simpl; intros ys E; [intros [] |].
  destruct (f a) as [b |] eqn:Ea; simpl in E; [| discriminate].
  destruct (mapM f l) as [bs |]; simpl in E; [| discriminate].
  injection E as <-. intros [<- | Hin].
  - exists b. simpl. auto.
  - destruct (IH bs eq_refl Hin) as [y [Ey Hy]]. exists y. simpl. auto.
Qed.

Lemma mapM_In_inv {A B : Type} (f : A -> result B) (l : list A) (ys : list B)
    (y : B) :
  mapM f l = Ok ys -> In y ys -> exists x, In x l /\ f x = Ok y.
Proof.
  revert ys. induction l as [| a l IH]; simpl; intros ys E.
  - injection E as <-. intros [].
  - destruct (f a) as [b |] eqn:Ea; simpl in E; [| discriminate].
    destruct (mapM f l) as [bs |]; simpl in E; [| discriminate].
    injection E as <-. intros [<- | Hin].
    + exists a. auto.
    + destruct (IH bs eq_refl Hin) as [x [Hx Ex]]. exists x. auto.
Qed.

Lemma insert_item_Permutation (x : string * ProverStats) (l : provers_t) :
  Permutation (insert_item x l) (x :: l).
Proof.
  induction l as [| y l IH]; simpl; [apply Permutation_refl |].
  destruct (String.leb (fst x) (fst y)); [apply Permutation_refl |].
  eapply perm_trans; [apply perm_skip, IH | apply perm_swap].
Qed.

Lemma sorted_items_Permutation (provers : provers_t) :
  Permutation (sorted_items provers) provers.
Proof.
  induction provers as [| x l IH]; simpl; [constructor |].
  eapply perm_trans; [apply insert_item_Permutation | apply perm_skip, IH].
Qed.

Lemma dict_value_unique {K V : Type} (l : list (K * V)) (k : K) (v v' : V) :
  NoDup (map fst l) -> In (k, v) l -> In (k, v') l -> v = v'.
Proof.
  induction l as [| [k0 v0] l IH]; simpl; [intros _ [] |].
  intros Hnd H1 H2. inversion Hnd as [| ? ? Hk Hnd']; subst.
  destruct H1 as [H1 | H1], H2 as [H2 | H2].
  - congruence.
  - injection H1 as -> ->. exfalso. apply Hk.
    apply in_map_iff. exists (k, v'). auto.
  - injection H2 as -> ->. exfalso. apply Hk.
    apply in_map_iff. exists (k, v). auto.
  - apply IH; assumption.
Qed.

(** *** Code that prints *)

Lemma pbind_eq {A B : Type} (m : printing A) (k : A -> printing B) :
  pbind m k
  = match outcome m with
    | Ok a => ((printed m ++ printed (k a))%list, outcome (k a))
    | Raise e => (printed m, Raise e)
    end.
Proof. reflexivity. Qed.

Lemma pbind_ok {A B : Type} (m : printing A) (k : A -> printing B)
    (out : list string) (b : B) :
  pbind m k = (out, Ok b) ->
  exists a out1 out2,
    m = (out1, Ok a) /\ k a = (out2, Ok b) /\ out = (out1 ++ out2)%list.
Proof.
  destruct m as [out1 [a | e]]; unfold pbind; cbn [fst snd];
    [| discriminate].
  destruct (k a) as [out2 r] eqn:Ek. cbn [fst snd]. intros E.
  injection E as <- ->. exists a, out1, out2. auto.
Qed.

(** A prefix of what is printed is printed whatever follows. *)
Lemma pbind_printed {A B : Type} (m : printing A) (k : A -> printing B) :
  exists rest, printed (pbind m k) = (printed m ++ rest)%list.
Proof.
  rewrite pbind_eq. destruct (outcome m) as [a | e]; cbn [printed fst].
  - exists (printed (k a)). reflexivity.
  - exists []. rewrite app_nil_r. reflexivity.
Qed.

Lemma for_each_app {A : Type} (f : A -> printing unit) (l1 l2 : list A) :
  for_each f (l1 ++ l2)%list = (_ <~ for_each f l1 ;; for_each f l2).
Proof.
  induction l1 as [| x l1 IH]; cbn [app for_each].
  - unfold pbind. cbn [fst snd app]. destruct (for_each f l2). reflexivity.
  - rewrite IH. unfold pbind.
    destruct (f x) as [o1 [[] | e]]; cbn [fst snd]; [| reflexivity].
    destruct (for_each f l1) as [o2 [[] | e]]; cbn [fst snd].
    + rewrite app_assoc. reflexivity.
    + reflexivity.
Qed.

(** A loop that returns has printed the output of every iteration. *)
Lemma for_each_ok {A : Type} (f : A -> printing unit) (l : list A)
    (out : list string) (x : A) :
  for_each f l = (out, Ok tt) -> In x l ->
  outcome (f x) = Ok tt /\ incl (printed (f x)) out.
Proof.
  revert out. induction l as [| y l IH]; intros out E; [intros [] |].
  cbn [for_each] in E. apply pbind_ok in E.
  destruct E as ([] & o1 & o2 & Ey & El & ->). intros [<- | Hin].
  - rewrite Ey. split; [reflexivity |]. apply incl_appl, incl_refl.
  - destruct (IH _ El Hin) as [Hx Hi]. split; [exact Hx |].
    apply incl_appr, Hi.
Qed.

(** A loop that raises in its first items does not reach the rest. *)
Lemma for_each_stops {A : Type} (f : A -> printing unit) (l1 l2 : list A)
    (e : exn) :
  outcome (for_each f l1) = Raise e ->
  for_each f (l1 ++ l2)%list = for_each f l1.
Proof.
  intros E. rewrite for_each_app, pbind_eq, E.
  destruct (for_each f l1) as [o r]. cbn [printed outcome fst snd] in *.
  congruence.
Qed.

Section ZeroSuccess.
Context `{B : Builtins} `{S : SciLib}.

Lemma csv_row_key (key metric : string) (s : list (string * json))
    (row : list json) :
  csv_row key metric s = Ok row -> hd_error row = Some (JStr key).
Proof.
  unfold csv_row. intros E.
  repeat (apply bind_ok in E; destruct E as [? [_ E]]).
  injection E as <-. reflexivity.
Qed.

Lemma csv_group_rows (key : string) (ps : ProverStats)
    (rows : list (list json)) (row : list json) :
  csv_group (key, ps) = Ok rows -> In row rows ->
  success_count ps <> 0%Z /\ hd_error row = Some (JStr key).
Proof.
  unfold csv_group. destruct (success_count ps =? 0)%Z eqn:Ez.
  - intros [= <-] [].
  - apply Z.eqb_neq in Ez. intros E Hin. split; [exact Ez |].
    apply bind_ok in E. destruct E as [s [_ E]].
    apply bind_ok in E. destruct E as [total [Et E]].
    apply bind_ok in E. destruct E as [setup [Es E]].
    apply bind_ok in E. destruct E as [avg [Ea E]].
    apply bind_ok in E. destruct E as [keys [_ E]].
    apply bind_ok in E. destruct E as [rounds [Er E]].
    injection E as <-.
    destruct Hin as [<- | Hin]; [eapply csv_row_key; eauto |].
    apply in_app_or in Hin. destruct Hin as [Hin | Hin].
    { destruct (setup_times_ms ps); [injection Es as <-; destruct Hin |].
      apply bind_ok in Es. destruct Es as [s' [_ Es]].
      apply bind_ok in Es. destruct Es as [r [Hr Es]]. injection Es as <-.
      destruct Hin as [<- | []]. eapply csv_row_key; eauto. }
    apply in_app_or in Hin. destruct Hin as [Hin | Hin].
    { destruct (all_round_durations_ms ps);
        [injection Ea as <-; destruct Hin |].
      apply bind_ok in Ea. destruct Ea as [s' [_ Ea]].
      apply bind_ok in Ea. destruct Ea as [r [Hr Ea]]. injection Ea as <-.
      destruct Hin as [<- | []]. eapply csv_row_key; eauto. }
    destruct (mapM_In_inv _ _ _ _ Er Hin) as [rn [_ Ern]].
    unfold csv_round in Ern. apply bind_ok in Ern.
    destruct Ern as [rs [_ Ern]]. apply bind_ok in Ern.
    destruct Ern as [s' [_ Ern]]. eapply csv_row_key; eauto.
Qed.

Lemma json_group_entries (key : string) (ps : ProverStats)
    (entries : list (string * ProverData)) (k : string) :
  json_group (key, ps) = Ok entries -> In k (map fst entries) ->
  success_count ps <> 0%Z /\ k = key.
Proof.
  unfold json_group. destruct (success_count ps =? 0)%Z eqn:Ez.
  - intros [= <-] [].
  - apply Z.eqb_neq in Ez. intros E Hin. split; [exact Ez |].
    apply bind_ok in E. destruct E as [total [_ E]].
    apply bind_ok in E. destruct E as [setup [_ E]].
    apply bind_ok in E. destruct E as [avg [_ E]].
    apply bind_ok in E. destruct E as [keys [_ E]].
    apply bind_ok in E. destruct E as [per_round [_ E]].
    injection E as <-. destruct Hin as [<- | []]. reflexivity.
Qed.

(** The report: the banner, the groups in the order of their keys,
    and, if no group raises, the tests and a last empty line. *)
Lemma print_report_spec (provers : provers_t) (tests : list SigResult) :
  print_report provers tests
  = match outcome (for_each report_group (sorted_items provers)) with
    | Ok _ =>
        ((report_banner
          ++ printed (for_each report_group (sorted_items provers))
          ++ report_tests tests ++ [say EmptyString])%list, Ok tt)
    | Raise e =>
        ((report_banner
          ++ printed (for_each report_group (sorted_items provers)))%list,
         Raise e)
    end.
Proof.
  unfold print_report, pbind, print_chunks, print, printed, outcome.
  cbn [fst snd].
  destruct (for_each report_group (sorted_items provers)) as [out [[] | e]];
    reflexivity.
Qed.

(** The section of a group without a success: it needs no statistics
    and cannot raise. *)
Lemma report_group_zero (key : string) (ps : ProverStats) :
  success_count ps = 0%Z ->
  report_group (key, ps)
  = ((report_heading key ps
      ++ [say "  No successful runs to analyze."])%list, Ok tt).
Proof.
  intros Hzero. unfold report_group. rewrite Hzero. reflexivity.
Qed.
End ZeroSuccess.

(** C10 (amended): a group without a success is left out of both
    exports, with its failure count.  In the report its section, the
    heading, the run counts and a note, is printed whole right after
    the sections of the groups sorted before it, unless reporting one
    of these raises: then the report ends there and the group is not
    reached. *)
Theorem zero_success_group_only_in_report (B : Builtins) (S : SciLib)
    (provers : provers_t) (tests : list SigResult)
    (key : string) (ps : ProverStats)
    (Hdict : NoDup (map fst provers))
    (Hin : In (key, ps) provers)
    (Hzero : success_count ps = 0%Z) :
  (forall data, export_json provers tests = Ok data ->
                ~ In key (map fst (ex_provers data)))
  /\ (forall rows, export_csv provers = Ok rows ->
      forall row, In row (tl rows) -> hd_error row <> Some (JStr key))
  /\ report_group (key, ps)
     = ((report_heading key ps
         ++ [say "  No successful runs to analyze."])%list, Ok tt)
  /\ (exists before after,
        sorted_items provers = (before ++ (key, ps) :: after)%list)
  /\ (forall before after,
        sorted_items provers = (before ++ (key, ps) :: after)%list ->
        match outcome (for_each report_group before) with
        | Ok _ =>
            exists rest,
              printed (print_report provers tests)
              = (report_banner ++ printed (for_each report_group before)
                 ++ report_heading key ps
                 ++ [say "  No successful runs to analyze."] ++ rest)%list
        | Raise e =>
            print_report provers tests
            = ((report_banner
                ++ printed (for_each report_group before))%list, Raise e)
        end)
  /\ In (say ("PROVER: " ++ key)) (report_heading key ps)
  /\ In (say (nl ++ "Runs: 0 successful / " ++ str_of_Z (failure_count ps)
              ++ " total ("
              ++ fmt_f 1 (if (0 <? failure_count ps)%Z
                          then PFloat (Z2float 0 / Z2float (failure_count ps)
                                       * 100)%float
                          else PInt 0)
              ++ "% success)"))
        (report_heading key ps).
Proof.
  assert (Hsorted : forall k v, In (k, v) (sorted_items provers) ->
                                In (k, v) provers).
  { intros k v. apply Permutation_in, sorted_items_Permutation. }
  pose proof (report_group_zero key ps Hzero) as Hgroup.
  split; [| split; [| split; [exact Hgroup | split; [| split; [| split]]]]].
  - intros data E Hk. unfold export_json in E.
    apply bind_ok in E. destruct E as [groups [Eg E]]. injection E as <-.
    cbn [ex_provers] in Hk. apply in_map_iff in Hk.
    destruct Hk as [[k pd] [Hfst Hk]]. simpl in Hfst. subst k.
    apply in_concat in Hk. destruct Hk as [entries [He Hk]].
    destruct (mapM_In_inv _ _ _ _ Eg He) as [[k' ps'] [Hitem Ek]].
    assert (Hkey : In key (map fst entries))
      by (apply in_map_iff; exists (key, pd); auto).
    destruct (json_group_entries _ _ _ _ Ek Hkey) as [Hnz ->].
    apply Hnz.
    rewrite (dict_value_unique _ _ _ _ Hdict (Hsorted _ _ Hitem) Hin).
    exact Hzero.
  - intros rows E row Hrow Hhd. unfold export_csv in E.
    apply bind_ok in E. destruct E as [groups [Eg E]]. injection E as <-.
    cbn [tl] in Hrow. apply in_concat in Hrow.
    destruct Hrow as [grp [Hg Hrow]].
    destruct (mapM_In_inv _ _ _ _ Eg Hg) as [[k' ps'] [Hitem Ek]].
    destruct (csv_group_rows _ _ _ _ Ek Hrow) as [Hnz Hk].
    rewrite Hhd in Hk. injection Hk as <-.
    apply Hnz.
    rewrite (dict_value_unique _ _ _ _ Hdict (Hsorted _ _ Hitem) Hin).
    exact Hzero.
  - apply in_split.
    eapply Permutation_in;
      [apply Permutation_sym, sorted_items_Permutation | exact Hin].
  - intros before after Hsplit.
    rewrite print_report_spec, Hsplit.
    destruct (outcome (for_each report_group before)) as [[] | e] eqn:Eb.
    + rewrite for_each_app. rewrite pbind_eq, Eb.
      cbn [for_each]. rewrite (pbind_eq (report_group (key, ps))), Hgroup.
      cbn [printed outcome fst snd].
      destruct (outcome (for_each report_group after)) as [[] | e'];
        cbn [printed fst].
      * exists (printed (for_each report_group after)
                ++ report_tests tests ++ [say EmptyString])%list.
        rewrite <- !app_assoc. reflexivity.
      * exists (printed (for_each report_group after)).
        rewrite <- !app_assoc. reflexivity.
    + rewrite (for_each_stops _ _ _ _ Eb), Eb. reflexivity.
  - unfold report_heading. simpl. auto.
  - unfold report_heading. rewrite Hzero. rewrite Z.add_0_l.
    simpl. auto 6.
Qed.

(** C10 (as stated): a report that raises while reporting the direct
    runs, whose estimate of the sample size is infinite, never prints
    the proxy group without a success that is sorted after them. *)
Lemma zero_success_group_not_reported :
  @load_and_aggregate sample_builtins overflow_files = Ok overflow_provers
  /\ @perform_significance_tests sample_scilib overflow_provers = Ok []
  /\ (exists ps,
        In ("Proxy (plain)", ps) overflow_provers
        /\ success_count ps = 0%Z /\ failure_count ps = 1%Z)
  /\ outcome (@print_report sample_builtins sample_scilib overflow_provers [])
     = Raise OverflowError
  /\ has_chunk (say "PROVER: Direct")
       (printed (@print_report sample_builtins sample_scilib
                   overflow_provers [])) = true
  /\ has_chunk (say "PROVER: Proxy (plain)")
       (printed (@print_report sample_builtins sample_scilib
                   overflow_provers [])) = false.
Proof.
  split; [vm_compute; reflexivity |]. split; [vm_compute; reflexivity |].
  split.
  - eexists. split; [right; left; reflexivity |]. split; reflexivity.
  - repeat split; vm_compute; reflexivity.
Qed.

Lemma zero_success_group_only_in_report_witness :
  sorted_items sample_provers
  = ([("Direct", sample_direct)]
     ++ ("Proxy (plain)", sample_proxy) :: [])%list
  /\ outcome (@for_each _ (@report_group sample_builtins sample_scilib)
                [("Direct", sample_direct)]) = Ok tt
  /\ has_chunk (say "PROVER: Proxy (plain)")
       (printed (@print_report sample_builtins sample_scilib
                   sample_provers [])) = true
  /\ (forall data,
      @export_json sample_builtins sample_scilib sample_provers [] = Ok data ->
      ~ In "Proxy (plain)" (map fst (ex_provers data)))
  /\ (forall rows,
      @export_csv sample_builtins sample_scilib sample_provers = Ok rows ->
      forall row, In row (tl rows) ->
                  hd_error row <> Some (JStr "Proxy (plain)"))
  /\ @report_group sample_builtins sample_scilib ("Proxy (plain)", sample_proxy)
     = ((@report_heading sample_builtins "Proxy (plain)" sample_proxy
         ++ [say "  No successful runs to analyze."])%list, Ok tt)
  /\ (exists before after,
        sorted_items sample_provers
        = (before ++ ("Proxy (plain)", sample_proxy) :: after)%list)
  /\ (forall before after,
        sorted_items sample_provers
        = (before ++ ("Proxy (plain)", sample_proxy) :: after)%list ->
        match outcome (@for_each _ (@report_group sample_builtins
                                      sample_scilib) before) with
        | Ok _ =>
            exists rest,
              printed (@print_report sample_builtins sample_scilib
                         sample_provers [])
              = (report_banner
                 ++ printed (@for_each _ (@report_group sample_builtins
                                            sample_scilib) before)
                 ++ @report_heading sample_builtins "Proxy (plain)"
                      sample_proxy
                 ++ [say "  No successful runs to analyze."] ++ rest)%list
        | Raise e =>
            @print_report sample_builtins sample_scilib sample_provers []
            = ((report_banner
                ++ printed (@for_each _ (@report_group sample_builtins
                                           sample_scilib) before))%list,
               Raise e)
        end)
  /\ In (say ("PROVER: " ++ "Proxy (plain)"))
        (@report_heading sample_builtins "Proxy (plain)" sample_proxy)
  /\ In (say (nl ++ "Runs: 0 successful / "
              ++ str_of_Z (failure_count sample_proxy)
              ++ " total ("
              ++ @fmt_f sample_builtins 1
                   (if (0 <? failure_count sample_proxy)%Z
                    then PFloat (Z2float 0
                                 / Z2float (failure_count sample_proxy)
                                 * 100)%float
                    else PInt 0)
              ++ "% success)"))
        (@report_heading sample_builtins "Proxy (plain)" sample_proxy).
Proof.
  split; [reflexivity |]. split; [vm_compute; reflexivity |].
  split; [vm_compute; reflexivity |].
  apply (zero_success_group_only_in_report sample_builtins sample_scilib
           sample_provers [] "Proxy (plain)" sample_proxy).
  - repeat constructor; simpl; intuition discriminate.
  - right. left. reflexivity.
  - reflexivity.
Defined.

(** ** SignificanceTester: the pairs and what an entry carries *)

(** Two distinct groups of a mapping are tested, in the order of
    their keys in the mapping, exactly when both have at least two
    total durations; the results are the entries of the tested pairs,
    up to the first one numpy or scipy refuses, and an entry that is
    returned carries the statistic and the p-value [stats_ttest_ind]
    returns for the two series. *)
Lemma significance_pairs_tested_iff (S : SciLib) (provers : provers_t)
    (k1 k2 : string) (ps1 ps2 : ProverStats) :
  In (k1, ps1) provers -> In (k2, ps2) provers -> k1 <> k2 ->
  ((In ((k1, ps1), (k2, ps2)) (tested_pairs provers)
    \/ In ((k2, ps2), (k1, ps1)) (tested_pairs provers))
   <-> (2 <= List.length (total_durations_ms ps1)
        /\ 2 <= List.length (total_durations_ms ps2))%nat)
  /\ perform_significance_tests provers
     = mapM entry_of (tested_pairs provers)
  /\ forall e,
      entry_of ((k1, ps1), (k2, ps2)) = Ok e ->
      stats_ttest_ind (total_durations_ms ps1) (total_durations_ms ps2)
      = Ok (t_statistic e, p_value e).
Proof.
  intros H1 H2 Hne.
  split; [| split; [apply perform_significance_tests_spec |]].
  - unfold tested_pairs. rewrite !filter_In. unfold enough_data.
    cbn [fst snd].
    rewrite !andb_true_iff, !Nat.leb_le. split.
    + intros [[_ [Ha Hb]] | [_ [Hb Ha]]]; auto.
    + intros [Ha Hb].
      assert (Hd : (k1, ps1) <> (k2, ps2)) by congruence.
      destruct (ordered_pairs_either _ _ _ H1 H2 Hd); [left | right]; auto.
  - intros e E. unfold entry_of in E. cbn [fst snd] in E.
    destruct (welch_entry_ok _ _ _ _ _ _ E) as (t & p & Et & _ & <- & <- & _).
    exact Et.
Qed.

(** *** What the tester emits *)

Lemma Forall2_Forall_r {A B : Type} (R : A -> B -> Prop) (P : B -> Prop)
    (l : list A) (l' : list B) :
  Forall2 R l l' -> (forall x y, R x y -> P y) -> Forall P l'.
Proof.
  intros F HP. induction F as [| x y l l' Hxy _ IH]; constructor; eauto.
Qed.

(** The p-value of Welch's test: NaN when the statistic is, the tail
    of the statistic otherwise. *)
Lemma welch_ttest_ok (mean var : list json -> result float)
    (tail : float -> float -> float) (a b : list json) (t p : float) :
  welch_ttest mean var tail a b = Ok (t, p) ->
  (PrimFloat.is_nan t = true /\ p = PrimFloat.nan)
  \/ (PrimFloat.is_nan t = false
      /\ exists df, p = tail df (PrimFloat.abs t)).
Proof.
  unfold welch_ttest. intros E.
  apply bind_ok in E. destruct E as [v1 [_ E]].
  apply bind_ok in E. destruct E as [v2 [_ E]].
  apply bind_ok in E. destruct E as [mean1 [_ E]].
  apply bind_ok in E. destruct E as [mean2 [_ E]].
  injection E as Et Ep. subst t.
  match type of Ep with
  | (if PrimFloat.is_nan ?t then _ else _) = _ =>
      destruct (PrimFloat.is_nan t) eqn:En
  end.
  - left. auto.
  - right. split; [reflexivity |]. eexists. symmetry. exact Ep.
Qed.

(** C8 (as stated): two groups whose runs all took 100 ms are tested,
    and the p-value of the entry is NaN, whatever the tail of Student's
    distribution: the statistic of Welch's test is 0/0.  NaN is not in
    [0, 1]. *)
Lemma equal_series_p_value_nan :
  @load_and_aggregate sample_builtins constant_files = Ok constant_provers
  /\ map (fun kv => total_durations_ms (snd kv)) constant_provers
     = [[jint 100; jint 100]; [jint 100; jint 100]]
  /\ forall tail : float -> float -> float,
      exists e,
        @perform_significance_tests (numeric_scilib tail) constant_provers
        = Ok [e]
        /\ comparison e = "Direct vs Proxy (plain)"
        /\ PrimFloat.is_nan (t_statistic e) = true
        /\ PrimFloat.is_nan (p_value e) = true
        /\ in_unit_interval (p_value e) = false.
Proof.
  split; [vm_compute; reflexivity |]. split; [reflexivity |].
  intros tail. eexists. split; [vm_compute; reflexivity |].
  repeat split.
Qed.

(** C8 (amended): when numpy and scipy return, the tester emits one
    result per pair of distinct groups that both have at least two
    total durations, in the order of the two loops, and none for the
    other pairs; a result carries the statistic and the p-value scipy
    returned for the pair.  With Welch's test as scipy computes it,
    and a tail probability in [0, 1] for every statistic that is a
    number, the p-value of an emitted result is in [0, 1] when the
    statistic is a number; when the statistic is NaN the p-value is
    NaN, outside [0, 1], and the result is flagged at neither level. *)
Theorem significance_results_emitted (S : SciLib)
    (tail : float -> float -> float)
    (provers : provers_t) (tests : list SigResult)
    (Hwelch : forall a b,
        stats_ttest_ind a b = welch_ttest np_mean np_var tail a b)
    (Htail : forall df t,
        PrimFloat.is_nan t = false ->
        in_unit_interval (tail df (PrimFloat.abs t)) = true)
    (Hrun : perform_significance_tests provers = Ok tests) :
  Forall2 (fun pr e =>
             entry_of pr = Ok e
             /\ comparison e = fst (fst pr) ++ " vs " ++ fst (snd pr)
             /\ stats_ttest_ind (total_durations_ms (snd (fst pr)))
                  (total_durations_ms (snd (snd pr)))
                = Ok (t_statistic e, p_value e))
    (tested_pairs provers) tests
  /\ (forall k1 ps1 k2 ps2,
        In (k1, ps1) provers -> In (k2, ps2) provers -> k1 <> k2 ->
        ((In ((k1, ps1), (k2, ps2)) (tested_pairs provers)
          \/ In ((k2, ps2), (k1, ps1)) (tested_pairs provers))
         <-> (2 <= List.length (total_durations_ms ps1)
              /\ 2 <= List.length (total_durations_ms ps2))%nat))
  /\ Forall (fun e =>
               if PrimFloat.is_nan (t_statistic e)
               then PrimFloat.is_nan (p_value e) = true
                    /\ in_unit_interval (p_value e) = false
                    /\ significant_005 e = false
                    /\ significant_001 e = false
               else in_unit_interval (p_value e) = true) tests.
Proof.
  rewrite perform_significance_tests_spec in Hrun.
  apply mapM_Forall2 in Hrun.
  split; [| split].
  - eapply Forall2_impl; [| exact Hrun].
    intros [[k1 ps1] [k2 ps2]] e E. split; [exact E |].
    unfold entry_of in E. cbn [fst snd] in *.
    destruct (welch_entry_ok _ _ _ _ _ _ E)
      as (t & p & Et & Hc & <- & <- & _).
    split; [exact Hc | exact Et].
  - intros k1 ps1 k2 ps2 H1 H2 Hne.
    unfold tested_pairs. rewrite !filter_In. unfold enough_data.
    cbn [fst snd].
    rewrite !andb_true_iff, !Nat.leb_le. split.
    + intros [[_ [Ha Hb]] | [_ [Hb Ha]]]; auto.
    + intros [Ha Hb].
      assert (Hd : (k1, ps1) <> (k2, ps2)) by congruence.
      destruct (ordered_pairs_either _ _ _ H1 H2 Hd); [left | right]; auto.
  - apply (Forall2_Forall_r _ _ _ _ Hrun).
    intros [[k1 ps1] [k2 ps2]] e E.
    unfold entry_of in E. cbn [fst snd] in E.
    destruct (welch_entry_ok _ _ _ _ _ _ E)
      as (t & p & Et & _ & Ht & Hp & H5 & H1).
    rewrite Hwelch in Et.
    rewrite Ht, Hp, H5, H1.
    destruct (welch_ttest_ok _ _ _ _ _ _ _ Et) as [[Hn ->] | [Hn [df ->]]];
      rewrite Hn.
    + repeat split.
    + apply Htail, Hn.
Qed.

Lemma significance_results_emitted_witness :
  exists tests,
    @perform_significance_tests sample_scilib sample_mixed_provers = Ok tests
    /\ List.length tests = 1%nat
    /\ Forall2 (fun pr e =>
                  @entry_of sample_scilib pr = Ok e
                  /\ comparison e = fst (fst pr) ++ " vs " ++ fst (snd pr)
                  /\ @stats_ttest_ind sample_scilib
                       (total_durations_ms (snd (fst pr)))
                       (total_durations_ms (snd (snd pr)))
                     = Ok (t_statistic e, p_value e))
         (tested_pairs sample_mixed_provers) tests
    /\ (forall k1 ps1 k2 ps2,
          In (k1, ps1) sample_mixed_provers ->
          In (k2, ps2) sample_mixed_provers -> k1 <> k2 ->
          ((In ((k1, ps1), (k2, ps2)) (tested_pairs sample_mixed_provers)
            \/ In ((k2, ps2), (k1, ps1)) (tested_pairs sample_mixed_provers))
           <-> (2 <= List.length (total_durations_ms ps1)
                /\ 2 <= List.length (total_durations_ms ps2))%nat))
    /\ Forall (fun e =>
                 if PrimFloat.is_nan (t_statistic e)
                 then PrimFloat.is_nan (p_value e) = true
                      /\ in_unit_interval (p_value e) = false
                      /\ significant_005 e = false
                      /\ significant_001 e = false
                 else in_unit_interval (p_value e) = true) tests.
Proof.
  eexists. split; [vm_compute; reflexivity |]. split; [reflexivity |].
  apply (significance_results_emitted sample_scilib sample_tail
           sample_mixed_provers).
  - intros a b. reflexivity.
  - intros df t _. unfold sample_tail.
    destruct (PrimFloat.ltb (PrimFloat.abs t) 2);
      [reflexivity |].
    destruct (PrimFloat.ltb (PrimFloat.abs t) 4); reflexivity.
  - vm_compute. reflexivity.
Defined.

(** * Further properties *)

(** ** GroupKeyResolver *)

Lemma dict_get_head_ne {V : Type} (k k' : string) (v : V)
    (d : list (string * V)) :
  dict_get ((k', v) :: d) k = None -> k' <> k.
Proof.
  simpl. destruct (String.eqb k k') eqn:E; [discriminate |].
  intros _ ->. rewrite String.eqb_refl in E. discriminate.
Qed.

(** X1: whatever [parse_prover_type] returns is of one of four kinds:
    the label "Direct" without attributes; "Proxy" or "Proxy-TEE" with
    a string host and no optimization, "Proxy-TEE" exactly when the
    lower-cased host contains "tee"; a notary tag with the [domain] and
    [network_optimization] its notary holds; or the first key of the
    descriptor, which is then none of the known tags, without
    attributes. *)
Theorem parse_prover_type_result (p : json) (pt : string) (dom opt : json)
    (E : parse_prover_type p = Ok (pt, dom, opt)) :
  (pt = "Direct" /\ dom = JNull /\ opt = JNull)
  \/ (exists host,
        dom = JStr host /\ opt = JNull
        /\ pt = if str_contains "tee" (str_lower host)
                then "Proxy-TEE" else "Proxy")
  \/ ((pt = "TlsSingleShot" \/ pt = "TlsPerMessage")
      /\ exists payload notary,
          py_getitem p pt = Ok payload
          /\ py_getitem payload "notary" = Ok notary
          /\ py_get notary "domain" JNull = Ok dom
          /\ py_get notary "network_optimization" JNull = Ok opt)
  \/ (py_first_key p = Ok pt /\ dom = JNull /\ opt = JNull
      /\ ~ In pt known_tags).
Proof.
  unfold parse_prover_type in E.
  apply bind_ok in E. destruct E as [b1 [E1 E]].
  destruct b1; [injection E as <- <- <-; auto |].
  apply bind_ok in E. destruct E as [b2 [E2 E]].
  destruct b2.
  { right. left.
    apply bind_ok in E. destruct E as [w [_ E]].
    apply bind_ok in E. destruct E as [cfg [_ E]].
    apply bind_ok in E. destruct E as [host [_ E]].
    apply bind_ok in E. destruct E as [hl [Eh E]].
    destruct host; try discriminate. injection Eh as <-. exists s.
    destruct (str_contains "tee" (str_lower s)); injection E as <- <- <-; auto. }
  apply bind_ok in E. destruct E as [b3 [E3 E]].
  destruct b3.
  { right. right. left.
    apply bind_ok in E. destruct E as [payload [Ep E]].
    apply bind_ok in E. destruct E as [notary [En E]].
    apply bind_ok in E. destruct E as [d [Ed E]].
    apply bind_ok in E. destruct E as [o [Eo E]].
    injection E as <- <- <-. split; [auto | eauto 6]. }
  apply bind_ok in E. destruct E as [b4 [E4 E]].
  destruct b4.
  { right. right. left.
    apply bind_ok in E. destruct E as [payload [Ep E]].
    apply bind_ok in E. destruct E as [notary [En E]].
    apply bind_ok in E. destruct E as [d [Ed E]].
    apply bind_ok in E. destruct E as [o [Eo E]].
    injection E as <- <- <-. split; [auto | eauto 6]. }
  right. right. right.
  apply bind_ok in E. destruct E as [k [Ek E]]. injection E as <- <- <-.
  repeat split; try reflexivity; [exact Ek |].
  destruct p as [| | | | | d]; try discriminate.
  destruct d as [| [k0 v0] d]; [discriminate |]. injection Ek as ->.
  cbn [py_contains] in E1, E2, E3, E4. unfold dict_mem in *.
  intros [H | [H | [H | [H | []]]]]; subst k.
  - destruct (dict_get _ "Direct") eqn:G in E1; [discriminate |].
    exact (dict_get_head_ne _ _ _ _ G eq_refl).
  - destruct (dict_get _ "Proxy") eqn:G in E2; [discriminate |].
    exact (dict_get_head_ne _ _ _ _ G eq_refl).
  - destruct (dict_get _ "TlsSingleShot") eqn:G in E3; [discriminate |].
    exact (dict_get_head_ne _ _ _ _ G eq_refl).
  - destruct (dict_get _ "TlsPerMessage") eqn:G in E4; [discriminate |].
    exact (dict_get_head_ne _ _ _ _ G eq_refl).
Qed.

Lemma parse_prover_type_result_witness :
  ("Mystery" = "Direct" /\ JNull = JNull /\ JNull = JNull)
  \/ (exists host,
        JNull = JStr host /\ JNull = JNull
        /\ "Mystery" = if str_contains "tee" (str_lower host)
                       then "Proxy-TEE" else "Proxy")
  \/ (("Mystery" = "TlsSingleShot" \/ "Mystery" = "TlsPerMessage")
      /\ exists payload notary,
          py_getitem (JObj [("Mystery", JNull); ("Proxy2", JNull)]) "Mystery"
          = Ok payload
          /\ py_getitem payload "notary" = Ok notary
          /\ py_get notary "domain" JNull = Ok JNull
          /\ py_get notary "network_optimization" JNull = Ok JNull)
  \/ (py_first_key (JObj [("Mystery", JNull); ("Proxy2", JNull)]) = Ok "Mystery"
      /\ JNull = JNull /\ JNull = JNull
      /\ ~ In "Mystery" known_tags).
Proof.
  apply (parse_prover_type_result
           (JObj [("Mystery", JNull); ("Proxy2", JNull)])).
  reflexivity.
Defined.

Lemma str_contains_dot_cons (c : ascii) (t : string) :
  str_contains "." (String c t)
  = if Ascii.eqb c "." then true else str_contains "." t.
Proof.
  cbn -[ascii_dec]. destruct (ascii_dec "." c) as [<- | Hne].
  - rewrite Ascii.eqb_refl. destruct t; reflexivity.
  - destruct (Ascii.eqb c ".") eqn:Ec; [| reflexivity].
    apply Ascii.eqb_eq in Ec. congruence.
Qed.

Lemma before_dot_no_dot (s : string) :
  str_contains "." s = false -> before_dot s = s.
Proof.
  induction s as [| c s IH]; [reflexivity |].
  rewrite str_contains_dot_cons. cbn [before_dot].
  destruct (Ascii.eqb c "."); [discriminate |].
  intros H. f_equal. apply IH, H.
Qed.

Lemma before_dot_dot_free (s : string) :
  str_contains "." (before_dot s) = false.
Proof.
  induction s as [| c s IH]; [reflexivity |].
  cbn [before_dot]. destruct (Ascii.eqb c ".") eqn:Ec; [reflexivity |].
  rewrite str_contains_dot_cons, Ec. exact IH.
Qed.

Lemma before_dot_prefix (s : string) :
  String.prefix (before_dot s) s = true.
Proof.
  induction s as [| c s IH]; [reflexivity |].
  cbn -[ascii_dec]. destruct (Ascii.eqb c "."); cbn -[ascii_dec];
    [reflexivity |].
  destruct (ascii_dec c c); [exact IH | contradiction].
Qed.

(** X2: for a string domain and a string optimization the key is the
    label, then " (short)" unless the domain is empty, then " [opt]"
    unless the optimization is empty, where short is the longest
    dot-free prefix of the domain; so two domains with the same first
    label are filed under the same key. *)
Theorem group_key_of_strings (B : Builtins) (pt domain opt : string) :
  group_key pt (JStr domain) (JStr opt)
  = Ok ((if String.eqb domain EmptyString then pt
         else pt ++ " (" ++ before_dot domain ++ ")")
        ++ (if String.eqb opt EmptyString then EmptyString
            else " [" ++ opt ++ "]"))
  /\ str_contains "." (before_dot domain) = false
  /\ String.prefix (before_dot domain) domain = true
  /\ forall domain',
      before_dot domain = before_dot domain' ->
      String.eqb domain EmptyString = String.eqb domain' EmptyString ->
      group_key pt (JStr domain) (JStr opt)
      = group_key pt (JStr domain') (JStr opt).
Proof.
  assert (Hkey : forall d,
             group_key pt (JStr d) (JStr opt)
             = Ok ((if String.eqb d EmptyString then pt
                    else pt ++ " (" ++ before_dot d ++ ")")
                   ++ (if String.eqb opt EmptyString then EmptyString
                       else " [" ++ opt ++ "]"))).
  { intros d. unfold group_key. cbn [py_truthy py_contains].
    assert (Hend : forall k : string, (k ++ EmptyString)%string = k)
      by (induction k; simpl; congruence).
    destruct (String.eqb d EmptyString) eqn:Ed; cbn [negb bind].
    - destruct (String.eqb opt EmptyString); cbn [negb];
        [rewrite Hend |]; reflexivity.
    - destruct (str_contains "." d) eqn:Ec; cbn [bind py_split_dot_0 py_str].
      + destruct (String.eqb opt EmptyString); cbn [negb];
          [rewrite Hend |]; reflexivity.
      + rewrite (before_dot_no_dot d Ec).
        destruct (String.eqb opt EmptyString); cbn [negb];
          [rewrite Hend |]; reflexivity. }
  split; [apply Hkey |].
  split; [apply before_dot_dot_free |].
  split; [apply before_dot_prefix |].
  intros d' Hd He. rewrite !Hkey, Hd, He. reflexivity.
Qed.

(** ** Aggregator: lines, files and batches *)

Lemma count_app {A : Type} (f : A -> bool) (l1 l2 : list A) :
  count f (l1 ++ l2)%list = (count f l1 + count f l2)%Z.
Proof.
  unfold count. rewrite filter_app, length_app, Nat2Z.inj_add. reflexivity.
Qed.

Lemma outcomes_for_app (key : string) (ds1 ds2 : list Digest) :
  outcomes_for key (ds1 ++ ds2)%list
  = (outcomes_for key ds1 ++ outcomes_for key ds2)%list.
Proof.
  unfold outcomes_for. rewrite filter_app, map_app. reflexivity.
Qed.

(** The fields of a group after a batch, a missing group counting as
    one without records. *)
Lemma group_fields (ds : list Digest) (key : string) :
  let g := group_or_empty (fold_left apply_digest ds []) key in
  let os := outcomes_for key ds in
  success_count g = count succeeded os
  /\ failure_count g = count (fun o => negb (succeeded o)) os
  /\ total_durations_ms g = flat_map totals_of os
  /\ setup_times_ms g = flat_map setups_of os
  /\ all_round_durations_ms g = map re_duration (flat_map entries_of os)
  /\ rounds_stats g = fold_left file_round (flat_map entries_of os) []
  /\ (lookup String.eqb (fold_left apply_digest ds []) key = None <-> os = []).
Proof.
  unfold group_or_empty. rewrite lookup_aggregate. unfold outcomes_for.
  destruct (filter (fun d => String.eqb key (dg_key d)) ds) as [| d dk].
  - simpl. repeat split; auto.
  - cbv zeta. unfold group_of. fields.
    repeat split; try reflexivity; discriminate.
Qed.

Section MoreBatches.
Context `{B : Builtins}.

Lemma ingest_lines_skip_blank (lines : list line) (provers : provers_t) :
  foldM ingest_line lines provers
  = foldM ingest_line (filter not_blank lines) provers.
Proof.
  revert provers. induction lines as [| l lines IH]; intros provers;
    [reflexivity |].
  destruct l as [| msg | j]; cbn [filter not_blank is_blank negb foldM].
  - simpl. apply IH.
  - reflexivity.
  - destruct (ingest_line provers (Record_ j)); simpl; [apply IH | reflexivity].
Qed.

Lemma load_as_lines (files : list (list line)) :
  load_and_aggregate files = foldM ingest_line (lines_of files) [].
Proof.
  unfold load_and_aggregate, lines_of. apply foldM_concat.
Qed.

Lemma digests_blank (lines : list line) (dss : list (list Digest)) :
  mapM digest_line lines = Ok dss ->
  (List.concat dss = [] <-> forallb is_blank lines = true).
Proof.
  revert dss. induction lines as [| l lines IH]; simpl; intros dss E.
  - injection E as <-. simpl. tauto.
  - destruct (digest_line l) as [ds |] eqn:El; simpl in E; [| discriminate].
    destruct (mapM digest_line lines) as [dss' |]; simpl in E; [| discriminate].
    injection E as <-. specialize (IH dss' eq_refl). simpl.
    destruct l as [| msg | j]; simpl in *.
    + injection El as <-. simpl. exact IH.
    + discriminate.
    + destruct (digest j); simpl in El; [| discriminate].
      injection El as <-. simpl. split; discriminate.
Qed.

Lemma aggregate_nil (ds : list Digest) :
  fold_left apply_digest ds [] = [] <-> ds = [].
Proof.
  split; [| intros ->; reflexivity].
  destruct ds as [| d ds]; [reflexivity |]. intros E.
  pose proof (lookup_aggregate (d :: ds) (dg_key d)) as L.
  rewrite E in L. cbn [lookup filter] in L.
  rewrite String.eqb_refl in L. discriminate.
Qed.
End MoreBatches.

(** X3: only the sequence of non-blank lines matters: blank lines and
    the way the lines are split into files change neither the mapping
    returned nor the exception raised. *)
Theorem load_depends_on_nonblank_lines (B : Builtins)
    (files files' : list (list line))
    (Hlines : filter not_blank (lines_of files)
              = filter not_blank (lines_of files')) :
  load_and_aggregate files = load_and_aggregate files'.
Proof.
  rewrite !load_as_lines.
  rewrite (ingest_lines_skip_blank (lines_of files)),
          (ingest_lines_skip_blank (lines_of files')), Hlines.
  reflexivity.
Qed.

Lemma load_depends_on_nonblank_lines_witness :
  @load_and_aggregate sample_builtins
    [[Blank; direct_run 100]; []; [proxy_failure "plain.example.com"; Blank]]
  = @load_and_aggregate sample_builtins
      [[direct_run 100; proxy_failure "plain.example.com"]].
Proof.
  apply (load_depends_on_nonblank_lines sample_builtins). reflexivity.
Defined.

(** The series of a round after a batch, a missing round counting as
    one without observations. *)
Lemma round_fields (es : list RoundEntry) (rk : rkey) :
  let r := match lookup rkey_eqb (fold_left file_round es []) rk with
           | Some rs => rs
           | None => new_RoundStats JNull
           end in
  let ek := filter (fun e => rkey_eqb rk (re_key e)) es in
  durations_ms r = map re_duration ek
  /\ request_bytes r = map re_request ek
  /\ response_bytes r = map re_response ek
  /\ (lookup rkey_eqb (fold_left file_round es []) rk = None <-> ek = []).
Proof.
  rewrite lookup_rounds.
  destruct (filter (fun e => rkey_eqb rk (re_key e)) es) as [| e ek].
  - cbv zeta. repeat split; auto.
  - cbv zeta. repeat split; try reflexivity; discriminate.
Qed.

(** X4: aggregating one batch after another merges the two
    aggregates: for every key the counts add up and each series of the
    first batch, those of every round included, is followed by that of
    the second; a key, and a round of a key, is absent only if it is
    absent from both. *)
Theorem load_of_concatenation (B : Builtins)
    (filesA filesB : list (list line)) (pa pb : provers_t)
    (HA : load_and_aggregate filesA = Ok pa)
    (HB : load_and_aggregate filesB = Ok pb) :
  exists pab,
    load_and_aggregate (filesA ++ filesB)%list = Ok pab
    /\ forall key,
        success_count (group_or_empty pab key)
        = (success_count (group_or_empty pa key)
           + success_count (group_or_empty pb key))%Z
        /\ failure_count (group_or_empty pab key)
           = (failure_count (group_or_empty pa key)
              + failure_count (group_or_empty pb key))%Z
        /\ total_durations_ms (group_or_empty pab key)
           = (total_durations_ms (group_or_empty pa key)
              ++ total_durations_ms (group_or_empty pb key))%list
        /\ setup_times_ms (group_or_empty pab key)
           = (setup_times_ms (group_or_empty pa key)
              ++ setup_times_ms (group_or_empty pb key))%list
        /\ all_round_durations_ms (group_or_empty pab key)
           = (all_round_durations_ms (group_or_empty pa key)
              ++ all_round_durations_ms (group_or_empty pb key))%list
        /\ (lookup String.eqb pab key = None
            <-> lookup String.eqb pa key = None
                /\ lookup String.eqb pb key = None)
        /\ forall rk,
            durations_ms (round_or_empty (group_or_empty pab key) rk)
            = (durations_ms (round_or_empty (group_or_empty pa key) rk)
               ++ durations_ms (round_or_empty (group_or_empty pb key) rk))%list
            /\ request_bytes (round_or_empty (group_or_empty pab key) rk)
               = (request_bytes (round_or_empty (group_or_empty pa key) rk)
                  ++ request_bytes
                       (round_or_empty (group_or_empty pb key) rk))%list
            /\ response_bytes (round_or_empty (group_or_empty pab key) rk)
               = (response_bytes (round_or_empty (group_or_empty pa key) rk)
                  ++ response_bytes
                       (round_or_empty (group_or_empty pb key) rk))%list
            /\ (lookup rkey_eqb (rounds_stats (group_or_empty pab key)) rk
                = None
                <-> lookup rkey_eqb (rounds_stats (group_or_empty pa key)) rk
                    = None
                    /\ lookup rkey_eqb
                         (rounds_stats (group_or_empty pb key)) rk = None).
Proof.
  destruct (load_ok _ _ HA) as [dssA [EA ->]].
  destruct (load_ok _ _ HB) as [dssB [EB ->]].
  exists (fold_left apply_digest (List.concat (dssA ++ dssB)) []).
  split.
  - rewrite load_and_aggregate_spec. unfold lines_of in *.
    rewrite concat_app, mapM_app, EA, EB. reflexivity.
  - intros key. rewrite concat_app.
    destruct (group_fields (List.concat dssA ++ List.concat dssB) key)
      as (S1 & F1 & T1 & U1 & R1 & Q1 & N1).
    destruct (group_fields (List.concat dssA) key)
      as (S2 & F2 & T2 & U2 & R2 & Q2 & N2).
    destruct (group_fields (List.concat dssB) key)
      as (S3 & F3 & T3 & U3 & R3 & Q3 & N3).
    unfold round_or_empty.
    rewrite S1, F1, T1, U1, R1, Q1, S2, F2, T2, U2, R2, Q2,
      S3, F3, T3, U3, R3, Q3.
    rewrite N1, N2, N3, outcomes_for_app.
    rewrite !count_app, !flat_map_app, map_app.
    do 5 (split; [reflexivity |]).
    split; [split; [apply app_eq_nil | intros [-> ->]; reflexivity] |].
    intros rk.
    destruct (round_fields
                (flat_map entries_of (outcomes_for key (List.concat dssA))
                 ++ flat_map entries_of
                      (outcomes_for key (List.concat dssB))) rk)
      as (D1 & Q1' & P1 & M1).
    destruct (round_fields
                (flat_map entries_of (outcomes_for key (List.concat dssA))) rk)
      as (D2 & Q2' & P2 & M2).
    destruct (round_fields
                (flat_map entries_of (outcomes_for key (List.concat dssB))) rk)
      as (D3 & Q3' & P3 & M3).
    rewrite D1, Q1', P1, M1, D2, Q2', P2, M2, D3, Q3', P3, M3.
    rewrite filter_app, !map_app.
    do 3 (split; [reflexivity |]).
    split; [apply app_eq_nil | intros [-> ->]; reflexivity].
Qed.

Lemma load_of_concatenation_witness :
  exists pa pb,
    @load_and_aggregate sample_builtins
      [[notary_run 100 [round_entry 2 30; round_entry 1 40]]] = Ok pa
    /\ @load_and_aggregate sample_builtins
         [[notary_run 120 [round_entry 1 50]]] = Ok pb
    /\ exists pab,
        @load_and_aggregate sample_builtins
          ([[notary_run 100 [round_entry 2 30; round_entry 1 40]]]
           ++ [[notary_run 120 [round_entry 1 50]]])%list = Ok pab
        /\ forall key,
            success_count (group_or_empty pab key)
            = (success_count (group_or_empty pa key)
               + success_count (group_or_empty pb key))%Z
            /\ failure_count (group_or_empty pab key)
               = (failure_count (group_or_empty pa key)
                  + failure_count (group_or_empty pb key))%Z
            /\ total_durations_ms (group_or_empty pab key)
               = (total_durations_ms (group_or_empty pa key)
                  ++ total_durations_ms (group_or_empty pb key))%list
            /\ setup_times_ms (group_or_empty pab key)
               = (setup_times_ms (group_or_empty pa key)
                  ++ setup_times_ms (group_or_empty pb key))%list
            /\ all_round_durations_ms (group_or_empty pab key)
               = (all_round_durations_ms (group_or_empty pa key)
                  ++ all_round_durations_ms (group_or_empty pb key))%list
            /\ (lookup String.eqb pab key = None
                <-> lookup String.eqb pa key = None
                    /\ lookup String.eqb pb key = None)
            /\ forall rk,
                durations_ms (round_or_empty (group_or_empty pab key) rk)
                = (durations_ms (round_or_empty (group_or_empty pa key) rk)
                   ++ durations_ms
                        (round_or_empty (group_or_empty pb key) rk))%list
                /\ request_bytes (round_or_empty (group_or_empty pab key) rk)
                   = (request_bytes
                        (round_or_empty (group_or_empty pa key) rk)
                      ++ request_bytes
                           (round_or_empty (group_or_empty pb key) rk))%list
                /\ response_bytes (round_or_empty (group_or_empty pab key) rk)
                   = (response_bytes
                        (round_or_empty (group_or_empty pa key) rk)
                      ++ response_bytes
                           (round_or_empty (group_or_empty pb key) rk))%list
                /\ (lookup rkey_eqb
                      (rounds_stats (group_or_empty pab key)) rk = None
                    <-> lookup rkey_eqb
                          (rounds_stats (group_or_empty pa key)) rk = None
                        /\ lookup rkey_eqb
                             (rounds_stats (group_or_empty pb key)) rk
                           = None).
Proof.
  eexists. eexists.
  split; [vm_compute; reflexivity |]. split; [vm_compute; reflexivity |].
  apply (load_of_concatenation sample_builtins
           [[notary_run 100 [round_entry 2 30; round_entry 1 40]]]
           [[notary_run 120 [round_entry 1 50]]]);
    vm_compute; reflexivity.
Defined.

(** X5: the mapping returned has one entry per key, and a key is in it
    exactly when at least one record of the batch is filed under it. *)
Theorem load_keys_are_record_keys (B : Builtins) (files : list (list line))
    (provers : provers_t) (key : string)
    (Hload : load_and_aggregate files = Ok provers) :
  NoDup (map fst provers)
  /\ (In key (map fst provers)
      <-> (0 < count (keyed key) (lines_of files))%Z).
Proof.
  destruct (load_ok _ _ Hload) as [dss [Hd ->]].
  split; [apply NoDup_aggregate |].
  rewrite (lookup_in_keys String.eqb String.eqb_eq).
  rewrite (keyed_digests _ _ _ Hd).
  destruct (group_fields (List.concat dss) key) as (_ & _ & _ & _ & _ & _ & N).
  rewrite N. unfold outcomes_for, count.
  destruct (filter (fun d => String.eqb key (dg_key d)) (List.concat dss));
    cbn [map List.length]; split; try congruence; try lia.
Qed.

Lemma load_keys_are_record_keys_witness :
  NoDup (map fst sample_provers)
  /\ (In "Direct" (map fst sample_provers)
      <-> (0 < count (@keyed sample_builtins "Direct")
                 (lines_of sample_files))%Z).
Proof.
  apply (load_keys_are_record_keys sample_builtins sample_files).
  vm_compute. reflexivity.
Defined.

(** X6: a run that returns gives the empty mapping exactly when every
    line of every file is blank. *)
Theorem load_empty_iff_blank (B : Builtins) (files : list (list line))
    (provers : provers_t)
    (Hload : load_and_aggregate files = Ok provers) :
  provers = [] <-> forallb is_blank (lines_of files) = true.
Proof.
  destruct (load_ok _ _ Hload) as [dss [Hd ->]].
  rewrite aggregate_nil. apply digests_blank. exact Hd.
Qed.

Lemma load_empty_iff_blank_witness :
  ([] : provers_t) = []
  <-> forallb is_blank (lines_of [[Blank]; []; [Blank; Blank]]) = true.
Proof.
  apply (load_empty_iff_blank sample_builtins [[Blank]; []; [Blank; Blank]]).
  reflexivity.
Defined.

(** X7: a record whose [success] is absent or falsy adds one to the
    failure count of its group and nothing else: the series and the
    success count of the group stay as they were, whatever the record
    holds under [results], and no other group is touched. *)
Theorem failed_record_only_counts (B : Builtins) (provers : provers_t)
    (record : json) (key : string)
    (Hkey : record_key record = Ok key)
    (Hfail : is_successful record = false) :
  exists provers',
    ingest provers record = Ok provers'
    /\ failure_count (group_or_empty provers' key)
       = (failure_count (group_or_empty provers key) + 1)%Z
    /\ success_count (group_or_empty provers' key)
       = success_count (group_or_empty provers key)
    /\ total_durations_ms (group_or_empty provers' key)
       = total_durations_ms (group_or_empty provers key)
    /\ setup_times_ms (group_or_empty provers' key)
       = setup_times_ms (group_or_empty provers key)
    /\ rounds_stats (group_or_empty provers' key)
       = rounds_stats (group_or_empty provers key)
    /\ all_round_durations_ms (group_or_empty provers' key)
       = all_round_durations_ms (group_or_empty provers key)
    /\ forall k, k <> key ->
                 lookup String.eqb provers' k = lookup String.eqb provers k.
Proof.
  rewrite ingest_spec. unfold record_key in Hkey. unfold digest.
  destruct (py_getitem record "prover") as [prover |] eqn:Ep; simpl in Hkey;
    [| discriminate].
  cbn [bind].
  destruct (parse_prover_type prover) as [[[pt dom] opt] |]; simpl in Hkey;
    [| discriminate].
  cbn [bind]. rewrite Hkey. cbn [bind].
  assert (Ho : parse_outcome record = Ok Failed).
  { unfold parse_outcome. unfold is_successful in Hfail.
    destruct record as [| | | | | d]; try discriminate.
    cbn [py_get] in *. destruct (dict_get d "success"); cbn [bind] in *;
      rewrite Hfail; reflexivity. }
  rewrite Ho. cbn [bind]. eexists. split; [reflexivity |].
  unfold apply_digest, upsert, group_or_empty.
  cbn [dg_key dg_type dg_domain dg_outcome].
  rewrite (lookup_store _ String.eqb_eq), String.eqb_refl.
  split; [| split; [| split; [| split; [| split; [| split]]]]];
    try (destruct (lookup String.eqb provers key); reflexivity).
  intros k Hk. rewrite (lookup_store _ String.eqb_eq).
  destruct (String.eqb k key) eqn:E; [| reflexivity].
  apply String.eqb_eq in E. contradiction.
Qed.

Lemma failed_record_only_counts_witness :
  exists provers',
    @ingest sample_builtins sample_provers
      (JObj [("prover", JObj [("Direct", JNull)]); ("results", JNull)])
    = Ok provers'
    /\ failure_count (group_or_empty provers' "Direct")
       = (failure_count (group_or_empty sample_provers "Direct") + 1)%Z
    /\ success_count (group_or_empty provers' "Direct")
       = success_count (group_or_empty sample_provers "Direct")
    /\ total_durations_ms (group_or_empty provers' "Direct")
       = total_durations_ms (group_or_empty sample_provers "Direct")
    /\ setup_times_ms (group_or_empty provers' "Direct")
       = setup_times_ms (group_or_empty sample_provers "Direct")
    /\ rounds_stats (group_or_empty provers' "Direct")
       = rounds_stats (group_or_empty sample_provers "Direct")
    /\ all_round_durations_ms (group_or_empty provers' "Direct")
       = all_round_durations_ms (group_or_empty sample_provers "Direct")
    /\ forall k, k <> "Direct" ->
                 lookup String.eqb provers' k
                 = lookup String.eqb sample_provers k.
Proof.
  apply (failed_record_only_counts sample_builtins sample_provers
           (JObj [("prover", JObj [("Direct", JNull)]); ("results", JNull)])
           "Direct"); reflexivity.
Defined.

(** ** Aggregator: what the series of a group hold *)

Lemma setups_truthy (os : list Outcome) :
  Forall (fun v => py_truthy v = true) (flat_map setups_of os)
  /\ (Z.of_nat (List.length (flat_map setups_of os)) <= count succeeded os)%Z.
Proof.
  induction os as [| o os [IH1 IH2]].
  - split; [constructor | reflexivity].
  - rewrite count_cons. cbn [flat_map]. rewrite length_app, Nat2Z.inj_add.
    split.
    + apply Forall_app. split; [| exact IH1].
      destruct o as [| total setup entries]; cbn [setups_of]; [constructor |].
      destruct (py_truthy setup) eqn:E; repeat constructor. exact E.
    + destruct o as [| total setup entries]; cbn [setups_of succeeded];
        [cbn [List.length]; lia |].
      destruct (py_truthy setup); cbn [List.length]; lia.
Qed.

(** X8: every setup time a group holds is truthy (never 0, 0.0 or
    null), and a group holds at most one setup time per success. *)
Theorem setup_times_truthy_and_bounded (B : Builtins)
    (files : list (list line)) (provers : provers_t)
    (key : string) (ps : ProverStats)
    (Hload : load_and_aggregate files = Ok provers)
    (Hin : In (key, ps) provers) :
  Forall (fun v => py_truthy v = true) (setup_times_ms ps)
  /\ (Z.of_nat (List.length (setup_times_ms ps)) <= success_count ps)%Z.
Proof.
  destruct (load_group _ _ _ _ Hload Hin) as [dss [d [_ [_ ->]]]].
  unfold group_of. fields. apply setups_truthy.
Qed.

Lemma setup_times_truthy_and_bounded_witness :
  setup_times_ms sample_notary = [jint 5; jint 5]
  /\ Forall (fun v => py_truthy v = true) (setup_times_ms sample_notary)
  /\ (Z.of_nat (List.length (setup_times_ms sample_notary))
      <= success_count sample_notary)%Z.
Proof.
  split; [reflexivity |].
  apply (setup_times_truthy_and_bounded sample_builtins sample_round_files
           sample_round_provers "TlsSingleShot (notary) [Bandwidth]").
  - vm_compute. reflexivity.
  - vm_compute. left. reflexivity.
Defined.

Lemma file_round_observations (rounds : list (rkey * RoundStats))
    (e : RoundEntry) :
  round_observations (file_round rounds e) = S (round_observations rounds).
Proof.
  unfold file_round, upsert.
  induction rounds as [| [k0 v0] rounds IH]; cbn [lookup store].
  - reflexivity.
  - destruct (rkey_eqb (re_key e) k0).
    + cbn [round_observations fold_right snd extend_round durations_ms].
      rewrite length_app. cbn [List.length]. fold (round_observations rounds).
      lia.
    + cbn [round_observations fold_right snd] in *.
      fold (round_observations rounds).
      change (fold_right _ 0%nat ?l) with (round_observations l).
      rewrite IH. lia.
Qed.

Lemma file_round_aligned (rounds : list (rkey * RoundStats)) (e : RoundEntry) :
  Forall (fun kv => round_aligned (snd kv)) rounds ->
  Forall (fun kv => round_aligned (snd kv)) (file_round rounds e).
Proof.
  unfold file_round, upsert.
  induction rounds as [| [k0 v0] rounds IH]; cbn [lookup store]; intros Hall.
  - repeat constructor.
  - inversion Hall as [| ? ? H0 Hrest]; subst.
    destruct (rkey_eqb (re_key e) k0).
    + constructor; [| exact Hrest].
      destruct H0 as (H1 & H2 & H3). cbn [snd] in H1, H2, H3.
      unfold round_aligned.
      cbn [snd extend_round durations_ms request_bytes response_bytes].
      rewrite !length_app. cbn [List.length]. lia.
    + constructor; [exact H0 | apply IH, Hrest].
Qed.

Lemma rounds_aligned (es : list RoundEntry) :
  Forall (fun kv => round_aligned (snd kv)) (fold_left file_round es [])
  /\ round_observations (fold_left file_round es []) = List.length es.
Proof.
  assert (G : forall rounds,
             Forall (fun kv => round_aligned (snd kv)) rounds ->
             Forall (fun kv => round_aligned (snd kv))
               (fold_left file_round es rounds)
             /\ round_observations (fold_left file_round es rounds)
                = (round_observations rounds + List.length es)%nat).
  { induction es as [| e es IH]; intros rounds Hall; cbn [fold_left].
    - split; [exact Hall | cbn [List.length]; lia].
    - destruct (IH (file_round rounds e) (file_round_aligned _ e Hall))
        as [I1 I2].
      split; [exact I1 |].
      rewrite I2, file_round_observations. cbn [List.length]. lia. }
  destruct (G [] (Forall_nil _)) as [G1 G2]. split; [exact G1 | exact G2].
Qed.

(** X9: in every round accumulator of a group the three series have
    the same length, one entry per observation and at least one; the
    flattened [all_round_durations_ms] of the group has exactly as many
    entries as its rounds hold together. *)
Theorem round_series_aligned (B : Builtins)
    (files : list (list line)) (provers : provers_t)
    (key : string) (ps : ProverStats)
    (Hload : load_and_aggregate files = Ok provers)
    (Hin : In (key, ps) provers) :
  (forall rk rs, In (rk, rs) (rounds_stats ps) -> round_aligned rs)
  /\ List.length (all_round_durations_ms ps)
     = round_observations (rounds_stats ps).
Proof.
  destruct (load_group _ _ _ _ Hload Hin) as [dss [d [_ [_ ->]]]].
  unfold group_of. fields.
  destruct (rounds_aligned
              (flat_map entries_of (outcomes_for key (List.concat dss))))
    as [A1 A2].
  split.
  - intros rk rs Hrs. rewrite Forall_forall in A1. exact (A1 _ Hrs).
  - rewrite A2, length_map. reflexivity.
Qed.

Lemma round_series_aligned_witness :
  (forall rk rs, In (rk, rs) (rounds_stats sample_notary) -> round_aligned rs)
  /\ List.length (all_round_durations_ms sample_notary)
     = round_observations (rounds_stats sample_notary).
Proof.
  apply (round_series_aligned sample_builtins sample_round_files
           sample_round_provers "TlsSingleShot (notary) [Bandwidth]").
  - vm_compute. reflexivity.
  - vm_compute. left. reflexivity.
Defined.

Lemma mapM_Forall {A B : Type} (f : A -> result B) (P : B -> Prop)
    (l : list A) (ys : list B) :
  (forall x y, f x = Ok y -> P y) -> mapM f l = Ok ys -> Forall P ys.
Proof.
  intros Hf. revert ys. induction l as [| a l IH]; simpl; intros ys E.
  - injection E as <-. constructor.
  - destruct (f a) as [b |] eqn:Ea; simpl in E; [| discriminate].
    destruct (mapM f l) as [bs |]; simpl in E; [| discriminate].
    injection E as <-. constructor; [eapply Hf; eauto | apply IH; reflexivity].
Qed.

Lemma parse_round_keyed (round_data : json) (e : RoundEntry) :
  parse_round round_data = Ok e -> entry_keyed e.
Proof.
  unfold parse_round, entry_keyed. intros E.
  apply bind_ok in E. destruct E as [rn [_ E]].
  apply bind_ok in E. destruct E as [rk [Ek E]].
  apply bind_ok in E. destruct E as [d [_ E]].
  apply bind_ok in E. destruct E as [rq [_ E]].
  apply bind_ok in E. destruct E as [rp [_ E]].
  injection E as <-. exact Ek.
Qed.

Lemma parse_outcome_keyed (record : json) (o : Outcome) :
  parse_outcome record = Ok o -> outcome_keyed o.
Proof.
  unfold parse_outcome, outcome_keyed. intros E.
  apply bind_ok in E. destruct E as [s [_ E]].
  destruct (py_truthy s); [| injection E as <-; constructor].
  apply bind_ok in E. destruct E as [results [_ E]].
  apply bind_ok in E. destruct E as [total [_ E]].
  apply bind_ok in E. destruct E as [setup [_ E]].
  apply bind_ok in E. destruct E as [rounds [_ E]].
  apply bind_ok in E. destruct E as [rl [_ E]].
  apply bind_ok in E. destruct E as [entries [Ee E]].
  injection E as <-. cbn [entries_of].
  exact (mapM_Forall _ _ _ _ parse_round_keyed Ee).
Qed.

Lemma digests_keyed (B : Builtins) (lines : list line)
    (dss : list (list Digest)) :
  mapM digest_line lines = Ok dss ->
  Forall (fun d => outcome_keyed (dg_outcome d)) (List.concat dss).
Proof.
  intros E. apply Forall_concat.
  apply (mapM_Forall digest_line
           (Forall (fun d => outcome_keyed (dg_outcome d))) lines dss);
    [| exact E].
  intros l ds El.
  destruct l as [| msg | j]; simpl in El.
  - injection El as <-. constructor.
  - discriminate.
  - apply bind_ok in El. destruct El as [d [Ed El]]. injection El as <-.
    repeat constructor. unfold digest in Ed.
    apply bind_ok in Ed. destruct Ed as [prover [_ Ed]].
    apply bind_ok in Ed. destruct Ed as [[[pt dom] opt] [_ Ed]].
    apply bind_ok in Ed. destruct Ed as [k [_ Ed]].
    apply bind_ok in Ed. destruct Ed as [o [Eo Ed]].
    injection Ed as <-. exact (parse_outcome_keyed _ _ Eo).
Qed.

Lemma group_entries_keyed (key : string) (ds : list Digest) :
  Forall (fun d => outcome_keyed (dg_outcome d)) ds ->
  Forall entry_keyed (flat_map entries_of (outcomes_for key ds)).
Proof.
  intros Hall. unfold outcomes_for. rewrite Forall_forall in *.
  intros e He. apply in_flat_map in He. destruct He as [o [Ho He]].
  apply in_map_iff in Ho. destruct Ho as [d [<- Hd]].
  apply filter_In in Hd. destruct Hd as [Hd _].
  specialize (Hall d Hd). unfold outcome_keyed in Hall.
  rewrite Forall_forall in Hall. exact (Hall e He).
Qed.

Lemma NoDup_rounds (es : list RoundEntry) :
  NoDup (map fst (fold_left file_round es [])).
Proof.
  apply (NoDup_fold_upsert rkey_eqb rkey_eqb_spec re_key
           (fun e => new_RoundStats (re_num e)) extend_round).
  constructor.
Qed.

(** X10: the rounds of a group have distinct keys, each accumulator is
    stored under the key of the round number it records, and looking
    that round number up again, as the renderers do for every key of
    [rounds_stats], finds the accumulator itself. *)
Theorem round_lookup_round_trip (B : Builtins)
    (files : list (list line)) (provers : provers_t)
    (key : string) (ps : ProverStats) (rk : rkey) (rs : RoundStats)
    (Hload : load_and_aggregate files = Ok provers)
    (Hin : In (key, ps) provers)
    (Hrs : In (rk, rs) (rounds_stats ps)) :
  NoDup (map fst (rounds_stats ps))
  /\ dict_key (round_num rs) = Ok rk
  /\ round_of ps (round_num rs) = Ok rs.
Proof.
  destruct (load_group _ _ _ _ Hload Hin) as [dss [d [Hd [_ ->]]]].
  unfold round_of. unfold group_of in *. cbn [rounds_stats] in *.
  pose proof (NoDup_rounds
                (flat_map entries_of (outcomes_for key (List.concat dss))))
    as Hnd.
  split; [exact Hnd |].
  apply (In_lookup rkey_eqb rkey_eqb_spec _ _ _ Hnd) in Hrs.
  pose proof Hrs as Hl. rewrite lookup_rounds in Hl.
  destruct (filter _ _) as [| e ek] eqn:Ef in Hl; [discriminate |].
  injection Hl as <-. cbn [round_num].
  assert (He : In e (filter (fun e => rkey_eqb rk (re_key e))
                       (flat_map entries_of
                          (outcomes_for key (List.concat dss)))))
    by (rewrite Ef; left; reflexivity).
  apply filter_In in He. destruct He as [He Hk].
  apply rkey_eqb_spec in Hk.
  pose proof (group_entries_keyed key _ (digests_keyed B _ _ Hd)) as Hall.
  rewrite Forall_forall in Hall. specialize (Hall e He).
  unfold entry_keyed in Hall. rewrite Hall, <- Hk. cbn [bind].
  split; [reflexivity |]. rewrite Hrs. reflexivity.
Qed.

Lemma round_lookup_round_trip_witness :
  NoDup (map fst (rounds_stats sample_notary))
  /\ dict_key (round_num sample_round_1) = Ok (KInt 1)
  /\ round_of sample_notary (round_num sample_round_1) = Ok sample_round_1.
Proof.
  apply (round_lookup_round_trip sample_builtins sample_round_files
           sample_round_provers "TlsSingleShot (notary) [Bandwidth]").
  - vm_compute. reflexivity.
  - vm_compute. left. reflexivity.
  - vm_compute. right. left. reflexivity.
Defined.

(** ** StatsEngine: the verdict and the summary *)

Lemma compute_ci_mean (S : SciLib) (x : json) (data : list json) (c : float)
    (mean ci_lower ci_upper : float) :
  compute_ci (x :: data) c = Ok (mean, ci_lower, ci_upper) ->
  np_mean (x :: data) = Ok mean.
Proof.
  unfold compute_ci. destruct (List.length (x :: data) <? 2)%nat; intros E.
  - apply bind_ok in E. destruct E as [m [Em E]]. congruence.
  - apply bind_ok in E. destruct E as [m [Em E]].
    apply bind_ok in E. destruct E as [sem [_ E]].
    apply bind_ok in E. destruct E as [ci [_ E]]. congruence.
Qed.

(** What [compute_stats] returns for a non-empty series. *)
Lemma compute_stats_ok (S : SciLib) (x : json) (data : list json)
    (s : list (string * json)) :
  compute_stats (x :: data) = Ok s ->
  exists mean ci_lower ci_upper std sem lo hi median,
    np_mean (x :: data) = Ok mean
    /\ compute_ci (x :: data) confidence_default
       = Ok (mean, ci_lower, ci_upper)
    /\ np_min (x :: data) = Ok lo
    /\ np_max (x :: data) = Ok hi
    /\ s = summary (Z.of_nat (List.length (x :: data)))
             mean ci_lower ci_upper std sem lo hi median.
Proof.
  unfold compute_stats. intros E.
  apply bind_ok in E. destruct E as [m0 [_ E]].
  apply bind_ok in E. destruct E as [std [_ E]].
  apply bind_ok in E. destruct E as [sem [_ E]].
  apply bind_ok in E. destruct E as [[[mean lo] hi] [Eci E]].
  apply bind_ok in E. destruct E as [mn [Emn E]].
  apply bind_ok in E. destruct E as [mx [Emx E]].
  apply bind_ok in E. destruct E as [md [_ E]].
  injection E as <-.
  exists mean, lo, hi, std, sem, mn, mx, md.
  split; [exact (compute_ci_mean _ _ _ _ _ _ _ Eci) |].
  repeat split; assumption.
Qed.

(** X11: in a summary [compute_stats] returns, a series with fewer
    than five observations, or whose mean is not greater than 0
    (negative, zero or NaN), is never an adequate sample; when the mean
    is not greater than 0 the summary of a non-empty series has
    [cv = 0] and [ci_width_pct = 100]. *)
Theorem never_adequate (S : SciLib) (data : list json)
    (s : list (string * json))
    (Hs : compute_stats data = Ok s)
    (Hcase : (List.length data < 5)%nat
             \/ forall mean, np_mean data = Ok mean ->
                             PrimFloat.ltb 0 mean = false) :
  dict_get s "adequate_sample" = Some (JBool false)
  /\ (data <> [] ->
      (forall mean, np_mean data = Ok mean -> PrimFloat.ltb 0 mean = false) ->
      dict_get s "cv" = Some (jint 0)
      /\ dict_get s "ci_width_pct" = Some (jint 100)).
Proof.
  destruct data as [| x data].
  { injection Hs as <-. split; [reflexivity | congruence]. }
  destruct (compute_stats_ok _ _ _ _ Hs)
    as (mean & lo & hi & std & sem & mn & mx & md & Em & _ & _ & _ & ->).
  unfold summary. split.
  - cbn [dict_get String.eqb Ascii.eqb Bool.eqb]. f_equal. f_equal.
    destruct Hcase as [Hn | Hm].
    + replace (5 <=? Z.of_nat (List.length (x :: data)))%Z with false
        by (symmetry; apply Z.leb_gt; lia).
      reflexivity.
    + rewrite (Hm _ Em). cbn [num_lt]. rewrite andb_false_r. reflexivity.
  - intros _ Hm. rewrite (Hm _ Em). split; reflexivity.
Qed.

Lemma never_adequate_witness :
  exists s,
    @compute_stats sample_scilib [jint 100; jint 101] = Ok s
    /\ dict_get s "adequate_sample" = Some (JBool false)
    /\ ([jint 100; jint 101] <> [] ->
        (forall mean,
            @np_mean sample_scilib [jint 100; jint 101] = Ok mean ->
            PrimFloat.ltb 0 mean = false) ->
        dict_get s "cv" = Some (jint 0)
        /\ dict_get s "ci_width_pct" = Some (jint 100)).
Proof.
  destruct (@compute_stats sample_scilib [jint 100; jint 101])
    as [s |] eqn:E; [| vm_compute in E; discriminate].
  exists s. split; [reflexivity |].
  apply (never_adequate sample_scilib [jint 100; jint 101] s E).
  left. simpl. lia.
Defined.

(** X12: the CSV export reads nine entries of a summary, and every
    summary [compute_stats] returns, the one of the empty series
    included, has all nine ([ci_width_pct], which the empty summary
    lacks, is not among them): writing a row never raises [KeyError],
    and a row that is written has the eleven cells of the header,
    starting with the key, the metric and the number of
    observations. *)
Theorem csv_row_of_summary (B : Builtins) (S : SciLib)
    (key metric : string) (data : list json) (s : list (string * json))
    (Hs : compute_stats data = Ok s) :
  Forall (fun k => dict_get s k <> None)
    ["n"; "mean"; "std"; "ci_lower"; "ci_upper"; "min"; "max"; "cv";
     "adequate_sample"]
  /\ dict_get s "n" = Some (jint (Z.of_nat (List.length data)))
  /\ (forall k, csv_row key metric s <> Raise (KeyError k))
  /\ (forall row,
        csv_row key metric s = Ok row ->
        List.length row = List.length csv_header
        /\ nth_error row 0 = Some (JStr key)
        /\ nth_error row 1 = Some (JStr metric)
        /\ nth_error row 2 = Some (jint (Z.of_nat (List.length data)))).
Proof.
  assert (Hrow : exists row,
             csv_row key metric s = Ok row
             /\ List.length row = List.length csv_header
             /\ nth_error row 0 = Some (JStr key)
             /\ nth_error row 1 = Some (JStr metric)
             /\ nth_error row 2 = Some (jint (Z.of_nat (List.length data)))).
  { destruct data as [| x data].
    - injection Hs as <-. eexists. repeat split; reflexivity.
    - destruct (compute_stats_ok _ _ _ _ Hs)
        as (mean & lo & hi & std & sem & mn & mx & md & _ & _ & _ & _ & ->).
      eexists. repeat split; reflexivity. }
  destruct Hrow as [row [Erow Hrow]].
  split; [| split; [| split]].
  - destruct data as [| x data].
    + injection Hs as <-. repeat constructor; discriminate.
    + destruct (compute_stats_ok _ _ _ _ Hs)
        as (mean & lo & hi & std & sem & mn & mx & md & _ & _ & _ & _ & ->).
      repeat constructor; discriminate.
  - destruct data as [| x data].
    + injection Hs as <-. reflexivity.
    + destruct (compute_stats_ok _ _ _ _ Hs)
        as (mean & lo & hi & std & sem & mn & mx & md & _ & _ & _ & _ & ->).
      reflexivity.
  - intros k. rewrite Erow. discriminate.
  - intros row' E. rewrite Erow in E. injection E as <-. exact Hrow.
Qed.

Lemma csv_row_of_summary_witness :
  exists s,
    @compute_stats sample_scilib [jint 100; jint 101] = Ok s
    /\ is_ok (@csv_row sample_builtins "Direct" "total_duration_ms" s) = true
    /\ Forall (fun k => dict_get s k <> None)
         ["n"; "mean"; "std"; "ci_lower"; "ci_upper"; "min"; "max"; "cv";
          "adequate_sample"]
    /\ dict_get s "n"
       = Some (jint (Z.of_nat (List.length [jint 100; jint 101])))
    /\ (forall k,
          @csv_row sample_builtins "Direct" "total_duration_ms" s
          <> Raise (KeyError k))
    /\ (forall row,
          @csv_row sample_builtins "Direct" "total_duration_ms" s = Ok row ->
          List.length row = List.length csv_header
          /\ nth_error row 0 = Some (JStr "Direct")
          /\ nth_error row 1 = Some (JStr "total_duration_ms")
          /\ nth_error row 2
             = Some (jint (Z.of_nat (List.length [jint 100; jint 101])))).
Proof.
  eexists. split; [vm_compute; reflexivity |]. split; [reflexivity |].
  apply (csv_row_of_summary sample_builtins sample_scilib
           "Direct" "total_duration_ms" [jint 100; jint 101]).
  vm_compute. reflexivity.
Defined.

(** ** SignificanceTester: how many tests, and their flags *)

Lemma significance_pairs_tested_iff_witness :
  ((In (("Direct", sample_direct),
        ("TlsSingleShot (notary) [Bandwidth]", sample_notary))
      (tested_pairs [("Direct", sample_direct);
                     ("TlsSingleShot (notary) [Bandwidth]", sample_notary)])
    \/ In (("TlsSingleShot (notary) [Bandwidth]", sample_notary),
           ("Direct", sample_direct))
         (tested_pairs [("Direct", sample_direct);
                        ("TlsSingleShot (notary) [Bandwidth]", sample_notary)]))
   <-> (2 <= List.length (total_durations_ms sample_direct)
        /\ 2 <= List.length (total_durations_ms sample_notary))%nat)
  /\ @perform_significance_tests sample_scilib
       [("Direct", sample_direct);
        ("TlsSingleShot (notary) [Bandwidth]", sample_notary)]
     = mapM (@entry_of sample_scilib)
         (tested_pairs [("Direct", sample_direct);
                        ("TlsSingleShot (notary) [Bandwidth]", sample_notary)])
  /\ forall e,
      @entry_of sample_scilib
        (("Direct", sample_direct),
         ("TlsSingleShot (notary) [Bandwidth]", sample_notary)) = Ok e ->
      @stats_ttest_ind sample_scilib
        (total_durations_ms sample_direct)
        (total_durations_ms sample_notary)
      = Ok (t_statistic e, p_value e).
Proof.
  apply (significance_pairs_tested_iff sample_scilib
           [("Direct", sample_direct);
            ("TlsSingleShot (notary) [Bandwidth]", sample_notary)]).
  - left. reflexivity.
  - right. left. reflexivity.
  - discriminate.
Defined.

Lemma ordered_pairs_length {A : Type} (l : list A) :
  (2 * List.length (ordered_pairs l)
   = List.length l * (List.length l - 1))%nat.
Proof.
  induction l as [| a l IH]; [reflexivity |].
  cbn [ordered_pairs List.length]. rewrite length_app, length_map.
  destruct l as [| b l]; [reflexivity |].
  cbn [List.length] in *. nia.
Qed.

Lemma filter_all {A : Type} (f : A -> bool) (l : list A) :
  (forall x, In x l -> f x = true) -> filter f l = l.
Proof.
  induction l as [| a l IH]; intros Hall; [reflexivity |].
  cbn [filter]. rewrite (Hall a (or_introl eq_refl)). f_equal.
  apply IH. intros x Hx. apply Hall. right. exact Hx.
Qed.

(** X13: [k] groups give at most [k (k - 1) / 2] tests, one per
    tested pair, and exactly that many when every group has at least
    two total durations. *)
Theorem significance_tests_count (S : SciLib) (provers : provers_t)
    (tests : list SigResult)
    (Hrun : perform_significance_tests provers = Ok tests) :
  List.length tests = List.length (tested_pairs provers)
  /\ (2 * List.length tests
      <= List.length provers * (List.length provers - 1))%nat
  /\ (Forall (fun kv => (2 <= List.length (total_durations_ms (snd kv)))%nat)
        provers ->
      (2 * List.length tests
       = List.length provers * (List.length provers - 1))%nat).
Proof.
  rewrite perform_significance_tests_spec in Hrun.
  apply mapM_length in Hrun. rewrite Hrun. split; [reflexivity |].
  rewrite <- ordered_pairs_length. unfold tested_pairs. split.
  - pose proof (filter_length_le enough_data (ordered_pairs provers)). lia.
  - intros Hall. rewrite filter_all; [reflexivity |].
    intros [a b] Hab. destruct (ordered_pairs_In _ _ _ Hab) as [Ha Hb].
    rewrite Forall_forall in Hall. unfold enough_data. cbn [fst snd].
    apply andb_true_iff. split; apply Nat.leb_le; apply Hall; assumption.
Qed.

Lemma significance_tests_count_witness :
  exists tests,
    @perform_significance_tests sample_scilib
      [("Direct", sample_direct);
       ("TlsSingleShot (notary) [Bandwidth]", sample_notary)] = Ok tests
    /\ List.length tests
       = List.length
           (tested_pairs
              [("Direct", sample_direct);
               ("TlsSingleShot (notary) [Bandwidth]", sample_notary)])
    /\ (2 * List.length tests <= 2 * (2 - 1))%nat
    /\ (Forall (fun kv =>
                  (2 <= List.length (total_durations_ms (snd kv)))%nat)
          [("Direct", sample_direct);
           ("TlsSingleShot (notary) [Bandwidth]", sample_notary)] ->
        (2 * List.length tests = 2 * (2 - 1))%nat).
Proof.
  destruct (@perform_significance_tests sample_scilib
              [("Direct", sample_direct);
               ("TlsSingleShot (notary) [Bandwidth]", sample_notary)])
    as [tests |] eqn:E; [| vm_compute in E; discriminate].
  exists tests. split; [reflexivity |].
  apply (significance_tests_count sample_scilib
           [("Direct", sample_direct);
            ("TlsSingleShot (notary) [Bandwidth]", sample_notary)] tests E).
Defined.

Lemma ltb_001_005 (p : float) :
  PrimFloat.ltb p 0.01%float = true -> PrimFloat.ltb p 0.05%float = true.
Proof.
  rewrite !ltb_spec.
  replace (Prim2SF 0.01%float)
    with (S754_finite false 5764607523034235 (-59))
    by (vm_compute; reflexivity).
  replace (Prim2SF 0.05%float)
    with (S754_finite false 7205759403792794 (-57))
    by (vm_compute; reflexivity).
  destruct (Prim2SF p) as [s | s | | s m e]; unfold SFltb, SFcompare.
  - destruct s; intros; reflexivity.
  - destruct s; intros H; [reflexivity | discriminate].
  - discriminate.
  - destruct s; [reflexivity |].
    destruct (Z.compare_spec e (-59)) as [-> | Hlt | Hgt]; intros H.
    + reflexivity.
    + destruct (Z.compare_spec e (-57)); [lia | reflexivity | lia].
    + discriminate.
Qed.

(** NaN is below no number. *)
Lemma ltb_nan (p c : float) :
  PrimFloat.eqb p p = false -> PrimFloat.ltb p c = false.
Proof.
  rewrite eqb_spec, ltb_spec. unfold SFeqb, SFltb.
  destruct (Prim2SF p) as [s | s | | s m e].
  - discriminate.
  - destruct s; discriminate.
  - intros _. reflexivity.
  - cbn [SFcompare]. destruct s.
    + rewrite Z.compare_refl, Pos.compare_cont_refl. discriminate.
    + rewrite Z.compare_refl, Pos.compare_cont_refl. discriminate.
Qed.

(** X14: the two flags of an emitted test are the comparisons of its
    p-value with 0.05 and 0.01, so a test flagged at 0.01 is flagged at
    0.05 as well, and a NaN p-value is flagged at neither level. *)
Theorem significance_flags_nested (S : SciLib) (provers : provers_t)
    (tests : list SigResult) (r : SigResult)
    (Hrun : perform_significance_tests provers = Ok tests)
    (Hin : In r tests) :
  significant_005 r = PrimFloat.ltb (p_value r) 0.05%float
  /\ significant_001 r = PrimFloat.ltb (p_value r) 0.01%float
  /\ (significant_001 r = true -> significant_005 r = true)
  /\ (PrimFloat.eqb (p_value r) (p_value r) = false ->
      significant_005 r = false /\ significant_001 r = false).
Proof.
  rewrite perform_significance_tests_spec in Hrun.
  destruct (mapM_In_inv _ _ _ _ Hrun Hin) as [[[k1 ps1] [k2 ps2]] [_ E]].
  unfold entry_of in E. cbn [fst snd] in E.
  destruct (welch_entry_ok _ _ _ _ _ _ E)
    as (t & p & _ & _ & _ & Hp & H5 & H1).
  rewrite H5, H1, Hp.
  split; [reflexivity |]. split; [reflexivity |].
  split; [apply ltb_001_005 |].
  intros Hnan. split; apply ltb_nan; exact Hnan.
Qed.

Lemma significance_flags_nested_witness :
  exists tests r,
    @perform_significance_tests sample_scilib
      [("Direct", sample_direct);
       ("TlsSingleShot (notary) [Bandwidth]", sample_notary)] = Ok tests
    /\ In r tests
    /\ significant_005 r = PrimFloat.ltb (p_value r) 0.05%float
    /\ significant_001 r = PrimFloat.ltb (p_value r) 0.01%float
    /\ (significant_001 r = true -> significant_005 r = true)
    /\ (PrimFloat.eqb (p_value r) (p_value r) = false ->
        significant_005 r = false /\ significant_001 r = false).
Proof.
  eexists. eexists.
  split; [vm_compute; reflexivity |].
  split; [left; reflexivity |].
  eapply (significance_flags_nested sample_scilib
            [("Direct", sample_direct);
             ("TlsSingleShot (notary) [Bandwidth]", sample_notary)]);
    [vm_compute; reflexivity | left; reflexivity].
Defined.

(** ** Renderers: what the exports hold *)

Section ExportFacts.
Context `{B : Builtins} `{S : SciLib}.

Lemma csv_row_length (key metric : string) (s : list (string * json))
    (row : list json) :
  csv_row key metric s = Ok row -> List.length row = 11%nat.
Proof.
  unfold csv_row. intros E.
  repeat (apply bind_ok in E; destruct E as [? [_ E]]).
  injection E as <-. reflexivity.
Qed.

Lemma csv_group_lengths (key : string) (ps : ProverStats)
    (rows : list (list json)) (row : list json) :
  csv_group (key, ps) = Ok rows -> In row rows -> List.length row = 11%nat.
Proof.
  unfold csv_group. destruct (success_count ps =? 0)%Z.
  - intros [= <-] [].
  - intros E Hin.
    apply bind_ok in E. destruct E as [s [_ E]].
    apply bind_ok in E. destruct E as [total [Et E]].
    apply bind_ok in E. destruct E as [setup [Es E]].
    apply bind_ok in E. destruct E as [avg [Ea E]].
    apply bind_ok in E. destruct E as [keys [_ E]].
    apply bind_ok in E. destruct E as [rounds [Er E]].
    injection E as <-.
    destruct Hin as [<- | Hin]; [eapply csv_row_length; eauto |].
    apply in_app_or in Hin. destruct Hin as [Hin | Hin].
    { destruct (setup_times_ms ps); [injection Es as <-; destruct Hin |].
      apply bind_ok in Es. destruct Es as [s' [_ Es]].
      apply bind_ok in Es. destruct Es as [r [Hr Es]]. injection Es as <-.
      destruct Hin as [<- | []]. eapply csv_row_length; eauto. }
    apply in_app_or in Hin. destruct Hin as [Hin | Hin].
    { destruct (all_round_durations_ms ps);
        [injection Ea as <-; destruct Hin |].
      apply bind_ok in Ea. destruct Ea as [s' [_ Ea]].
      apply bind_ok in Ea. destruct Ea as [r [Hr Ea]]. injection Ea as <-.
      destruct Hin as [<- | []]. eapply csv_row_length; eauto. }
    destruct (mapM_In_inv _ _ _ _ Er Hin) as [rn [_ Ern]].
    unfold csv_round in Ern. apply bind_ok in Ern.
    destruct Ern as [rs [_ Ern]]. apply bind_ok in Ern.
    destruct Ern as [s' [_ Ern]]. eapply csv_row_length; eauto.
Qed.

Lemma json_group_spec (key : string) (ps : ProverStats)
    (entries : list (string * ProverData)) :
  json_group (key, ps) = Ok entries ->
  (success_count ps = 0%Z /\ entries = [])
  \/ (success_count ps <> 0%Z
      /\ exists pd,
          entries = [(key, pd)]
          /\ pd_success_count pd = success_count ps
          /\ pd_failure_count pd = failure_count ps
          /\ compute_stats (total_durations_ms ps)
             = Ok (pd_total_duration pd)
          /\ (pd_setup_time pd = None <-> setup_times_ms ps = [])
          /\ (pd_avg_round_duration pd = None
              <-> all_round_durations_ms ps = [])).
Proof.
  unfold json_group. destruct (success_count ps =? 0)%Z eqn:Ez.
  - apply Z.eqb_eq in Ez. intros [= <-]. left. auto.
  - apply Z.eqb_neq in Ez. intros E. right. split; [exact Ez |].
    apply bind_ok in E. destruct E as [total [Et E]].
    apply bind_ok in E. destruct E as [setup [Es E]].
    apply bind_ok in E. destruct E as [avg [Ea E]].
    apply bind_ok in E. destruct E as [keys [_ E]].
    apply bind_ok in E. destruct E as [per_round [_ E]].
    injection E as <-. eexists. split; [reflexivity |].
    cbn [pd_success_count pd_failure_count pd_total_duration pd_setup_time
         pd_avg_round_duration].
    split; [reflexivity |]. split; [reflexivity |]. split; [exact Et |].
    split.
    + destruct (setup_times_ms ps).
      * injection Es as <-. tauto.
      * apply bind_ok in Es. destruct Es as [s' [_ Es]]. injection Es as <-.
        split; discriminate.
    + destruct (all_round_durations_ms ps).
      * injection Ea as <-. tauto.
      * apply bind_ok in Ea. destruct Ea as [s' [_ Ea]]. injection Ea as <-.
        split; discriminate.
Qed.

Lemma json_groups_keys (items : provers_t)
    (groups : list (list (string * ProverData))) :
  mapM json_group items = Ok groups ->
  map fst (List.concat groups) = map fst (filter exported items).
Proof.
  revert groups. induction items as [| [key ps] items IH]; cbn [mapM];
    intros groups E.
  - injection E as <-. reflexivity.
  - destruct (json_group (key, ps)) as [entries |] eqn:Eg; cbn [bind] in E;
      [| discriminate].
    destruct (mapM json_group items) as [gs |]; cbn [bind] in E;
      [| discriminate].
    injection E as <-. cbn [List.concat filter].
    rewrite map_app, (IH gs eq_refl).
    unfold exported at 2. cbn [snd].
    destruct (json_group_spec _ _ _ Eg) as [[Hz ->] | [Hnz [pd [-> _]]]].
    + rewrite Hz. reflexivity.
    + apply Z.eqb_neq in Hnz. rewrite Hnz. reflexivity.
Qed.

(** The heading of a group is printed before anything of the group is
    computed. *)
Lemma report_group_heading (key : string) (ps : ProverStats) :
  exists rest,
    printed (report_group (key, ps)) = (report_heading key ps ++ rest)%list.
Proof.
  unfold report_group.
  exact (pbind_printed (print_chunks (report_heading key ps)) _).
Qed.
End ExportFacts.

(** X15: every row [export_csv] writes has the eleven cells of the
    header, which comes first, and every row after it starts with the
    key of a group that has at least one success. *)
Theorem export_csv_rows_shape (B : Builtins) (S : SciLib)
    (provers : provers_t) (rows : list (list json))
    (Hcsv : export_csv provers = Ok rows) :
  hd_error rows = Some csv_header
  /\ Forall (fun row => List.length row = 11%nat) rows
  /\ Forall (fun row =>
               exists key ps,
                 In (key, ps) provers /\ success_count ps <> 0%Z
                 /\ hd_error row = Some (JStr key)) (tl rows).
Proof.
  unfold export_csv in Hcsv.
  apply bind_ok in Hcsv. destruct Hcsv as [groups [Eg E]]. injection E as <-.
  split; [reflexivity |]. split.
  - constructor; [reflexivity |].
    apply Forall_forall. intros row Hrow. apply in_concat in Hrow.
    destruct Hrow as [grp [Hg Hrow]].
    destruct (mapM_In_inv _ _ _ _ Eg Hg) as [[k ps] [_ Ek]].
    exact (csv_group_lengths _ _ _ _ Ek Hrow).
  - cbn [tl]. apply Forall_forall. intros row Hrow. apply in_concat in Hrow.
    destruct Hrow as [grp [Hg Hrow]].
    destruct (mapM_In_inv _ _ _ _ Eg Hg) as [[k ps] [Hitem Ek]].
    destruct (csv_group_rows _ _ _ _ Ek Hrow) as [Hnz Hk].
    exists k, ps. repeat split; try assumption.
    eapply Permutation_in; [apply sorted_items_Permutation | exact Hitem].
Qed.

Lemma export_csv_rows_shape_witness :
  hd_error
    [csv_header;
     [JStr "Direct"; JStr "total_duration_ms"; jint 5; JStr "100.00";
      JStr "1.58"; JStr "100.00"; JStr "100.00"; JStr "98.00";
      JStr "102.00"; JStr "1.58"; JBool true]] = Some csv_header
  /\ Forall (fun row => List.length row = 11%nat)
       [csv_header;
        [JStr "Direct"; JStr "total_duration_ms"; jint 5; JStr "100.00";
         JStr "1.58"; JStr "100.00"; JStr "100.00"; JStr "98.00";
         JStr "102.00"; JStr "1.58"; JBool true]]
  /\ Forall (fun row =>
               exists key ps,
                 In (key, ps) sample_provers /\ success_count ps <> 0%Z
                 /\ hd_error row = Some (JStr key))
       (tl [csv_header;
            [JStr "Direct"; JStr "total_duration_ms"; jint 5; JStr "100.00";
             JStr "1.58"; JStr "100.00"; JStr "100.00"; JStr "98.00";
             JStr "102.00"; JStr "1.58"; JBool true]]).
Proof.
  apply (export_csv_rows_shape sample_builtins sample_scilib sample_provers).
  vm_compute. reflexivity.
Defined.

(** X16: the data [export_json] builds passes the significance tests
    on unchanged and holds exactly the groups with at least one
    success, each with the two counts of its group and the summary of
    its total durations; [setup_time] and [avg_round_duration] are
    null exactly when the group has no setup time, no round. *)
Theorem export_json_groups (B : Builtins) (S : SciLib)
    (provers : provers_t) (tests : list SigResult) (data : ExportData)
    (Hjson : export_json provers tests = Ok data) :
  ex_significance_tests data = tests
  /\ (forall key pd,
        In (key, pd) (ex_provers data) ->
        exists ps,
          In (key, ps) provers /\ success_count ps <> 0%Z
          /\ pd_success_count pd = success_count ps
          /\ pd_failure_count pd = failure_count ps
          /\ compute_stats (total_durations_ms ps)
             = Ok (pd_total_duration pd)
          /\ (pd_setup_time pd = None <-> setup_times_ms ps = [])
          /\ (pd_avg_round_duration pd = None
              <-> all_round_durations_ms ps = []))
  /\ (forall key ps,
        In (key, ps) provers -> success_count ps <> 0%Z ->
        In key (map fst (ex_provers data))).
Proof.
  unfold export_json in Hjson.
  apply bind_ok in Hjson. destruct Hjson as [groups [Eg E]]. injection E as <-.
  cbn [ex_significance_tests ex_provers].
  split; [reflexivity |]. split.
  - intros key pd Hin. apply in_concat in Hin.
    destruct Hin as [entries [He Hin]].
    destruct (mapM_In_inv _ _ _ _ Eg He) as [[k ps] [Hitem Ek]].
    destruct (json_group_spec _ _ _ Ek) as [[_ ->] | [Hnz [pd' [-> Hpd]]]];
      [destruct Hin |].
    destruct Hin as [[= <- <-] | []]. exists ps.
    split; [| split; [exact Hnz | exact Hpd]].
    eapply Permutation_in; [apply sorted_items_Permutation | exact Hitem].
  - intros key ps Hin Hnz.
    rewrite (json_groups_keys _ _ Eg). apply in_map_iff.
    exists (key, ps). split; [reflexivity |]. apply filter_In. split.
    + eapply Permutation_in;
        [apply Permutation_sym, sorted_items_Permutation | exact Hin].
    + unfold exported. cbn [snd]. apply negb_true_iff, Z.eqb_neq, Hnz.
Qed.

Lemma export_json_groups_witness :
  exists data,
    @export_json sample_builtins sample_scilib sample_mixed_provers
      sample_mixed_tests = Ok data
    /\ map fst (ex_provers data)
       = ["Direct"; "TlsSingleShot (notary) [Bandwidth]"]
    /\ List.length sample_mixed_tests = 1%nat
    /\ ex_significance_tests data = sample_mixed_tests
    /\ (forall key pd,
          In (key, pd) (ex_provers data) ->
          exists ps,
            In (key, ps) sample_mixed_provers
            /\ success_count ps <> 0%Z
            /\ pd_success_count pd = success_count ps
            /\ pd_failure_count pd = failure_count ps
            /\ @compute_stats sample_scilib (total_durations_ms ps)
               = Ok (pd_total_duration pd)
            /\ (pd_setup_time pd = None <-> setup_times_ms ps = [])
            /\ (pd_avg_round_duration pd = None
                <-> all_round_durations_ms ps = []))
    /\ (forall key ps,
          In (key, ps) sample_mixed_provers ->
          success_count ps <> 0%Z ->
          In key (map fst (ex_provers data))).
Proof.
  eexists.
  split; [vm_compute; reflexivity |].
  split; [reflexivity |]. split; [reflexivity |].
  apply (export_json_groups sample_builtins sample_scilib
           sample_mixed_provers sample_mixed_tests).
  vm_compute. reflexivity.
Defined.

(** ** Renderers: the order of the groups *)











(** ** Renderers: the report *)

(** X19: a group of an ingested batch that has a success has total
    durations, so the summary the report computes for it is never the
    one of the empty series, which has no [ci_width_pct] and on which
    the adequacy section stops with [KeyError] right after its title:
    the summary returned for the group holds every entry the adequacy
    section reads. *)
Theorem report_sections_safe (B : Builtins) (S : SciLib)
    (files : list (list line)) (provers : provers_t)
    (key : string) (ps : ProverStats)
    (Hload : load_and_aggregate files = Ok provers)
    (Hin : In (key, ps) provers)
    (Hsucc : success_count ps <> 0%Z) :
  total_durations_ms ps <> []
  /\ (forall s,
        compute_stats (total_durations_ms ps) = Ok s ->
        Forall (fun k => is_ok (stat s k) = true)
          ["adequate_sample"; "n"; "cv"; "ci_width_pct"; "std"; "mean"])
  /\ (s <~ eval (compute_stats []) ;; report_adequacy s)
     = ([say (nl ++ "📏 SAMPLE ADEQUACY")], Raise (KeyError "ci_width_pct")).
Proof.
  assert (Hne : total_durations_ms ps <> []).
  { destruct (load_group _ _ _ _ Hload Hin) as [dss [d [_ [_ ->]]]].
    unfold group_of in *. cbn [total_durations_ms success_count] in *.
    rewrite <- totals_length in Hsucc.
    destruct (flat_map totals_of _); [contradiction | discriminate]. }
  split; [exact Hne |].
  destruct (total_durations_ms ps) as [| x data]; [contradiction |].
  split; [| reflexivity].
  intros s Hs.
  destruct (compute_stats_ok _ _ _ _ Hs)
    as (mean & lo & hi & std & sem & mn & mx & md & _ & _ & _ & _ & ->).
  repeat constructor.
Qed.

Lemma report_sections_safe_witness :
  total_durations_ms sample_direct <> []
  /\ (forall s,
        @compute_stats sample_scilib (total_durations_ms sample_direct)
        = Ok s ->
        Forall (fun k => is_ok (stat s k) = true)
          ["adequate_sample"; "n"; "cv"; "ci_width_pct"; "std"; "mean"])
  /\ (s <~ eval (@compute_stats sample_scilib []) ;;
      @report_adequacy sample_builtins sample_scilib s)
     = ([say (nl ++ "📏 SAMPLE ADEQUACY")], Raise (KeyError "ci_width_pct")).
Proof.
  apply (report_sections_safe sample_builtins sample_scilib sample_files
           sample_provers "Direct").
  - vm_compute. reflexivity.
  - vm_compute. left. reflexivity.
  - discriminate.
Defined.

(** X20: a report that is written to its end holds, for every group
    of the mapping, with or without successes, the heading of the group
    and its run counts, between the banner and a last empty line. *)
Theorem print_report_lists_every_group (B : Builtins) (S : SciLib)
    (provers : provers_t) (tests : list SigResult) (out : list string)
    (key : string) (ps : ProverStats)
    (Hout : print_report provers tests = (out, Ok tt))
    (Hin : In (key, ps) provers) :
  (forall chunk, In chunk (report_heading key ps) -> In chunk out)
  /\ In (say ("PROVER: " ++ key)) out
  /\ hd_error out = Some (say (str_repeat "=" 80))
  /\ last out EmptyString = say EmptyString.
Proof.
  rewrite print_report_spec in Hout.
  destruct (for_each report_group (sorted_items provers))
    as [groups [[] | e]] eqn:Eg; cbn [outcome printed fst snd] in Hout;
    [| discriminate].
  apply (f_equal fst) in Hout. cbn [fst] in Hout. subst out.
  assert (Hitem : In (key, ps) (sorted_items provers))
    by (eapply Permutation_in;
        [apply Permutation_sym, sorted_items_Permutation | exact Hin]).
  destruct (for_each_ok _ _ _ _ Eg Hitem) as [_ Hincl].
  destruct (report_group_heading key ps) as [rest Hrest].
  assert (Hall : forall chunk, In chunk (report_heading key ps) ->
                 In chunk (report_banner ++ groups ++ report_tests tests
                           ++ [say EmptyString])%list).
  { intros chunk Hchunk. apply in_or_app. right. apply in_or_app. left.
    apply Hincl. rewrite Hrest. apply in_or_app. left. exact Hchunk. }
  split; [exact Hall |]. split.
  - apply Hall. unfold report_heading. right. left. reflexivity.
  - split; [reflexivity |].
    rewrite !app_assoc. apply last_last.
Qed.

Lemma print_report_lists_every_group_witness :
  exists out,
    @print_report sample_builtins sample_scilib sample_provers []
    = (out, Ok tt)
    /\ (forall chunk,
          In chunk (@report_heading sample_builtins "Direct" sample_direct) ->
          In chunk out)
    /\ In (say ("PROVER: " ++ "Direct")) out
    /\ hd_error out = Some (say (str_repeat "=" 80))
    /\ last out EmptyString = say EmptyString.
Proof.
  eexists. split; [vm_compute; reflexivity |].
  eapply (print_report_lists_every_group sample_builtins sample_scilib
            sample_provers [] _ "Direct" sample_direct).
  - vm_compute. reflexivity.
  - left. reflexivity.
Defined.

(** ** Command line *)

Section MainFacts.
Context `{B : Builtins} `{S : SciLib} `{F : FileSystem}.

Lemma expand_files_unmatched (patterns files warnings : list string) :
  Forall (fun p => path_exists p = false /\ path_glob p = Some []) patterns ->
  expand_files patterns files warnings
  = Some (files, (warnings ++ map no_match_warning patterns)%list).
Proof.
  revert files warnings.
  induction patterns as [| p patterns IH]; intros files warnings Hall;
    cbn [expand_files map].
  - rewrite app_nil_r. reflexivity.
  - inversion Hall as [| ? ? [Hp Hg] Hrest]; subst.
    rewrite Hp, Hg, (IH _ _ Hrest), <- app_assoc. reflexivity.
Qed.

Lemma expand_files_existing (patterns files warnings : list string) :
  Forall (fun p => path_exists p = true) patterns ->
  expand_files patterns files warnings
  = Some ((files ++ patterns)%list, warnings).
Proof.
  revert files warnings.
  induction patterns as [| p patterns IH]; intros files warnings Hall;
    cbn [expand_files].
  - rewrite app_nil_r. reflexivity.
  - inversion Hall as [| ? ? Hp Hrest]; subst.
    rewrite Hp, (IH _ _ Hrest), <- app_assoc. reflexivity.
Qed.

Lemma load_paths_readable (paths : list string) (contents : list (list line))
    (provers : provers_t) :
  Forall2 (fun p c => open_lines p = Some c) paths contents ->
  load_paths paths provers
  = Some (foldM (fun provers f => foldM ingest_line f provers)
            contents provers).
Proof.
  intros Hall. revert provers.
  induction Hall as [| p c paths contents Hp _ IH]; intros provers;
    cbn [load_paths foldM]; [reflexivity |].
  rewrite Hp. destruct (foldM ingest_line c provers); cbn [bind];
    [apply IH | reflexivity].
Qed.

Lemma render_not_exit (format : out_format) (output : option string)
    (provers : provers_t) (tests : list SigResult) (code : Z) :
  render format output provers tests <> Exited code.
Proof.
  unfold render. destruct format.
  - destruct (print_report provers tests) as [chunks [[] | e]]; discriminate.
  - destruct (export_csv provers); discriminate.
  - destruct (export_json provers tests); discriminate.
Qed.
End MainFacts.

(** X21: when no pattern names an existing file or matches one,
    [main] prints one warning per pattern, in order, then the error,
    and exits with status 1 without opening any file. *)
Theorem main_without_files (B : Builtins) (S : SciLib) (F : FileSystem)
    (patterns : list string) (format : out_format) (output : option string)
    (Hnone : Forall (fun p => path_exists p = false
                              /\ path_glob p = Some []) patterns) :
  main patterns format output
  = mkRun (map no_match_warning patterns
           ++ [say "Error: No benchmark files found."])%list
      (Exited 1).
Proof.
  unfold main. rewrite (expand_files_unmatched _ _ _ Hnone). reflexivity.
Qed.

Lemma main_without_files_witness :
  @main sample_builtins sample_scilib sample_fs
    ["missing.jsonl"; "runs/*.json"] FmtCsv None
  = mkRun (map no_match_warning ["missing.jsonl"; "runs/*.json"]
           ++ [say "Error: No benchmark files found."])%list
      (Exited 1).
Proof.
  apply (main_without_files sample_builtins sample_scilib sample_fs).
  repeat constructor.
Defined.

(** X22: on files that exist and open, [main] announces their number
    and then ends as [load_and_aggregate] on their contents decides:
    with its exception if it raises, with the error and status 1 if
    the mapping is empty, else with the exception of the significance
    tests if they raise, else with the chosen renderer applied to the
    mapping and to the tests of that mapping; so it exits with a
    status exactly when the files ingest and all their lines are
    blank. *)
Theorem main_on_readable_files (B : Builtins) (S : SciLib) (F : FileSystem)
    (path : string) (paths : list string) (contents : list (list line))
    (format : out_format) (output : option string)
    (Hexist : Forall (fun p => path_exists p = true) (path :: paths))
    (Hopen : Forall2 (fun p c => open_lines p = Some c)
               (path :: paths) contents) :
  main (path :: paths) format output
  = match load_and_aggregate contents with
    | Raise e => mkRun [analyzing_message (path :: paths)] (Escaped e)
    | Ok [] =>
        mkRun [analyzing_message (path :: paths);
               say "Error: No benchmark data found in files."] (Exited 1)
    | Ok provers =>
        match perform_significance_tests provers with
        | Raise e => mkRun [analyzing_message (path :: paths)] (Escaped e)
        | Ok tests =>
            mkRun [analyzing_message (path :: paths)]
              (render format output provers tests)
        end
    end
  /\ ((exists code, run_end (main (path :: paths) format output) = Exited code)
      <-> is_ok (load_and_aggregate contents) = true
          /\ forallb is_blank (lines_of contents) = true).
Proof.
  assert (Hmain :
    main (path :: paths) format output
    = match load_and_aggregate contents with
      | Raise e => mkRun [analyzing_message (path :: paths)] (Escaped e)
      | Ok [] =>
          mkRun [analyzing_message (path :: paths);
                 say "Error: No benchmark data found in files."] (Exited 1)
      | Ok provers =>
          match perform_significance_tests provers with
          | Raise e => mkRun [analyzing_message (path :: paths)] (Escaped e)
          | Ok tests =>
              mkRun [analyzing_message (path :: paths)]
                (render format output provers tests)
          end
      end).
  { unfold main. rewrite (expand_files_existing _ _ _ Hexist).
    cbn [app]. rewrite (load_paths_readable _ _ _ Hopen).
    unfold load_and_aggregate.
    destruct (foldM (fun provers f => foldM ingest_line f provers)
                contents []) as [[| item provers] | e]; reflexivity. }
  split; [exact Hmain |].
  rewrite Hmain.
  destruct (load_and_aggregate contents) as [provers | e] eqn:El.
  - destruct (load_ok _ _ El) as [dss [Hd Hp]].
    pose proof (digests_blank _ _ Hd) as Hb.
    pose proof (aggregate_nil (List.concat dss)) as Hn.
    destruct provers as [| item provers]; cbn [run_end is_ok].
    + split; [intros _ | eauto].
      split; [reflexivity |]. apply Hb, Hn. symmetry. exact Hp.
    + split.
      * intros [code Hc]. exfalso.
        destruct (perform_significance_tests (item :: provers));
          cbn [run_end] in Hc; [| discriminate].
        exact (render_not_exit _ _ _ _ _ Hc).
      * intros [_ Hblank]. apply Hb, Hn in Hblank. congruence.
  - cbn [run_end is_ok]. split; [intros [code Hc]; discriminate |].
    intros [Hok _]. discriminate.
Qed.

Lemma main_on_readable_files_witness :
  @main sample_builtins sample_scilib sample_fs
    ["a.jsonl"; "b.jsonl"] FmtCsv None
  = match @load_and_aggregate sample_builtins sample_files with
    | Raise e => mkRun [analyzing_message ["a.jsonl"; "b.jsonl"]] (Escaped e)
    | Ok [] =>
        mkRun [analyzing_message ["a.jsonl"; "b.jsonl"];
               say "Error: No benchmark data found in files."] (Exited 1)
    | Ok provers =>
        match @perform_significance_tests sample_scilib provers with
        | Raise e =>
            mkRun [analyzing_message ["a.jsonl"; "b.jsonl"]] (Escaped e)
        | Ok tests =>
            mkRun [analyzing_message ["a.jsonl"; "b.jsonl"]]
              (@render sample_builtins sample_scilib FmtCsv None provers
                 tests)
        end
    end
  /\ ((exists code,
         run_end (@main sample_builtins sample_scilib sample_fs
                    ["a.jsonl"; "b.jsonl"] FmtCsv None) = Exited code)
      <-> is_ok (@load_and_aggregate sample_builtins sample_files) = true
          /\ forallb is_blank (lines_of sample_files) = true).
Proof.
  apply (main_on_readable_files sample_builtins sample_scilib sample_fs
           "a.jsonl" ["b.jsonl"] sample_files).
  - repeat constructor.
  - repeat constructor.
Defined.
